(** * Verification of [scripts/train.py]

    A shallow embedding of the training harness: the epoch loop of
    [train_and_evaluate] with its early-stopping rule, and the orchestrator
    [main_train] with its incremental persistence of results.

    Python floats are IEEE-754 binary64 values; they are modelled by the
    Standard Library's executable specification [spec_float] at precision 53
    and maximal exponent 1024.  The torch, sklearn, pandas and [src.utils]
    collaborators are not part of the script: they are the fields of the
    class [Collaborators], and every statement is proved for all of them. *)

From Stdlib Require Import ZArith List Ascii String Bool Lia.
From Stdlib Require Import Floats.SpecFloat.
From stdpp Require Import base tactics option list strings pretty gmap.

Import ListNotations.
Local Open Scope string_scope.
Local Open Scope list_scope.

(** ** Python floats *)

Module PyFloat.

Definition float : Type := spec_float.

Definition prec : Z := 53.
Definition emax : Z := 1024.

(** [float("inf")] and the literal [0.0]. *)
Definition inf : float := S754_infinity false.
Definition zero : float := S754_zero false.

(** [x + y], [x / y] (for a non-zero [y]) and [x < y] on floats. *)
Definition add (x y : float) : float := SFadd prec emax x y.
Definition div (x y : float) : float := SFdiv prec emax x y.
Definition ltb (x y : float) : bool := SFltb x y.

(** [math.isfinite]. *)
Definition is_finite (x : float) : bool :=
  match x with
  | S754_zero _ | S754_finite _ _ _ => true
  | S754_infinity _ | S754_nan => false
  end.

Definition is_zero (x : float) : bool :=
  match x with
  | S754_zero _ => true
  | _ => false
  end.

(** The correctly rounded conversion of a Python int. *)
Definition of_Z (z : Z) : float := binary_normalize prec emax z 0 false.

(** The literal [0.2]. *)
Definition lit_0_2 : float := S754_finite false 7205759403792794 (-55).

(** The accumulation [acc = 0.0; for x in l: acc += x]. *)
Definition sum (l : list float) : float := fold_left add l zero.

End PyFloat.

Abbreviation float := PyFloat.float.

(** ** Python values, dictionaries and exceptions *)

Inductive pyval : Type :=
| PyNone
| PyBool (b : bool)
| PyInt (z : Z)
| PyFloat (f : float)
| PyStr (s : string).

(** A [dict] keeps its keys in insertion order, which is the order of the
    columns of the result file and of the keys of the loss-history file. *)
Definition dict (V : Type) : Type := list (string * V).

Section Dict.
Context {V : Type}.

Fixpoint dict_get (d : dict V) (k : string) : option V :=
  match d with
  | [] => None
  | (k', v) :: d' => if String.eqb k k' then Some v else dict_get d' k
  end.

(** [d[k] = v]: an existing key keeps its position. *)
Fixpoint dict_set (d : dict V) (k : string) (v : V) : dict V :=
  match d with
  | [] => [(k, v)]
  | (k', v') :: d' =>
      if String.eqb k k' then (k', v) :: d' else (k', v') :: dict_set d' k v
  end.

(** [{**d, **e}]: the items of [e] are set one after the other. *)
Definition dict_update (d e : dict V) : dict V :=
  fold_left (fun acc kv => dict_set acc (fst kv) (snd kv)) e d.

Definition dict_keys (d : dict V) : list string := map fst d.

End Dict.

Inductive exn : Type :=
| KeyError (key : string)
| AssertionError (msg : string)
| ValueError (msg : string)
| ZeroDivisionError (msg : string)
| OverflowError (msg : string)
| IndexError (msg : string)
| FileNotFoundError (path : string)
| JSONDecodeError (path : string).

Inductive result (A : Type) : Type :=
| Ok (a : A)
| Raise (e : exn).
Arguments Ok {A} a.
Arguments Raise {A} e.

(** ** The process state and the monad of the script

    What the script can observe or change outside its own variables: the
    lines printed so far and the files of the data directory.  A file is the
    sequence of the items written to it, so that the empty file is [[]] and
    [f.tell() == 0] on a file opened for appending holds exactly for it. *)

Record loss_entry : Type := {
  entry_train_losses : list float;
  entry_val_losses : list float
}.

Inductive chunk : Type :=
| CsvHeader (columns : list string)
| CsvRow (cells : list (option pyval))
| JsonLosses (d : dict loss_entry)
| JsonConfigs (cs : list (dict pyval)).

Abbreviation file := (list chunk).

Record world : Type := {
  stdout : list string;
  fs : gmap string file
}.

(** A computation changes the world and returns a value or raises; the world
    reached when an exception is raised is kept, as nothing catches it. *)
Definition M (A : Type) : Type := world -> world * result A.

Definition ret {A} (a : A) : M A := fun w => (w, Ok a).
Definition raise {A} (e : exn) : M A := fun w => (w, Raise e).
Definition bind {A B} (c : M A) (k : A -> M B) : M B :=
  fun w => match c w with
           | (w', Ok a) => k a w'
           | (w', Raise e) => (w', Raise e)
           end.
Definition lift {A} (r : result A) : M A := fun w => (w, r).

Notation "x <- c ;; k" := (bind c (fun x => k))
  (at level 100, c at next level, right associativity).
Notation "c ;;; k" := (bind c (fun _ => k))
  (at level 100, right associativity).

Definition print (line : string) : M unit :=
  fun w => ({| stdout := stdout w ++ [line]; fs := fs w |}, Ok tt).

(** [d[k]] *)
Definition getitem {V} (d : dict V) (k : string) : M V :=
  match dict_get d k with
  | Some v => ret v
  | None => raise (KeyError k)
  end.

(** [assert b, msg] *)
Definition py_assert (b : bool) (msg : string) : M unit :=
  if b then ret tt else raise (AssertionError msg).

(** [x / n] for a float [x] and an int [n]: the int is converted first (an
    int that rounds beyond the largest float is refused), and a zero divisor
    raises. *)
Definition py_truediv (x : float) (n : Z) : result float :=
  let y := PyFloat.of_Z n in
  match y with
  | S754_infinity _ => Raise (OverflowError "int too large to convert to float")
  | S754_zero _ => Raise (ZeroDivisionError "float division by zero")
  | _ => Ok (PyFloat.div x y)
  end.

(** ** The collaborators

    [src.utils] (data loading and the three network classes), torch and
    sklearn.  A loader is the sequence of batches it yields, and [len] of it
    is the number of these batches; a shuffle order is [None] or an index
    array.

    A collaborator is a function of its arguments here: it returns, and it
    neither prints nor touches the files.  What happens when one of them
    raises, and what they draw at random, is outside the model: a statement
    about a completed run holds for whatever the collaborators returned in
    it, and a statement that a run raises is about the errors of the script
    itself. *)

Class Collaborators : Type := {
  Model : Type;
  Optimizer : Type;
  Inputs : Type;
  Labels : Type;
  Outputs : Type;
  Label : Type;
  Param : Type;
  load_training_data :
    string -> pyval -> float -> option string ->
    list (Inputs * Labels) * list (Inputs * Labels)
    * option (list nat) * option (list nat);
  load_testing_data :
    string -> pyval -> option string -> option (list nat) -> option (list nat) ->
    list (Inputs * Labels) * option (list nat) * option (list nat);
  SimpleMLP : Z -> pyval -> pyval -> pyval -> Model;
  SimpleCNN : pyval -> pyval -> pyval -> Model;
  SimpleCNN_3CH : pyval -> pyval -> pyval -> Model;
  (** [torch.optim.Adam(model.parameters(), lr=...)] *)
  Adam : Model -> pyval -> Optimizer;
  (** [inputs.view(inputs.size(0), -1)] *)
  view_flat : Inputs -> Inputs;
  (** [model(inputs)], in training mode ([true]) or evaluation mode *)
  forward : bool -> Model -> Inputs -> Outputs;
  (** [criterion(outputs, labels).item()] *)
  criterion : Outputs -> Labels -> float;
  (** [optimizer.zero_grad(); loss.backward(); optimizer.step()] for the loss
      of the model on this batch *)
  optimizer_step : Model -> Optimizer -> Inputs -> Labels -> Model * Optimizer;
  (** [torch.max(outputs, 1)[1].cpu().numpy()] *)
  torch_max : Outputs -> list Label;
  (** [labels.cpu().numpy()] *)
  labels_numpy : Labels -> list Label;
  accuracy_score : list Label -> list Label -> float;
  f1_score : list Label -> list Label -> string -> float;
  precision_score : list Label -> list Label -> string -> float;
  recall_score : list Label -> list Label -> string -> float;
  parameters : Model -> list Param;
  requires_grad : Param -> bool;
  numel : Param -> Z
}.

(** A batch: the inputs and the labels of its examples. *)
Abbreviation batch := (Inputs * Labels)%type.

(** [np.array_equal] on index arrays. *)
Definition array_equal (a b : list nat) : bool := bool_decide (a = b).

(** [range(n)] *)
Definition range (n : nat) : list nat := seq 0 n.

(** ** [train_and_evaluate] *)

Record run_result : Type := {
  train_losses : list float;
  val_losses : list float;
  accuracy : float;
  f1 : float;
  precision : float;
  recall : float;
  num_params : Z
}.

(** What lines 28-74 hand over to the epoch loop and the test phase. *)
Record setup `{Collaborators} : Type := {
  su_train_loader : list (Inputs * Labels);
  su_val_loader : list (Inputs * Labels);
  su_test_loader : list (Inputs * Labels);
  su_model : Model;
  su_optimizer : Optimizer
}.

Record loop_state `{Collaborators} : Type := {
  ls_model : Model;
  ls_optimizer : Optimizer;
  ls_best_val_loss : float;
  ls_epochs_without_improvement : nat;
  ls_train_losses : list float;
  ls_val_losses : list float
}.

Section TrainAndEvaluate.
Context `{C : Collaborators}.

(** [model_type in ["MLP", "MLP_3CH"]] *)
Definition is_mlp (model_type : string) : bool :=
  existsb (String.eqb model_type) ["MLP"; "MLP_3CH"].

(** The flattening of the inputs, only for the MLP variants. *)
Definition flatten_for (model_type : string) (inputs : Inputs) : Inputs :=
  if is_mlp model_type then view_flat inputs else inputs.

(** The comparison of the shuffle orders, lines 38-42. *)
Definition check_shuffle_orders
    (shuffle_order_rows1 shuffle_order_columns1
     shuffle_order_rows shuffle_order_columns : option (list nat)) : M unit :=
  (match shuffle_order_columns1, shuffle_order_columns with
   | Some c1, Some c =>
       py_assert (array_equal c1 c) "Shuffle order columns do not match!"
   | _, _ => ret tt
   end) ;;;
  (match shuffle_order_rows1, shuffle_order_rows with
   | Some r1, Some r =>
       py_assert (array_equal r1 r) "Shuffle order rows do not match!"
   | _, _ => ret tt
   end).

(** The selection of the architecture, lines 44-71. *)
Definition build_model (config : dict pyval) (model_type : string)
    (image_dim : Z) : M Model :=
  if String.eqb model_type "MLP" then
    fc1 <- getitem config "fc1_hidden" ;;
    fc2 <- getitem config "fc2_hidden" ;;
    fc3 <- getitem config "fc3_hidden" ;;
    ret (SimpleMLP (image_dim * image_dim) fc1 fc2 fc3)
  else if String.eqb model_type "MLP_3CH" then
    fc1 <- getitem config "fc1_hidden" ;;
    fc2 <- getitem config "fc2_hidden" ;;
    fc3 <- getitem config "fc3_hidden" ;;
    ret (SimpleMLP (3 * image_dim * image_dim) fc1 fc2 fc3)
  else if String.eqb model_type "CNN" then
    cha_input <- getitem config "cha_input" ;;
    cha_hidden <- getitem config "cha_hidden" ;;
    fc_hidden <- getitem config "fc_hidden" ;;
    ret (SimpleCNN cha_input cha_hidden fc_hidden)
  else if String.eqb model_type "CNN_3CH" then
    cha_input <- getitem config "cha_input" ;;
    cha_hidden <- getitem config "cha_hidden" ;;
    fc_hidden <- getitem config "fc_hidden" ;;
    ret (SimpleCNN_3CH cha_input cha_hidden fc_hidden)
  else raise (ValueError "Invalid model type!").

Section Loop.
Variable model_type : string.
Variables train_loader val_loader test_loader : list batch.

Definition patience : nat := 5.

(** The body of the loop over the training batches, lines 84-92. *)
Definition train_batch (s : Model * Optimizer * float) (b : batch)
  : Model * Optimizer * float :=
  let '(model, optimizer, epoch_train_loss) := s in
  let '(inputs, labels) := b in
  let inputs := flatten_for model_type inputs in
  let outputs := forward true model inputs in
  let loss := criterion outputs labels in
  let '(model, optimizer) := optimizer_step model optimizer inputs labels in
  (model, optimizer, PyFloat.add epoch_train_loss loss).

(** The body of the loop over the validation batches, lines 99-104. *)
Definition val_batch (model : Model) (epoch_val_loss : float) (b : batch)
  : float :=
  let '(inputs, labels) := b in
  let inputs := flatten_for model_type inputs in
  let outputs := forward false model inputs in
  let loss := criterion outputs labels in
  PyFloat.add epoch_val_loss loss.

(** The epoch loop, lines 80-115, over the epochs still to run.  Leaving
    the recursion is the [break]. *)
Fixpoint epoch_loop (epochs : list nat) (st : loop_state) : M loop_state :=
  match epochs with
  | [] => ret st
  | epoch :: epochs' =>
      let '(model, optimizer, epoch_train_loss) :=
        fold_left train_batch train_loader
          (ls_model st, ls_optimizer st, PyFloat.zero) in
      train_loss <-
        lift (py_truediv epoch_train_loss (Z.of_nat (length train_loader))) ;;
      let train_losses := ls_train_losses st ++ [train_loss] in
      let epoch_val_loss :=
        fold_left (val_batch model) val_loader PyFloat.zero in
      val_loss <-
        lift (py_truediv epoch_val_loss (Z.of_nat (length val_loader))) ;;
      let val_losses := ls_val_losses st ++ [val_loss] in
      if PyFloat.ltb epoch_val_loss (ls_best_val_loss st) then
        epoch_loop epochs'
          {| ls_model := model; ls_optimizer := optimizer;
             ls_best_val_loss := epoch_val_loss;
             ls_epochs_without_improvement := 0;
             ls_train_losses := train_losses;
             ls_val_losses := val_losses |}
      else
        let epochs_without_improvement :=
          ls_epochs_without_improvement st + 1 in
        let st' :=
          {| ls_model := model; ls_optimizer := optimizer;
             ls_best_val_loss := ls_best_val_loss st;
             ls_epochs_without_improvement := epochs_without_improvement;
             ls_train_losses := train_losses;
             ls_val_losses := val_losses |} in
        if (patience <=? epochs_without_improvement)%nat then
          print ("Early stopping at epoch " +:+ pretty (epoch + 1)) ;;;
          ret st'
        else epoch_loop epochs' st'
  end.

(** The body of the loop over the test batches, lines 122-128. *)
Definition test_batch (model : Model) (acc : list Label * list Label)
    (b : batch) : list Label * list Label :=
  let '(all_labels, all_preds) := acc in
  let '(inputs, labels) := b in
  let inputs := flatten_for model_type inputs in
  let outputs := forward false model inputs in
  let preds := torch_max outputs in
  (all_labels ++ labels_numpy labels, all_preds ++ preds).

(** Lines 76-138: the epoch loop, the test phase and the metrics. *)
Definition train_and_test (model : Model) (optimizer : Optimizer)
  : M run_result :=
  st <- epoch_loop (range 25)
          {| ls_model := model; ls_optimizer := optimizer;
             ls_best_val_loss := PyFloat.inf;
             ls_epochs_without_improvement := 0;
             ls_train_losses := []; ls_val_losses := [] |} ;;
  let model := ls_model st in
  let '(all_labels, all_preds) :=
    fold_left (test_batch model) test_loader ([], []) in
  ret {| train_losses := ls_train_losses st;
         val_losses := ls_val_losses st;
         accuracy := accuracy_score all_labels all_preds;
         f1 := f1_score all_labels all_preds "weighted";
         precision := precision_score all_labels all_preds "weighted";
         recall := recall_score all_labels all_preds "weighted";
         num_params :=
           fold_left Z.add
             (map numel (List.filter requires_grad (parameters model)))
             0%Z |}.

End Loop.

(** Lines 28-74: the loaders, the comparison of the shuffle orders, the
    model and its optimizer. *)
Definition prepare (config : dict pyval) (model_type dataset : string)
    (image_dim : Z) (pcam_data_path : option string) : M setup :=
  batch_size <- getitem config "batch_size" ;;
  let '(train_loader, val_loader, shuffle_order_rows1, shuffle_order_columns1) :=
    load_training_data dataset batch_size PyFloat.lit_0_2 pcam_data_path in
  batch_size <- getitem config "batch_size" ;;
  let '(test_loader, shuffle_order_rows, shuffle_order_columns) :=
    load_testing_data dataset batch_size pcam_data_path
      shuffle_order_rows1 shuffle_order_columns1 in
  check_shuffle_orders shuffle_order_rows1 shuffle_order_columns1
    shuffle_order_rows shuffle_order_columns ;;;
  model <- build_model config model_type image_dim ;;
  learning_rate <- getitem config "learning_rate" ;;
  ret {| su_train_loader := train_loader; su_val_loader := val_loader;
         su_test_loader := test_loader; su_model := model;
         su_optimizer := Adam model learning_rate |}.

Definition train_and_evaluate (config : dict pyval) (model_type dataset : string)
    (image_dim : Z) (pcam_data_path : option string) : M run_result :=
  s <- prepare config model_type dataset image_dim pcam_data_path ;;
  train_and_test model_type (su_train_loader s) (su_val_loader s)
    (su_test_loader s) (su_model s) (su_optimizer s).

End TrainAndEvaluate.

(** ** Files, pandas and json

    Files are found by their path; directories are not modelled, so that
    [os.makedirs(out_path, exist_ok=True)] has nothing to do. *)

(** [os.path.join(a, b)] for a [b] that does not start with a slash. *)
Definition os_path_join (a b : string) : string :=
  match last (list_ascii_of_string a) with
  | None => b
  | Some c => if Ascii.eqb c "/"%char then a +:+ b else a +:+ "/" +:+ b
  end.

(** The columns of [pd.DataFrame(records)]: the keys of the records in the
    order of their first occurrence. *)
Definition columns (records : list (dict pyval)) : list string :=
  fold_left
    (fun cols k => if existsb (String.eqb k) cols then cols else cols ++ [k])
    (concat (map dict_keys records)) [].

(** [pd.DataFrame(records).to_csv(f, header=..., index=False)]: the header
    line when asked for, then one line per record, with an empty cell where
    a record has no value for a column.  A cell holds the value of the
    record; how pandas prints a value is outside the model. *)
Definition to_csv (records : list (dict pyval)) (header : bool) : list chunk :=
  let cols := columns records in
  (if header then [CsvHeader cols] else [])
  ++ map (fun r => CsvRow (map (dict_get r) cols)) records.

(** [with open(path, "a") as f: write(f, f.tell() == 0)]: the file is created
    when absent, and the position is its end.  A write that the system
    refuses is outside the model. *)
Definition open_append (path : string) (write : bool -> list chunk) : M unit :=
  fun w =>
    let old := default [] (fs w !! path) in
    let at_start := match old with [] => true | _ => false end in
    ({| stdout := stdout w; fs := <[path := old ++ write at_start]> (fs w) |},
     Ok tt).

(** [with open(path, "w") as f: ...], and [to_csv(path)]: the file is replaced. *)
Definition open_write (path : string) (content : list chunk) : M unit :=
  fun w => ({| stdout := stdout w; fs := <[path := content]> (fs w) |}, Ok tt).

(** [with open(path, "r") as f: json.load(f)] for a file that holds a list
    of configurations. *)
Definition load_configurations (path : string) : M (list (dict pyval)) :=
  fun w =>
    match fs w !! path with
    | None => (w, Raise (FileNotFoundError path))
    | Some [JsonConfigs cs] => (w, Ok cs)
    | Some _ => (w, Raise (JSONDecodeError path))
    end.

(** ** [main_train] *)

Section MainTrain.
Context `{C : Collaborators}.

(** [script_dir.parent / p] *)
Variable script_dir_parent : string -> string.

(** The record of one configuration, lines 170-178. *)
Definition result_record (idx : nat) (config : dict pyval) (r : run_result)
  : dict pyval :=
  let d := dict_update [("model_index", PyInt (Z.of_nat idx))] config in
  let d := dict_set d "num_params" (PyInt (num_params r)) in
  let d := dict_set d "accuracy" (PyFloat (accuracy r)) in
  let d := dict_set d "f1" (PyFloat (f1 r)) in
  let d := dict_set d "precision" (PyFloat (precision r)) in
  dict_set d "recall" (PyFloat (recall r)).

Section Configurations.
Variables model_type dataset : string.
Variable pcam_data_path : option string.
Variable image_dim : Z.
Variables results_csv_path losses_json_path : string.
Variable n_configurations : nat.

(** One iteration of the loop over the configurations, lines 158-191. *)
Definition main_step (idx : nat) (config : dict pyval)
    (acc : list (dict pyval) * dict loss_entry)
  : M (list (dict pyval) * dict loss_entry) :=
  let '(results, all_losses) := acc in
  print ("Training model " +:+ pretty (idx + 1) +:+ "/"
         +:+ pretty n_configurations) ;;;
  r <- train_and_evaluate config model_type dataset image_dim pcam_data_path ;;
  let results := results ++ [result_record idx config r] in
  let all_losses :=
    dict_set all_losses ("model_" +:+ pretty idx)
      {| entry_train_losses := train_losses r;
         entry_val_losses := val_losses r |} in
  newest <- match last results with
            | Some x => ret x
            | None => raise (IndexError "list index out of range")
            end ;;
  open_append results_csv_path (fun at_start => to_csv [newest] at_start) ;;;
  open_write losses_json_path [JsonLosses all_losses] ;;;
  ret (results, all_losses).

(** [for idx, config in enumerate(configurations)], from [idx] on. *)
Fixpoint main_loop (idx : nat) (configurations : list (dict pyval))
    (acc : list (dict pyval) * dict loss_entry)
  : M (list (dict pyval) * dict loss_entry) :=
  match configurations with
  | [] => ret acc
  | config :: rest =>
      acc' <- main_step idx config acc ;;
      main_loop (S idx) rest acc'
  end.

End Configurations.

Definition main_train (model_type dataset config_path output_path : string)
    (pcam_data_path : option string) (image_dim : Z) : M unit :=
  let config_path := script_dir_parent config_path in
  let out_path := script_dir_parent output_path in
  let config_file_path :=
    os_path_join config_path
      ("best_configs_" +:+ model_type +:+ "_" +:+ dataset +:+ ".json") in
  let results_csv_path :=
    os_path_join out_path
      ("results_" +:+ model_type +:+ "_" +:+ dataset +:+ ".csv") in
  let losses_json_path :=
    os_path_join out_path
      ("losses_" +:+ model_type +:+ "_" +:+ dataset +:+ ".json") in
  configurations <- load_configurations config_file_path ;;
  acc <- main_loop model_type dataset pcam_data_path image_dim
           results_csv_path losses_json_path (length configurations)
           0 configurations ([], []) ;;
  let '(results, all_losses) := acc in
  open_write results_csv_path (to_csv results true) ;;;
  print ("Results saved to " +:+ results_csv_path) ;;;
  open_write losses_json_path [JsonLosses all_losses] ;;;
  print ("Losses saved to " +:+ losses_json_path).

End MainTrain.

(** ** The quantities the statements are about

    For given loaders and a given initial model and optimizer: the
    parameters after [k] epochs of training, the per-batch losses of each
    epoch, and the early-stopping rule in the words of the specification. *)

Section Epochs.
Context `{C : Collaborators}.
Variable model_type : string.
Variables train_loader val_loader test_loader : list batch.
Variable model0 : Model.
Variable optimizer0 : Optimizer.

(** The losses of the batches of one pass over a training loader, and the
    parameters it ends with. *)
Fixpoint train_batch_losses (loader : list batch) (m : Model) (o : Optimizer)
  : list float :=
  match loader with
  | [] => []
  | (inputs, labels) :: rest =>
      let inputs := flatten_for model_type inputs in
      let '(m', o') := optimizer_step m o inputs labels in
      criterion (forward true m inputs) labels :: train_batch_losses rest m' o'
  end.

Fixpoint train_pass (loader : list batch) (m : Model) (o : Optimizer)
  : Model * Optimizer :=
  match loader with
  | [] => (m, o)
  | (inputs, labels) :: rest =>
      let inputs := flatten_for model_type inputs in
      let '(m', o') := optimizer_step m o inputs labels in
      train_pass rest m' o'
  end.

Definition val_batch_losses (m : Model) : list float :=
  map (fun b : batch =>
         criterion (forward false m (flatten_for model_type (fst b))) (snd b))
      val_loader.

(** The parameters after [k] epochs. *)
Fixpoint params_after (k : nat) : Model * Optimizer :=
  match k with
  | 0 => (model0, optimizer0)
  | S k' =>
      let p := params_after k' in train_pass train_loader (fst p) (snd p)
  end.

(** Epochs are counted from 1, as the script prints them. *)
Definition epoch_train_batch_losses (k : nat) : list float :=
  train_batch_losses train_loader
    (fst (params_after (k - 1))) (snd (params_after (k - 1))).

Definition epoch_val_batch_losses (k : nat) : list float :=
  val_batch_losses (fst (params_after k)).

Definition cum_train_loss (k : nat) : float :=
  PyFloat.sum (epoch_train_batch_losses k).

Definition cum_val_loss (k : nat) : float :=
  PyFloat.sum (epoch_val_batch_losses k).

(** The labels and the predictions of the test phase for a model. *)
Definition test_labels : list Label :=
  concat (map (fun b : batch => labels_numpy (snd b)) test_loader).

Definition test_preds (m : Model) : list Label :=
  concat (map (fun b : batch =>
                 torch_max (forward false m (flatten_for model_type (fst b))))
              test_loader).

End Epochs.

(** [total / count] for a loader of [count] batches. *)
Definition mean_of (total : float) (count : nat) : float :=
  PyFloat.div total (PyFloat.of_Z (Z.of_nat count)).

(** A loader length by which a float can be divided. *)
Definition divisor_ok (count : nat) : bool :=
  match PyFloat.of_Z (Z.of_nat count) with
  | S754_infinity _ | S754_zero _ => false
  | _ => true
  end.

(** *** The early-stopping rule, in the words of the specification

    [best_val_loss] starts at +infinity and the strike counter at 0; an
    epoch whose cumulative validation loss is strictly less than
    [best_val_loss] updates it and resets the counter, any other epoch
    increments the counter; the loop stops when the counter reaches 5. *)

Record es_state : Type := {
  es_best : float;
  es_counter : nat
}.

Definition es_init : es_state :=
  {| es_best := PyFloat.inf; es_counter := 0 |}.

Definition es_step (s : es_state) (cum : float) : es_state :=
  if PyFloat.ltb cum (es_best s)
  then {| es_best := cum; es_counter := 0 |}
  else {| es_best := es_best s; es_counter := S (es_counter s) |}.

(** The rule after [k] epochs whose cumulative validation losses are
    [c 1], ..., [c k]. *)
Fixpoint es_after (c : nat -> float) (k : nat) : es_state :=
  match k with
  | 0 => es_init
  | S k' => es_step (es_after c k') (c k)
  end.

Definition es_reached (s : es_state) : bool := (es_counter s =? 5)%nat.

(** Epoch [k] fails to strictly improve the best loss seen before it. *)
Definition fails_to_improve (c : nat -> float) (k : nat) : Prop :=
  PyFloat.ltb (c k) (es_best (es_after c (k - 1))) = false.

(** The [m] epochs that end with epoch [e] all fail to improve. *)
Definition consecutive_failures (c : nat -> float) (m e : nat) : Prop :=
  m <= e /\ forall j, e - m < j <= e -> fails_to_improve c j.

(** The number of epochs that run when [k] have run and [fuel] more are
    allowed: the first at which the counter reaches 5, if there is one. *)
Fixpoint epochs_from (c : nat -> float) (fuel k : nat) : nat :=
  match fuel with
  | 0 => k
  | S fuel' =>
      if es_reached (es_after c (S k)) then S k else epochs_from c fuel' (S k)
  end.

Definition epochs_run (c : nat -> float) : nat := epochs_from c 25 0.

(** *** What a run computes, in closed form *)

Section Expected.
Context `{C : Collaborators}.
Variable model_type : string.
Variable s : setup.

Definition run_params (k : nat) : Model * Optimizer :=
  params_after model_type (su_train_loader s) (su_model s) (su_optimizer s) k.

Definition run_cum_train (k : nat) : float :=
  cum_train_loss model_type (su_train_loader s)
    (su_model s) (su_optimizer s) k.

Definition run_cum_val (k : nat) : float :=
  cum_val_loss model_type (su_train_loader s) (su_val_loader s)
    (su_model s) (su_optimizer s) k.

(** The value recorded for epoch [k] in each history. *)
Definition recorded_train (k : nat) : float :=
  mean_of (run_cum_train k) (length (su_train_loader s)).

Definition recorded_val (k : nat) : float :=
  mean_of (run_cum_val k) (length (su_val_loader s)).

(** The variables of the loop after [k] epochs. *)
Definition state_at (k : nat) : loop_state :=
  {| ls_model := fst (run_params k);
     ls_optimizer := snd (run_params k);
     ls_best_val_loss := es_best (es_after run_cum_val k);
     ls_epochs_without_improvement := es_counter (es_after run_cum_val k);
     ls_train_losses := map recorded_train (seq 1 k);
     ls_val_losses := map recorded_val (seq 1 k) |}.

Definition early_stop_message (k : nat) : string :=
  "Early stopping at epoch " +:+ pretty k.

(** The world after the loop has run [n] epochs from the world [w]. *)
Definition world_after_epochs (n : nat) (w : world) : world :=
  if es_reached (es_after run_cum_val n)
  then {| stdout := stdout w ++ [early_stop_message n]; fs := fs w |}
  else w.

Definition result_after_epochs (n : nat) : run_result :=
  let model := fst (run_params n) in
  let all_labels := test_labels (su_test_loader s) in
  let all_preds := test_preds model_type (su_test_loader s) model in
  {| train_losses := map recorded_train (seq 1 n);
     val_losses := map recorded_val (seq 1 n);
     accuracy := accuracy_score all_labels all_preds;
     f1 := f1_score all_labels all_preds "weighted";
     precision := precision_score all_labels all_preds "weighted";
     recall := recall_score all_labels all_preds "weighted";
     num_params :=
       fold_left Z.add
         (map numel (List.filter requires_grad (parameters model)))
         0%Z |}.

End Expected.

(** ** What the statements about [main_train] are about *)

(** A computation that leaves the world alone. *)
Definition pure_M {A} (c : M A) : Prop := exists r, forall w, c w = (w, r).

Definition is_header (c : chunk) : bool :=
  match c with CsvHeader _ => true | _ => false end.

Definition is_row (c : chunk) : bool :=
  match c with CsvRow _ => true | _ => false end.

(** The header lines and the data rows of a result file. *)
Definition header_rows (f : file) : nat := length (List.filter is_header f).
Definition data_rows (f : file) : nat := length (List.filter is_row f).

(** How [pd.DataFrame] collects its columns: a key is added after the ones
    collected so far unless it is one of them. *)
Definition add_column (cols : list string) (k : string) : list string :=
  if existsb (String.eqb k) cols then cols else cols ++ [k].

(** The line of a record under given columns: its value for each column, and
    an empty cell where it has none. *)
Definition row_of (cols : list string) (record : dict pyval) : chunk :=
  CsvRow (map (dict_get record) cols).

(** A data row fits a header when it has one cell for each of its columns. *)
Definition fits (cols : list string) (c : chunk) : bool :=
  match c with
  | CsvRow cells => (length cells =? length cols)%nat
  | _ => false
  end.

(** The valid data rows of a result file: the rows that fit the header the
    file starts with. *)
Definition valid_data_rows (f : file) : nat :=
  match f with
  | CsvHeader cols :: rows => length (List.filter (fits cols) rows)
  | _ => 0
  end.

(** The names of the derived fields of a record. *)
Definition derived_fields : list string :=
  ["num_params"; "accuracy"; "f1"; "precision"; "recall"].

(** The key of configuration [idx] in the loss-history file. *)
Definition loss_key (idx : nat) : string := "model_" +:+ pretty idx.

(** The result file after the records were appended one by one to [old]. *)
Definition csv_after (old : file) (records : list (dict pyval)) : file :=
  fold_left
    (fun f record =>
       f ++ to_csv [record] (match f with [] => true | _ => false end))
    records old.

Definition entry_of (r : run_result) : loss_entry :=
  {| entry_train_losses := train_losses r; entry_val_losses := val_losses r |}.

(** The records of the configurations from index [idx] on, for the results
    [rs] of their runs, and the loss histories with theirs added. *)
Fixpoint records_from (idx : nat)
    (configurations : list (dict pyval)) (rs : list run_result)
  : list (dict pyval) :=
  match configurations, rs with
  | config :: configurations', r :: rs' =>
      result_record idx config r :: records_from (S idx) configurations' rs'
  | _, _ => []
  end.

Fixpoint losses_from (all_losses : dict loss_entry)
    (idx : nat) (rs : list run_result) : dict loss_entry :=
  match rs with
  | [] => all_losses
  | r :: rs' =>
      losses_from (dict_set all_losses (loss_key idx) (entry_of r)) (S idx) rs'
  end.

Section Paths.
Variable script_dir_parent : string -> string.
Variables model_type dataset output_path : string.

Definition results_csv_path_of : string :=
  os_path_join (script_dir_parent output_path)
    ("results_" +:+ model_type +:+ "_" +:+ dataset +:+ ".csv").

Definition losses_json_path_of : string :=
  os_path_join (script_dir_parent output_path)
    ("losses_" +:+ model_type +:+ "_" +:+ dataset +:+ ".json").

End Paths.

Definition config_file_path_of (script_dir_parent : string -> string)
    (model_type dataset config_path : string) : string :=
  os_path_join (script_dir_parent config_path)
    ("best_configs_" +:+ model_type +:+ "_" +:+ dataset +:+ ".json").

(** ** A scripted instance of the collaborators

    Used to run the script on concrete inputs.  The parameters of the
    network are the number of optimizer steps taken so far; the inputs of a
    batch list the losses the network has on it after one step, two steps
    and so on; the network predicts its number of steps. *)

Module Toy.

Definition one : float := PyFloat.of_Z 1.

Definition collaborators
    (train val test : list (list float * list nat))
    (rows1 columns1 rows columns : option (list nat)) : Collaborators :=
  {| Model := nat;
     Optimizer := unit;
     Inputs := list float;
     Labels := list nat;
     Outputs := nat * float;
     Label := nat;
     Param := Z;
     load_training_data := fun _ _ _ _ => (train, val, rows1, columns1);
     load_testing_data := fun _ _ _ _ _ => (test, rows, columns);
     SimpleMLP := fun _ _ _ _ => 0;
     SimpleCNN := fun _ _ _ => 0;
     SimpleCNN_3CH := fun _ _ _ => 0;
     Adam := fun _ _ => tt;
     view_flat := fun x => x;
     forward := fun _ m x => (m, nth (m - 1) x (List.last x PyFloat.zero));
     criterion := fun out _ => snd out;
     optimizer_step := fun m o _ _ => (S m, o);
     torch_max := fun out => [fst out];
     labels_numpy := fun l => l;
     accuracy_score :=
       fun ls ps => if bool_decide (ls = ps) then one else PyFloat.zero;
     f1_score :=
       fun ls ps _ => if bool_decide (ls = ps) then one else PyFloat.zero;
     precision_score :=
       fun ls ps _ => if bool_decide (ls = ps) then one else PyFloat.zero;
     recall_score :=
       fun ls ps _ => if bool_decide (ls = ps) then one else PyFloat.zero;
     parameters := fun _ => [3%Z; 4%Z];
     requires_grad := fun p => (p <? 4)%Z;
     numel := fun p => p |}.

(** A batch whose loss after [k] steps is the [k]-th value of a list, and
    the last one from then on. *)
Definition scripted (losses : list Z) (label : nat) : list float * list nat :=
  (map PyFloat.of_Z losses, [label]).

(** A configuration for the MLP variants. *)
Definition mlp_config : dict pyval :=
  [("batch_size", PyInt 64); ("learning_rate", PyFloat PyFloat.lit_0_2);
   ("fc1_hidden", PyInt 128); ("fc2_hidden", PyInt 64);
   ("fc3_hidden", PyInt 32)].

Definition empty_world : world := {| stdout := []; fs := ∅ |}.

(** One training batch per epoch, so that the network has taken [k] steps
    after [k] epochs, and one validation batch with the given cumulative
    losses. *)
Definition with_val_losses (losses : list Z) : Collaborators :=
  collaborators [scripted [1%Z] 0] [scripted losses 0] [scripted [0%Z] 6]
    None None None None.

(** What the preparation hands over for [with_val_losses]. *)
Definition setup_for (losses : list Z) : @setup (with_val_losses losses) :=
  @Build_setup (with_val_losses losses)
    [scripted [1%Z] 0] [scripted losses 0] [scripted [0%Z] 6] 0 tt.

(** The script lives in [/repo/scripts]. *)
Definition script_dir_parent (p : string) : string := "/repo/" +:+ p.

(** A data directory that holds one file of configurations. *)
Definition world_with (configurations : list (dict pyval)) : world :=
  {| stdout := [];
     fs := {[ "/repo/configs/best_configs_MLP_MNIST.json"
              := [JsonConfigs configurations] ]} |}.

(** Validation losses 1, 2, ..., 7: epoch 1 is the best one, epochs 2 to 6
    fail to improve, and the loop stops at epoch 6. *)
Definition rising : list Z := [1; 2; 3; 4; 5; 6; 7]%Z.

Definition rising_world : world :=
  {| stdout := ["Early stopping at epoch 6"]; fs := ∅ |}.

Definition rising_result : run_result :=
  @result_after_epochs (with_val_losses rising) "MLP" (setup_for rising) 6.

(** The sequence of the specification.  Epoch 2 improves on epoch 1, epochs
    3 to 6 are four failures, and epoch 7 improves again: nothing stops at
    epoch 6.  With the loss staying at 5 afterwards, the loop stops at
    epoch 12. *)
Definition synthetic : list Z := [10; 9; 9; 9; 9; 9; 5]%Z.

(** Loads that agree on the row order and differ on the column order. *)
Definition mismatching : Collaborators :=
  collaborators [scripted [1%Z] 0] [scripted rising 0] [scripted [0%Z] 6]
    (Some [1; 0]) (Some [0; 1]) (Some [1; 0]) (Some [1; 0]).

(** The training load returns both orders and the test load returns none:
    the orders differ, no comparison is made, and the run completes. *)
Definition one_sided : Collaborators :=
  collaborators [scripted [1%Z] 0] [scripted rising 0] [scripted [0%Z] 6]
    (Some [1; 0]) (Some [0; 1]) None None.

(** Two configurations, run by [main_train]. *)
Definition two_configs : list (dict pyval) := [mlp_config; mlp_config].

Abbreviation two_configs_run :=
  (@main_train (with_val_losses rising) script_dir_parent "MLP" "MNIST"
     "configs" "out" None 28 (world_with two_configs)).

(** A configuration with an entry named model_index: the record of position
    0, and the row written for it, carry 7. *)
Definition indexed_config : dict pyval := ("model_index", PyInt 7) :: mlp_config.

Abbreviation indexed_run :=
  (@main_train (with_val_losses rising) script_dir_parent "MLP" "MNIST"
     "configs" "out" None 28 (world_with [indexed_config])).

(** The state after the second of three configurations with the same
    keys. *)
Definition three_configs : list (dict pyval) :=
  [mlp_config; mlp_config; mlp_config].

Abbreviation after_second :=
  (@main_loop (with_val_losses rising) "MLP" "MNIST" None 28
     (results_csv_path_of script_dir_parent "MLP" "MNIST" "out")
     (losses_json_path_of script_dir_parent "MLP" "MNIST" "out")
     (length three_configs) 0 (take 2 three_configs) ([], [])
     (world_with three_configs)).

Definition after_second_acc : list (dict pyval) * dict loss_entry :=
  match snd after_second with
  | Ok acc => acc
  | Raise _ => ([], [])
  end.

(** Two configurations of which the second has one key more, in front of
    the others: its record has twelve keys, and the header written for the
    first record has eleven columns. *)
Definition mixed_configs : list (dict pyval) :=
  [mlp_config; ("weight_decay", PyFloat PyFloat.lit_0_2) :: mlp_config].

Abbreviation mixed_loop :=
  (@main_loop (with_val_losses rising) "MLP" "MNIST" None 28
     (results_csv_path_of script_dir_parent "MLP" "MNIST" "out")
     (losses_json_path_of script_dir_parent "MLP" "MNIST" "out")
     (length mixed_configs) 0 (take 2 mixed_configs) ([], [])
     (world_with mixed_configs)).

(** Validation losses 1, 2, ..., 6 and +infinity from the seventh epoch on:
    the loop stops at epoch 6, and every loss of an epoch that ran is
    finite. *)
Definition finite_then_inf : Collaborators :=
  collaborators [scripted [1%Z] 0]
    [(map PyFloat.of_Z [1; 2; 3; 4; 5; 6]%Z ++ [PyFloat.inf], [0])]
    [scripted [0%Z] 6] None None None None.

Definition finite_then_inf_setup : @setup finite_then_inf :=
  @Build_setup finite_then_inf [scripted [1%Z] 0]
    [(map PyFloat.of_Z [1; 2; 3; 4; 5; 6]%Z ++ [PyFloat.inf], [0])]
    [scripted [0%Z] 6] 0 tt.

Definition finite_then_inf_result : run_result :=
  @result_after_epochs finite_then_inf "MLP" finite_then_inf_setup 6.

(** Two training batches with the losses 1 and 2, and three validation
    batches with the losses 1, 2 and 4, at every epoch: the sums are 3 and
    7, and the means 1.5 and 7/3. *)
Definition several_batches : Collaborators :=
  collaborators [scripted [1%Z] 0; scripted [2%Z] 0]
    [scripted [1%Z] 0; scripted [2%Z] 0; scripted [4%Z] 0]
    [scripted [0%Z] 12] None None None None.

Definition several_batches_setup : @setup several_batches :=
  @Build_setup several_batches [scripted [1%Z] 0; scripted [2%Z] 0]
    [scripted [1%Z] 0; scripted [2%Z] 0; scripted [4%Z] 0]
    [scripted [0%Z] 12] 0 tt.

Definition several_batches_result : run_result :=
  @result_after_epochs several_batches "MLP" several_batches_setup 6.

End Toy.

(** ** Further quantities *)

(** The world after more lines were printed. *)
Definition emit (out : list string) (w : world) : world :=
  {| stdout := stdout w ++ out; fs := fs w |}.

(** The keys that the selection of the architecture reads for a model type,
    in the order it reads them; [None] for a model type it does not know. *)
Definition required_keys (model_type : string) : option (list string) :=
  if String.eqb model_type "MLP" then
    Some ["fc1_hidden"; "fc2_hidden"; "fc3_hidden"]
  else if String.eqb model_type "MLP_3CH" then
    Some ["fc1_hidden"; "fc2_hidden"; "fc3_hidden"]
  else if String.eqb model_type "CNN" then
    Some ["cha_input"; "cha_hidden"; "fc_hidden"]
  else if String.eqb model_type "CNN_3CH" then
    Some ["cha_input"; "cha_hidden"; "fc_hidden"]
  else None.

(** The first of the keys that a configuration does not have. *)
Definition first_missing (config : dict pyval) (keys : list string)
  : option string :=
  List.find
    (fun k => match dict_get config k with None => true | Some _ => false end)
    keys.

(** The lines of the loop over the configurations from index [idx] on, for
    what each run printed: the line of the configuration, then the lines of
    its run. *)
Fixpoint progress (n idx : nat) (outs : list (list string)) : list string :=
  match outs with
  | [] => []
  | out :: outs' =>
      ("Training model " +:+ pretty (idx + 1) +:+ "/" +:+ pretty n)
      :: out ++ progress n (S idx) outs'
  end.

(** What one run can print: nothing, or one early-stopping line. *)
Definition run_output (out : list string) : Prop :=
  out = []
  \/ exists n, 5 <= n <= 25 /\ out = ["Early stopping at epoch " +:+ pretty n].

(** ** More scripted runs *)

Module Cases.

Import Toy.

(** A training load that yields no batch. *)
Definition no_training : Collaborators :=
  collaborators [] [scripted rising 0] [scripted [0%Z] 6] None None None None.

Definition no_training_setup : @setup no_training :=
  @Build_setup no_training [] [scripted rising 0] [scripted [0%Z] 6] 0 tt.

(** A validation loss that is NaN at every epoch. *)
Definition diverged : Collaborators :=
  collaborators [scripted [1%Z] 0] [([S754_nan], [0])] [scripted [0%Z] 6]
    None None None None.

Definition diverged_setup : @setup diverged :=
  @Build_setup diverged [scripted [1%Z] 0] [([S754_nan], [0])]
    [scripted [0%Z] 6] 0 tt.

Definition diverged_result : run_result :=
  @result_after_epochs diverged "MLP" diverged_setup 5.

Definition diverged_world : world :=
  {| stdout := ["Early stopping at epoch 5"]; fs := ∅ |}.

(** Validation losses 25, 24, ..., 1: every epoch improves. *)
Definition falling : list Z :=
  [25; 24; 23; 22; 21; 20; 19; 18; 17; 16; 15; 14; 13; 12; 11; 10; 9; 8; 7;
   6; 5; 4; 3; 2; 1]%Z.

Definition falling_result : run_result :=
  @result_after_epochs (with_val_losses falling) "MLP" (setup_for falling) 25.

(** A configuration without the widths of the layers, after a complete one. *)
Definition bare_config : dict pyval :=
  [("batch_size", PyInt 64); ("learning_rate", PyFloat PyFloat.lit_0_2)].

Abbreviation failing_run :=
  (@main_train (with_val_losses rising) script_dir_parent "MLP" "MNIST"
     "configs" "out" None 28 (world_with [mlp_config; bare_config])).

(** The loop over the configurations before the one that fails. *)
Abbreviation failing_prefix :=
  (@main_loop (with_val_losses rising) "MLP" "MNIST" None 28
     (results_csv_path_of script_dir_parent "MLP" "MNIST" "out")
     (losses_json_path_of script_dir_parent "MLP" "MNIST" "out")
     2 0 [mlp_config] ([], []) (world_with [mlp_config; bare_config])).

Definition failing_prefix_acc : list (dict pyval) * dict loss_entry :=
  match snd failing_prefix with
  | Ok acc => acc
  | Raise _ => ([], [])
  end.

(** A data directory whose result file holds a line of an earlier run. *)
Definition stale_world : world :=
  {| stdout := [];
     fs := <["/repo/out/results_MLP_MNIST.csv" := [CsvHeader ["old"]]]>
             (fs (world_with two_configs)) |}.

Abbreviation stale_loop :=
  (@main_loop (with_val_losses rising) "MLP" "MNIST" None 28
     (results_csv_path_of script_dir_parent "MLP" "MNIST" "out")
     (losses_json_path_of script_dir_parent "MLP" "MNIST" "out")
     (length two_configs) 0 two_configs ([], []) stale_world).

Definition stale_acc : list (dict pyval) * dict loss_entry :=
  match snd stale_loop with
  | Ok acc => acc
  | Raise _ => ([], [])
  end.

End Cases.

(** * Facts *)

(** ** Floats, dictionaries and the monad *)

Lemma ltb_inf_finite (x : float) :
  PyFloat.is_finite x = true -> PyFloat.ltb x PyFloat.inf = true.
Proof. destruct x as [s|s| |s m e]; simpl; try discriminate; reflexivity. Qed.

Lemma sum_snoc (l : list float) (x : float) :
  PyFloat.sum (l ++ [x]) = PyFloat.add (PyFloat.sum l) x.
Proof. unfold PyFloat.sum. rewrite fold_left_app. reflexivity. Qed.

Section DictFacts.
Context {V : Type}.
Implicit Types (d e : dict V) (k : string) (v : V).

Lemma dict_get_set_eq d k v : dict_get (dict_set d k v) k = Some v.
Proof.
  induction d as [|[k' v'] d IH]; simpl.
  - rewrite String.eqb_refl. reflexivity.
  - destruct (String.eqb k k') eqn:E; simpl; rewrite E; auto.
Qed.

Lemma dict_get_set_ne (d : dict V) k k' v :
  k <> k' -> dict_get (dict_set d k v) k' = dict_get d k'.
Proof.
  intros Hne. induction d as [|[k0 v0] d IH]; simpl.
  - destruct (String.eqb k' k) eqn:E; [|reflexivity].
    apply String.eqb_eq in E. congruence.
  - destruct (String.eqb k k0) eqn:E; simpl.
    + apply String.eqb_eq in E. subst k0.
      destruct (String.eqb k' k) eqn:E'; [|reflexivity].
      apply String.eqb_eq in E'. congruence.
    + rewrite IH. reflexivity.
Qed.

Lemma dict_get_None (d : dict V) k : dict_get d k = None <-> ~ In k (dict_keys d).
Proof.
  induction d as [|[k' v'] d IH]; simpl.
  - tauto.
  - destruct (String.eqb k k') eqn:E.
    + apply String.eqb_eq in E. subst. split; [discriminate | tauto].
    + apply String.eqb_neq in E. rewrite IH. split.
      * intros H [H1 | H1]; [congruence | tauto].
      * tauto.
Qed.

Lemma dict_keys_set_fresh (d : dict V) k v :
  dict_get d k = None -> dict_keys (dict_set d k v) = dict_keys d ++ [k].
Proof.
  induction d as [|[k' v'] d IH]; simpl; [reflexivity|].
  destruct (String.eqb k k') eqn:E; [discriminate|].
  intros H. simpl. rewrite IH by assumption. reflexivity.
Qed.

Lemma dict_get_update_absent (d e : dict V) k :
  ~ In k (dict_keys e) -> dict_get (dict_update d e) k = dict_get d k.
Proof.
  unfold dict_update. revert d.
  induction e as [|[k' v'] e IH]; intros d Hk; simpl; [reflexivity|].
  simpl in Hk. rewrite IH by tauto.
  apply dict_get_set_ne. intros ->. tauto.
Qed.

End DictFacts.

Section DictMore.
Context {V : Type}.
Implicit Types (d e : dict V) (k : string) (v : V).

Lemma dict_keys_set d k v :
  dict_keys (dict_set d k v)
  = match dict_get d k with
    | Some _ => dict_keys d
    | None => dict_keys d ++ [k]
    end.
Proof.
  unfold dict_keys.
  induction d as [|[k' v'] d IH]; cbn [dict_set dict_get map fst];
    [reflexivity|].
  destruct (String.eqb k k') eqn:E; cbn [map fst]; [reflexivity|].
  rewrite IH. destruct (dict_get d k); reflexivity.
Qed.

Lemma dict_set_NoDup d k v :
  NoDup (dict_keys d) -> NoDup (dict_keys (dict_set d k v)).
Proof.
  intros H. rewrite dict_keys_set.
  destruct (dict_get d k) eqn:E; [exact H|].
  apply NoDup_app. split; [exact H|]. split.
  - intros x Hx Hin. apply list_elem_of_singleton in Hin. subst x.
    apply dict_get_None in E. apply E. apply list_elem_of_In. exact Hx.
  - apply NoDup_singleton.
Qed.

Lemma dict_update_NoDup d e :
  NoDup (dict_keys d) -> NoDup (dict_keys (dict_update d e)).
Proof.
  unfold dict_update. revert d.
  induction e as [|[k v] e IH]; intros d H; cbn; [exact H|].
  apply IH. apply dict_set_NoDup. exact H.
Qed.

Lemma dict_set_head d k v k0 :
  head (dict_keys d) = Some k0 -> head (dict_keys (dict_set d k v)) = Some k0.
Proof.
  destruct d as [|[k' v'] d]; cbn; [discriminate|].
  destruct (String.eqb k k'); cbn; auto.
Qed.

Lemma dict_update_head d e k0 :
  head (dict_keys d) = Some k0 -> head (dict_keys (dict_update d e)) = Some k0.
Proof.
  unfold dict_update. revert d.
  induction e as [|[k v] e IH]; intros d H; cbn; [exact H|].
  apply IH. apply dict_set_head. exact H.
Qed.

(** [{**d, **e}] for an [e] without repeated keys: the entries of [e], and
    the entries of [d] for the other keys. *)
Lemma dict_get_update d e k :
  NoDup (dict_keys e) ->
  dict_get (dict_update d e) k
  = match dict_get e k with
    | Some v => Some v
    | None => dict_get d k
    end.
Proof.
  unfold dict_update. revert d.
  induction e as [|[k' v'] e IH]; intros d Hnd; cbn [fold_left fst snd];
    [reflexivity|].
  cbn [dict_keys map fst] in Hnd. apply NoDup_cons in Hnd as [Hnotin Hnd].
  fold (dict_keys e) in Hnotin, Hnd.
  rewrite IH by exact Hnd. cbn [dict_get].
  destruct (String.eqb k k') eqn:E.
  - apply String.eqb_eq in E. subst k'.
    assert (Hn : dict_get e k = None).
    { apply dict_get_None. intros Hin. apply Hnotin.
      apply list_elem_of_In. exact Hin. }
    rewrite Hn. apply dict_get_set_eq.
  - apply String.eqb_neq in E.
    rewrite dict_get_set_ne by congruence. reflexivity.
Qed.

End DictMore.

Lemma py_truediv_ok (x : float) (n : nat) :
  divisor_ok n = true -> py_truediv x (Z.of_nat n) = Ok (mean_of x n).
Proof.
  unfold divisor_ok, py_truediv, mean_of.
  destruct (PyFloat.of_Z (Z.of_nat n)); intros H; try discriminate; reflexivity.
Qed.

Lemma py_truediv_raise (x : float) (n : nat) :
  divisor_ok n = false -> exists e, py_truediv x (Z.of_nat n) = Raise e.
Proof.
  unfold divisor_ok, py_truediv.
  destruct (PyFloat.of_Z (Z.of_nat n)); intros H; try discriminate; eauto.
Qed.

(** ** The passes over the loaders *)

Section Passes.
Context `{C : Collaborators}.
Variable model_type : string.

Lemma fold_train_batch (loader : list batch) m o acc :
  fold_left (train_batch model_type) loader (m, o, acc)
  = (train_pass model_type loader m o,
     fold_left PyFloat.add (train_batch_losses model_type loader m o) acc).
Proof.
  revert m o acc. induction loader as [|[inputs labels] rest IH]; intros m o acc.
  - simpl. reflexivity.
  - simpl. destruct (optimizer_step m o _ labels) as [m' o'] eqn:E.
    rewrite IH. reflexivity.
Qed.

Lemma fold_val_batch (loader : list batch) m acc :
  fold_left (val_batch model_type m) loader acc
  = fold_left PyFloat.add (val_batch_losses model_type loader m) acc.
Proof.
  revert acc. induction loader as [|[inputs labels] rest IH]; intros acc.
  - reflexivity.
  - simpl. rewrite IH. reflexivity.
Qed.

Lemma fold_test_batch (loader : list batch) m ls ps :
  fold_left (test_batch model_type m) loader (ls, ps)
  = (ls ++ test_labels loader, ps ++ test_preds model_type loader m).
Proof.
  revert ls ps. induction loader as [|[inputs labels] rest IH]; intros ls ps.
  - unfold test_labels, test_preds. simpl. rewrite !app_nil_r. reflexivity.
  - simpl. rewrite IH. unfold test_labels, test_preds. simpl.
    rewrite <- !app_assoc. reflexivity.
Qed.

End Passes.

(** ** The early-stopping rule *)

Section Rule.
Variable c : nat -> float.

Lemma es_after_improves (k : nat) :
  PyFloat.ltb (c (S k)) (es_best (es_after c k)) = true ->
  es_after c (S k) = {| es_best := c (S k); es_counter := 0 |}.
Proof. intros H. simpl. unfold es_step. rewrite H. reflexivity. Qed.

Lemma es_after_fails (k : nat) :
  PyFloat.ltb (c (S k)) (es_best (es_after c k)) = false ->
  es_after c (S k)
  = {| es_best := es_best (es_after c k);
       es_counter := S (es_counter (es_after c k)) |}.
Proof. intros H. simpl. unfold es_step. rewrite H. reflexivity. Qed.

Lemma es_counter_succ (k : nat) :
  es_counter (es_after c (S k)) = 0
  \/ es_counter (es_after c (S k)) = S (es_counter (es_after c k)).
Proof.
  destruct (PyFloat.ltb (c (S k)) (es_best (es_after c k))) eqn:E.
  - left. rewrite es_after_improves by assumption. reflexivity.
  - right. rewrite es_after_fails by assumption. reflexivity.
Qed.

Lemma es_counter_le (k : nat) : es_counter (es_after c k) <= k.
Proof.
  induction k as [|k IH]; [simpl; lia|].
  destruct (es_counter_succ k) as [H|H]; rewrite H; lia.
Qed.

(** The counter is the length of the run of failing epochs that ends with
    the last epoch. *)
Lemma es_counter_ge_iff (k m : nat) :
  m <= es_counter (es_after c k) <-> consecutive_failures c m k.
Proof.
  unfold consecutive_failures. revert m.
  induction k as [|k IH]; intros m.
  - simpl. split; [intros H; split; [lia|intros j Hj; lia] | intros [H _]; lia].
  - destruct m as [|m].
    + split; [intros _; split; [lia|intros j Hj; lia] | lia].
    + destruct (PyFloat.ltb (c (S k)) (es_best (es_after c k))) eqn:E.
      * rewrite es_after_improves by assumption. simpl. split; [lia|].
        intros [_ H]. specialize (H (S k) ltac:(lia)).
        unfold fails_to_improve in H.
        replace (S k - 1) with k in H by lia. congruence.
      * rewrite es_after_fails by assumption. simpl.
        rewrite <- Nat.succ_le_mono, IH. split.
        -- intros [H1 H2]. split; [lia|]. intros j Hj.
           destruct (Nat.eq_dec j (S k)) as [->|Hne].
           ++ unfold fails_to_improve.
              replace (S k - 1) with k by lia. assumption.
           ++ apply H2. lia.
        -- intros [H1 H2]. split; [lia|]. intros j Hj. apply H2. lia.
Qed.

Lemma es_counter_reaches (e m : nat) :
  m <= es_counter (es_after c e) ->
  exists j, j <= e /\ es_counter (es_after c j) = m.
Proof.
  induction e as [|e IH]; intros H.
  - exists 0. simpl in *. split; lia.
  - destruct (Nat.eq_dec (es_counter (es_after c (S e))) m) as [Heq|Hne].
    + exists (S e). split; [lia|assumption].
    + destruct (es_counter_succ e) as [H0|HS].
      * lia.
      * destruct IH as (j & Hj & Hc); [lia|]. exists j. split; [lia|assumption].
Qed.

Lemma es_reached_iff (k : nat) :
  es_reached (es_after c k) = true <-> es_counter (es_after c k) = 5.
Proof. unfold es_reached. apply Nat.eqb_eq. Qed.

Lemma epochs_from_bounds (fuel k : nat) :
  k <= epochs_from c fuel k <= k + fuel
  /\ (0 < fuel -> k < epochs_from c fuel k).
Proof.
  revert k. induction fuel as [|fuel IH]; intros k; cbn [epochs_from].
  - lia.
  - destruct (es_reached (es_after c (S k))); [lia|].
    specialize (IH (S k)). lia.
Qed.

(** No epoch before the last one reaches the counter. *)
Lemma epochs_from_before (fuel k j : nat) :
  k < j < epochs_from c fuel k -> es_reached (es_after c j) = false.
Proof.
  revert k. induction fuel as [|fuel IH]; intros k; cbn [epochs_from].
  - lia.
  - destruct (es_reached (es_after c (S k))) eqn:E; [lia|].
    intros Hj. destruct (Nat.eq_dec j (S k)) as [->|Hne]; [assumption|].
    apply (IH (S k)). lia.
Qed.

(** A loop that ends before its bound ends on an epoch that reaches it. *)
Lemma epochs_from_early (fuel k : nat) :
  epochs_from c fuel k < k + fuel ->
  es_reached (es_after c (epochs_from c fuel k)) = true.
Proof.
  revert k. induction fuel as [|fuel IH]; intros k; cbn [epochs_from].
  - lia.
  - destruct (es_reached (es_after c (S k))) eqn:E; [intros _; assumption|].
    intros H. apply IH. lia.
Qed.

Lemma epochs_run_bounds : 1 <= epochs_run c <= 25.
Proof.
  unfold epochs_run. pose proof (epochs_from_bounds 25 0) as [H1 H2]. lia.
Qed.

(** The loop stops early exactly when some five consecutive epochs among
    the 25 fail to improve. *)
Lemma early_stop_iff :
  es_reached (es_after c (epochs_run c)) = true
  <-> exists e, e <= 25 /\ consecutive_failures c 5 e.
Proof.
  pose proof epochs_run_bounds as Hb. split.
  - intros H. exists (epochs_run c). split; [lia|].
    apply es_counter_ge_iff. apply es_reached_iff in H. lia.
  - intros (e & He & Hf). apply es_counter_ge_iff in Hf.
    destruct (es_counter_reaches e 5 Hf) as (j & Hj & Hc).
    destruct (es_reached (es_after c (epochs_run c))) eqn:E; [reflexivity|].
    exfalso.
    assert (Hn : epochs_run c = 25).
    { destruct (Nat.lt_ge_cases (epochs_run c) 25) as [Hlt|Hge]; [|lia].
      unfold epochs_run in *. rewrite epochs_from_early in E by lia.
      discriminate. }
    assert (Hj0 : 0 < j).
    { destruct j; [simpl in Hc; discriminate|lia]. }
    apply es_reached_iff in Hc.
    destruct (Nat.eq_dec j (epochs_run c)) as [->|Hne]; [congruence|].
    rewrite (epochs_from_before 25 0 j) in Hc; [discriminate|].
    fold (epochs_run c). lia.
Qed.

End Rule.

(** ** The epoch loop *)

Ltac state_fields :=
  cbn [ls_model ls_optimizer ls_best_val_loss ls_epochs_without_improvement
       ls_train_losses ls_val_losses].

Section LoopFacts.
Context `{C : Collaborators}.
Variable model_type : string.
Variable s : setup.

Let c : nat -> float := run_cum_val model_type s.

Lemma run_cum_train_succ (k : nat) :
  run_cum_train model_type s (S k)
  = fold_left PyFloat.add
      (train_batch_losses model_type (su_train_loader s)
         (fst (run_params model_type s k)) (snd (run_params model_type s k)))
      PyFloat.zero.
Proof.
  unfold run_cum_train, cum_train_loss, epoch_train_batch_losses, run_params.
  replace (S k - 1) with k by lia. reflexivity.
Qed.

Lemma histories_succ (f : nat -> float) (k : nat) :
  map f (seq 1 (S k)) = map f (seq 1 k) ++ [f (S k)].
Proof. rewrite seq_S, map_app. reflexivity. Qed.

Section Completes.
Hypothesis Htrain : divisor_ok (length (su_train_loader s)) = true.
Hypothesis Hval : divisor_ok (length (su_val_loader s)) = true.

(** One iteration, from the variables after [k] epochs. *)
Lemma epoch_loop_step (k : nat) (rest : list nat) (w : world) :
  epoch_loop model_type (su_train_loader s) (su_val_loader s)
    (k :: rest) (state_at model_type s k) w
  = if PyFloat.ltb (c (S k)) (es_best (es_after c k))
    then epoch_loop model_type (su_train_loader s) (su_val_loader s)
           rest (state_at model_type s (S k)) w
    else if (5 <=? S (es_counter (es_after c k)))%nat
         then ({| stdout := stdout w ++ [early_stop_message (S k)];
                  fs := fs w |},
               Ok (state_at model_type s (S k)))
         else epoch_loop model_type (su_train_loader s) (su_val_loader s)
                rest (state_at model_type s (S k)) w.
Proof.
  assert (Est : forall st,
            ls_model st = fst (run_params model_type s (S k)) ->
            ls_optimizer st = snd (run_params model_type s (S k)) ->
            ls_best_val_loss st = es_best (es_after c (S k)) ->
            ls_epochs_without_improvement st
            = es_counter (es_after c (S k)) ->
            ls_train_losses st
            = map (recorded_train model_type s) (seq 1 k)
              ++ [mean_of (run_cum_train model_type s (S k))
                    (length (su_train_loader s))] ->
            ls_val_losses st
            = map (recorded_val model_type s) (seq 1 k)
              ++ [mean_of (c (S k)) (length (su_val_loader s))] ->
            st = state_at model_type s (S k)).
  { intros [a b d e f g]; state_fields; intros -> -> -> -> -> ->.
    unfold state_at. rewrite !histories_succ. reflexivity. }
  remember (state_at model_type s (S k)) as st' eqn:Hst'.
  cbn [epoch_loop]. unfold state_at. state_fields.
  rewrite fold_train_batch, <- run_cum_train_succ.
  pose proof (eq_refl (run_params model_type s (S k))) as E.
  unfold run_params at 2 in E. cbn [params_after] in E.
  fold (run_params model_type s k) in E.
  destruct (train_pass model_type (su_train_loader s)
              (fst (run_params model_type s k))
              (snd (run_params model_type s k))) as [m' o'] eqn:Epass.
  unfold bind at 1, lift at 1. rewrite py_truediv_ok by assumption.
  rewrite fold_val_batch.
  assert (Ec : fold_left PyFloat.add
                 (val_batch_losses model_type (su_val_loader s) m')
                 PyFloat.zero = c (S k)).
  { subst c. unfold run_cum_val, cum_val_loss, epoch_val_batch_losses.
    cbn [params_after]. unfold run_params in Epass. rewrite Epass.
    reflexivity. }
  rewrite Ec.
  unfold bind at 1, lift at 1. rewrite py_truediv_ok by assumption.
  fold c.
  destruct (PyFloat.ltb (c (S k)) (es_best (es_after c k))) eqn:El.
  - f_equal. subst st'. apply Est; state_fields; rewrite ?E; try reflexivity;
      rewrite es_after_improves by assumption; reflexivity.
  - rewrite Nat.add_1_r.
    unfold patience.
    destruct (5 <=? S (es_counter (es_after c k)))%nat eqn:Ep.
    + unfold bind, print, ret. rewrite Nat.add_1_r.
      f_equal. f_equal. subst st'.
      apply Est; state_fields; rewrite ?E; try reflexivity;
        rewrite es_after_fails by assumption; reflexivity.
    + f_equal. subst st'.
      apply Est; state_fields; rewrite ?E; try reflexivity;
        rewrite es_after_fails by assumption; reflexivity.
Qed.

(** The loop from [k] epochs on, with [fuel] more epochs allowed. *)
Lemma epoch_loop_from (fuel k : nat) (w : world) :
  es_counter (es_after c k) < 5 ->
  epoch_loop model_type (su_train_loader s) (su_val_loader s)
    (seq k fuel) (state_at model_type s k) w
  = (world_after_epochs model_type s (epochs_from c fuel k) w,
     Ok (state_at model_type s (epochs_from c fuel k))).
Proof.
  revert k. induction fuel as [|fuel IH]; intros k Hk.
  - cbn [seq epoch_loop epochs_from]. unfold ret, world_after_epochs.
    fold c. unfold es_reached.
    destruct (Nat.eqb_spec (es_counter (es_after c k)) 5); [lia|reflexivity].
  - cbn [seq epochs_from]. rewrite epoch_loop_step.
    destruct (PyFloat.ltb (c (S k)) (es_best (es_after c k))) eqn:El.
    + assert (Hc : es_counter (es_after c (S k)) = 0)
        by (rewrite es_after_improves by assumption; reflexivity).
      assert (Hr : es_reached (es_after c (S k)) = false)
        by (unfold es_reached; rewrite Hc; reflexivity).
      rewrite Hr. apply IH. lia.
    + assert (Hc : es_counter (es_after c (S k))
                   = S (es_counter (es_after c k)))
        by (rewrite es_after_fails by assumption; reflexivity).
      destruct (es_reached (es_after c (S k))) eqn:Hr.
      * apply es_reached_iff in Hr as Hr'.
        destruct (Nat.leb_spec 5 (S (es_counter (es_after c k)))); [|lia].
        unfold world_after_epochs. fold c. rewrite Hr. reflexivity.
      * assert (es_counter (es_after c (S k)) <> 5).
        { intros H5. apply es_reached_iff in H5. congruence. }
        destruct (Nat.leb_spec 5 (S (es_counter (es_after c k)))); [lia|].
        apply IH. lia.
Qed.

End Completes.

End LoopFacts.

(** ** Computations that leave the world alone *)

Lemma bind_assoc {A B D} (c : M A) (k : A -> M B) (k' : B -> M D) (w : world) :
  bind (bind c k) k' w = bind c (fun a => bind (k a) k') w.
Proof. unfold bind. destruct (c w) as [w1 [a|e]]; reflexivity. Qed.

Lemma bind_ext {A B} (c : M A) (k k' : A -> M B) (w : world) :
  (forall a w1, k a w1 = k' a w1) -> bind c k w = bind c k' w.
Proof. intros H. unfold bind. destruct (c w) as [w1 [a|e]]; [apply H|reflexivity]. Qed.

Lemma pure_ret {A} (a : A) : pure_M (ret a).
Proof. exists (Ok a). reflexivity. Qed.

Lemma pure_raise {A} (e : exn) : pure_M (@raise A e).
Proof. exists (Raise e). reflexivity. Qed.

Lemma pure_bind {A B} (c : M A) (k : A -> M B) :
  pure_M c -> (forall a, pure_M (k a)) -> pure_M (bind c k).
Proof.
  intros [r Hr] Hk. destruct r as [a|e].
  - destruct (Hk a) as [r' Hr']. exists r'. intros w.
    unfold bind. rewrite Hr. apply Hr'.
  - exists (Raise e). intros w. unfold bind. rewrite Hr. reflexivity.
Qed.

Lemma pure_getitem {V} (d : dict V) (k : string) : pure_M (getitem d k).
Proof. unfold getitem. destruct (dict_get d k); [apply pure_ret|apply pure_raise]. Qed.

Lemma pure_py_assert (b : bool) (msg : string) : pure_M (py_assert b msg).
Proof. unfold py_assert. destruct b; [apply pure_ret|apply pure_raise]. Qed.

Create HintDb pure.
#[local] Hint Resolve pure_ret pure_raise pure_getitem pure_py_assert : pure.

Ltac pure_steps :=
  repeat match goal with
         | |- pure_M (bind _ _) => apply pure_bind; [|intros ?]
         end;
  auto with pure.

Section PrepareFacts.
Context `{C : Collaborators}.

Lemma pure_check_shuffle_orders r1 c1 r c :
  pure_M (check_shuffle_orders r1 c1 r c).
Proof.
  unfold check_shuffle_orders.
  destruct c1, c, r1, r; pure_steps.
Qed.

Lemma pure_build_model config model_type image_dim :
  pure_M (build_model config model_type image_dim).
Proof.
  unfold build_model.
  destruct (String.eqb model_type "MLP"); [pure_steps|].
  destruct (String.eqb model_type "MLP_3CH"); [pure_steps|].
  destruct (String.eqb model_type "CNN"); [pure_steps|].
  destruct (String.eqb model_type "CNN_3CH"); pure_steps.
Qed.

Lemma pure_prepare config model_type dataset image_dim pcam_data_path :
  pure_M (prepare config model_type dataset image_dim pcam_data_path).
Proof.
  unfold prepare. apply pure_bind; [apply pure_getitem|]. intros bs.
  destruct (load_training_data _ _ _ _) as [[[tr va] r1] c1].
  apply pure_bind; [apply pure_getitem|]. intros bs'.
  destruct (load_testing_data _ _ _ _ _) as [[te r] c].
  apply pure_bind; [apply pure_check_shuffle_orders|]. intros _.
  apply pure_bind; [apply pure_build_model|]. intros m.
  pure_steps.
Qed.

(** The outcome of the preparation does not depend on the world. *)
Lemma prepare_same config model_type dataset image_dim pcam_data_path w w0 r :
  prepare config model_type dataset image_dim pcam_data_path w0 = (w0, r) ->
  prepare config model_type dataset image_dim pcam_data_path w = (w, r).
Proof.
  destruct (pure_prepare config model_type dataset image_dim pcam_data_path)
    as [r' Hr'].
  rewrite !Hr'. congruence.
Qed.

Lemma prepare_world config model_type dataset image_dim pcam_data_path w w1 r :
  prepare config model_type dataset image_dim pcam_data_path w = (w1, r) ->
  w1 = w.
Proof.
  destruct (pure_prepare config model_type dataset image_dim pcam_data_path)
    as [r' Hr'].
  rewrite Hr'. congruence.
Qed.

End PrepareFacts.

(** ** A whole run *)

Section RunFacts.
Context `{C : Collaborators}.
Variable model_type : string.
Variable s : setup.

Let c : nat -> float := run_cum_val model_type s.

(** With loaders whose lengths divide, the run returns, and what it
    returns is the closed form. *)
Lemma train_and_test_completes (w : world) :
  divisor_ok (length (su_train_loader s)) = true ->
  divisor_ok (length (su_val_loader s)) = true ->
  train_and_test model_type (su_train_loader s) (su_val_loader s)
    (su_test_loader s) (su_model s) (su_optimizer s) w
  = (world_after_epochs model_type s (epochs_run c) w,
     Ok (result_after_epochs model_type s (epochs_run c))).
Proof.
  intros Ht Hv. unfold train_and_test, range.
  change {| ls_model := su_model s; ls_optimizer := su_optimizer s;
            ls_best_val_loss := PyFloat.inf;
            ls_epochs_without_improvement := 0;
            ls_train_losses := []; ls_val_losses := [] |}
    with (state_at model_type s 0).
  unfold bind at 1.
  rewrite (epoch_loop_from model_type s Ht Hv 25 0 w) by (cbn [es_after es_init es_counter]; lia).
  fold c. fold (epochs_run c).
  rewrite fold_test_batch. reflexivity.
Qed.

(** With a loader whose length does not divide, the first epoch raises. *)
Lemma epoch_loop_raises (k : nat) (rest : list nat) (st : loop_state)
    (w : world) :
  divisor_ok (length (su_train_loader s)) = false
  \/ divisor_ok (length (su_val_loader s)) = false ->
  exists e,
    epoch_loop model_type (su_train_loader s) (su_val_loader s)
      (k :: rest) st w = (w, Raise e).
Proof.
  intros H. cbn [epoch_loop].
  destruct (fold_left _ (su_train_loader s) _) as [[m o] l].
  destruct (divisor_ok (length (su_train_loader s))) eqn:Ht.
  - destruct H as [H|H]; [discriminate|].
    unfold bind, lift. cbv beta iota zeta.
    rewrite py_truediv_ok by assumption.
    match goal with
    | |- context [py_truediv ?x (Z.of_nat (length (su_val_loader s)))] =>
        destruct (py_truediv_raise x _ H) as [e He]
    end.
    exists e. rewrite He. reflexivity.
  - destruct (py_truediv_raise l _ Ht) as [e He].
    exists e. unfold bind, lift. cbv beta iota zeta.
    rewrite He. reflexivity.
Qed.

Lemma train_and_test_raises (w : world) :
  divisor_ok (length (su_train_loader s)) = false
  \/ divisor_ok (length (su_val_loader s)) = false ->
  exists e,
    train_and_test model_type (su_train_loader s) (su_val_loader s)
      (su_test_loader s) (su_model s) (su_optimizer s) w
    = (w, Raise e).
Proof.
  intros H. unfold train_and_test, range.
  change (seq 0 25) with (0 :: seq 1 24).
  match goal with
  | |- context [epoch_loop _ _ _ _ ?st] =>
      destruct (epoch_loop_raises 0 (seq 1 24) st w H) as [e He]
  end.
  exists e. unfold bind at 1. rewrite He. reflexivity.
Qed.

Lemma train_and_test_inv (w w' : world) (r : run_result) :
  train_and_test model_type (su_train_loader s) (su_val_loader s)
    (su_test_loader s) (su_model s) (su_optimizer s) w = (w', Ok r) ->
  divisor_ok (length (su_train_loader s)) = true
  /\ divisor_ok (length (su_val_loader s)) = true
  /\ w' = world_after_epochs model_type s (epochs_run c) w
  /\ r = result_after_epochs model_type s (epochs_run c).
Proof.
  intros H.
  destruct (divisor_ok (length (su_train_loader s))) eqn:Ht;
    [destruct (divisor_ok (length (su_val_loader s))) eqn:Hv|].
  - rewrite train_and_test_completes in H by assumption.
    inversion H. auto.
  - destruct (train_and_test_raises w (or_intror Hv)) as [e He]. congruence.
  - destruct (train_and_test_raises w (or_introl Ht)) as [e He]. congruence.
Qed.

End RunFacts.

Section EvaluateFacts.
Context `{C : Collaborators}.

Lemma train_and_evaluate_inv config model_type dataset image_dim
    pcam_data_path (w w' : world) (r : run_result) :
  train_and_evaluate config model_type dataset image_dim pcam_data_path w
  = (w', Ok r) ->
  exists s,
    prepare config model_type dataset image_dim pcam_data_path w = (w, Ok s)
    /\ divisor_ok (length (su_train_loader s)) = true
    /\ divisor_ok (length (su_val_loader s)) = true
    /\ w' = world_after_epochs model_type s
              (epochs_run (run_cum_val model_type s)) w
    /\ r = result_after_epochs model_type s
             (epochs_run (run_cum_val model_type s)).
Proof.
  unfold train_and_evaluate, bind. intros H.
  destruct (prepare config model_type dataset image_dim pcam_data_path w)
    as [w1 [s|e]] eqn:Ep; [|discriminate].
  apply prepare_world in Ep as Hw. subst w1.
  exists s. split; [reflexivity|].
  apply train_and_test_inv in H. exact H.
Qed.

Lemma train_and_evaluate_completes config model_type dataset image_dim
    pcam_data_path (w w0 : world) (s : setup) :
  prepare config model_type dataset image_dim pcam_data_path w0 = (w0, Ok s) ->
  divisor_ok (length (su_train_loader s)) = true ->
  divisor_ok (length (su_val_loader s)) = true ->
  train_and_evaluate config model_type dataset image_dim pcam_data_path w
  = (world_after_epochs model_type s
       (epochs_run (run_cum_val model_type s)) w,
     Ok (result_after_epochs model_type s
           (epochs_run (run_cum_val model_type s)))).
Proof.
  intros Hp Ht Hv. unfold train_and_evaluate, bind.
  rewrite (prepare_same _ _ _ _ _ w w0 _ Hp).
  apply train_and_test_completes; assumption.
Qed.

Lemma prepare_raises_evaluate config model_type dataset image_dim
    pcam_data_path (w w0 : world) (e : exn) :
  prepare config model_type dataset image_dim pcam_data_path w0 = (w0, Raise e) ->
  train_and_evaluate config model_type dataset image_dim pcam_data_path w
  = (w, Raise e).
Proof.
  intros Hp. unfold train_and_evaluate, bind.
  rewrite (prepare_same _ _ _ _ _ w w0 _ Hp). reflexivity.
Qed.

(** A run prints at most one line and never touches the files. *)
Lemma train_and_evaluate_fs config model_type dataset image_dim
    pcam_data_path (w : world) :
  fs (fst (train_and_evaluate config model_type dataset image_dim
             pcam_data_path w)) = fs w.
Proof.
  destruct (train_and_evaluate config model_type dataset image_dim
              pcam_data_path w) as [w' [r|e]] eqn:E.
  - apply train_and_evaluate_inv in E as (s & _ & _ & _ & -> & _).
    unfold world_after_epochs. cbn.
    destruct (es_reached _); reflexivity.
  - unfold train_and_evaluate, bind in E.
    destruct (prepare config model_type dataset image_dim pcam_data_path w)
      as [w1 [s|e1]] eqn:Ep.
    + apply prepare_world in Ep as ->.
      destruct (divisor_ok (length (su_train_loader s))) eqn:Ht;
        [destruct (divisor_ok (length (su_val_loader s))) eqn:Hv|].
      * rewrite train_and_test_completes in E by assumption. discriminate.
      * destruct (train_and_test_raises model_type s w (or_intror Hv))
          as [e' He']. rewrite He' in E. inversion E. reflexivity.
      * destruct (train_and_test_raises model_type s w (or_introl Ht))
          as [e' He']. rewrite He' in E. inversion E. reflexivity.
    + apply prepare_world in Ep as ->. inversion E. reflexivity.
Qed.

End EvaluateFacts.

(** ** More on the rule: lower bounds on the number of epochs *)

Section RuleBounds.
Variable c : nat -> float.

Lemma es_counter_add (k d : nat) :
  es_counter (es_after c (k + d)) <= es_counter (es_after c k) + d.
Proof.
  induction d as [|d IH].
  - rewrite Nat.add_0_r. lia.
  - rewrite Nat.add_succ_r.
    destruct (es_counter_succ c (k + d)) as [H|H]; rewrite H; lia.
Qed.

Lemma es_reached_false (k : nat) :
  es_counter (es_after c k) < 5 -> es_reached (es_after c k) = false.
Proof. unfold es_reached. intros H. apply Nat.eqb_neq. lia. Qed.

(** The loop runs at least [m] epochs when none before the [m]-th reaches
    the counter. *)
Lemma epochs_run_ge (m : nat) :
  m <= 25 ->
  (forall k, 0 < k < m -> es_reached (es_after c k) = false) ->
  m <= epochs_run c.
Proof.
  intros Hm H. pose proof (epochs_run_bounds c) as Hb.
  destruct (Nat.le_gt_cases m (epochs_run c)) as [Hle|Hgt]; [assumption|].
  exfalso.
  assert (Hr : es_reached (es_after c (epochs_run c)) = true).
  { unfold epochs_run in *. apply epochs_from_early. lia. }
  rewrite H in Hr by lia. discriminate.
Qed.

(** While the loop runs, the counter stays below 5. *)
Lemma es_counter_running (k : nat) :
  k < epochs_run c -> es_counter (es_after c k) < 5.
Proof.
  induction k as [|k IH]; intros Hk; [simpl; lia|].
  assert (Hr : es_reached (es_after c (S k)) = false).
  { apply (epochs_from_before c 25 0). fold (epochs_run c). lia. }
  assert (Hne : es_counter (es_after c (S k)) <> 5).
  { intros H5. apply es_reached_iff in H5. congruence. }
  specialize (IH ltac:(lia)).
  destruct (es_counter_succ c k) as [H|H]; lia.
Qed.

End RuleBounds.

Lemma snoc_neq {A} (l : list A) (x : A) : l ++ [x] <> l.
Proof.
  intros H. apply (f_equal (@length A)) in H.
  rewrite length_app in H. simpl in H. lia.
Qed.

(** ** What a completed run returned *)

Section Summary.
Context `{C : Collaborators}.
Variables (config : dict pyval) (model_type dataset : string).
Variables (image_dim : Z) (pcam_data_path : option string).
Variables (w w1 w' : world) (s : setup) (r : run_result).

Hypothesis Hprepare :
  prepare config model_type dataset image_dim pcam_data_path w = (w1, Ok s).
Hypothesis Hrun :
  train_and_evaluate config model_type dataset image_dim pcam_data_path w
  = (w', Ok r).

Let c : nat -> float := run_cum_val model_type s.
Let n : nat := epochs_run c.

Lemma run_summary :
  r = result_after_epochs model_type s n
  /\ w' = world_after_epochs model_type s n w
  /\ divisor_ok (length (su_train_loader s)) = true
  /\ divisor_ok (length (su_val_loader s)) = true.
Proof.
  apply train_and_evaluate_inv in Hrun as (s' & Hp & Ht & Hv & Hw & Hr).
  apply prepare_world in Hprepare as Hw1. subst w1.
  rewrite Hprepare in Hp. inversion Hp. subst s'. auto.
Qed.

(** The epoch loop of the run, from its initial variables. *)
Lemma run_loop_state :
  epoch_loop model_type (su_train_loader s) (su_val_loader s) (range 25)
    {| ls_model := su_model s; ls_optimizer := su_optimizer s;
       ls_best_val_loss := PyFloat.inf;
       ls_epochs_without_improvement := 0;
       ls_train_losses := []; ls_val_losses := [] |} w
  = (w', Ok (state_at model_type s n)).
Proof.
  destruct run_summary as (_ & Hw & Hdt & Hdv).
  change {| ls_model := su_model s; ls_optimizer := su_optimizer s;
            ls_best_val_loss := PyFloat.inf;
            ls_epochs_without_improvement := 0;
            ls_train_losses := []; ls_val_losses := [] |}
    with (state_at model_type s 0).
  unfold range.
  rewrite (epoch_loop_from model_type s Hdt Hdv 25 0 w)
    by (cbn [es_after es_init es_counter]; lia).
  rewrite Hw. reflexivity.
Qed.

Lemma run_lengths :
  length (train_losses r) = n /\ length (val_losses r) = n.
Proof.
  destruct run_summary as (-> & _). cbn [result_after_epochs train_losses val_losses].
  rewrite !length_map, !length_seq. auto.
Qed.

Lemma run_stdout :
  (es_reached (es_after c n) = true
   /\ stdout w' = stdout w ++ [early_stop_message n])
  \/ (es_reached (es_after c n) = false /\ w' = w).
Proof.
  destruct run_summary as (_ & -> & _). unfold world_after_epochs.
  fold c. destruct (es_reached (es_after c n)); [left|right]; auto.
Qed.

Lemma run_stopped_iff :
  stdout w' = stdout w ++ [early_stop_message n]
  <-> es_reached (es_after c n) = true.
Proof.
  destruct run_stdout as [[Hr Hs]|[Hr ->]].
  - tauto.
  - split; [|congruence]. intros H. symmetry in H.
    apply snoc_neq in H. contradiction.
Qed.

End Summary.

Lemma length_train_batch_losses `{C : Collaborators} (model_type : string)
    (loader : list batch) (m : Model) (o : Optimizer) :
  length (train_batch_losses model_type loader m o) = length loader.
Proof.
  revert m o. induction loader as [|[i l] rest IH]; intros m o; [reflexivity|].
  cbn [train_batch_losses].
  destruct (optimizer_step m o _ l) as [m' o']. cbn [length].
  rewrite IH. reflexivity.
Qed.

(** * The claims about [train_and_evaluate] *)

Section Claims.
Context `{C : Collaborators}.
Variables (config : dict pyval) (model_type dataset : string).
Variables (image_dim : Z) (pcam_data_path : option string).

(** C4: for every completed invocation of [train_and_evaluate], the returned
    train-loss and validation-loss sequences have the same length, this
    length is at most 25, and it is below 25 only when early stopping ended
    the loop: the line "Early stopping at epoch n" was then printed for the
    last recorded epoch [n], whose strike counter had reached 5. *)
Theorem loss_histories_length (w w' : world) (r : run_result) :
  train_and_evaluate config model_type dataset image_dim pcam_data_path w
  = (w', Ok r) ->
  length (train_losses r) = length (val_losses r)
  /\ length (val_losses r) <= 25
  /\ (length (val_losses r) < 25 ->
      stdout w'
      = stdout w
        ++ ["Early stopping at epoch " +:+ pretty (length (val_losses r))]
      /\ exists s,
           prepare config model_type dataset image_dim pcam_data_path w
           = (w, Ok s)
           /\ es_counter (es_after (run_cum_val model_type s)
                            (length (val_losses r))) = 5).
Proof.
  intros Hrun.
  destruct (train_and_evaluate_inv _ _ _ _ _ _ _ _ Hrun) as (s & Hp & _).
  destruct (run_lengths _ _ _ _ _ _ _ _ _ _ Hp Hrun) as [Ht Hv].
  pose proof (epochs_run_bounds (run_cum_val model_type s)) as Hb.
  rewrite Ht, Hv. split; [reflexivity|]. split; [lia|].
  intros Hlt.
  assert (Hr : es_reached (es_after (run_cum_val model_type s)
                             (epochs_run (run_cum_val model_type s))) = true).
  { unfold epochs_run in *. apply epochs_from_early. lia. }
  split.
  - apply (run_stopped_iff _ _ _ _ _ _ _ _ _ _ Hp Hrun). exact Hr.
  - exists s. split; [exact Hp|]. apply es_reached_iff. exact Hr.
Qed.

(** C1: the epoch loop follows the early-stopping rule of the specification.
    With [best_val_loss] at +infinity and the counter at 0 before the first
    epoch, and the rule applied to the cumulative validation loss of each
    epoch, the loop of a completed run ends with the variables the rule
    gives, it runs every epoch before which the counter is below 5, it ends
    before its 25th epoch only on an epoch at which the counter reaches 5,
    and the losses of that epoch, like those of every epoch before it, are in
    the two histories. *)
Theorem early_stopping_algorithm (w w1 w' : world) (s : setup) (r : run_result) :
  prepare config model_type dataset image_dim pcam_data_path w = (w1, Ok s) ->
  train_and_evaluate config model_type dataset image_dim pcam_data_path w
  = (w', Ok r) ->
  let c := run_cum_val model_type s in
  let n := length (val_losses r) in
  es_after c 0 = {| es_best := PyFloat.inf; es_counter := 0 |}
  /\ (exists st,
        epoch_loop model_type (su_train_loader s) (su_val_loader s) (range 25)
          {| ls_model := su_model s; ls_optimizer := su_optimizer s;
             ls_best_val_loss := PyFloat.inf;
             ls_epochs_without_improvement := 0;
             ls_train_losses := []; ls_val_losses := [] |} w
        = (w', Ok st)
        /\ ls_best_val_loss st = es_best (es_after c n)
        /\ ls_epochs_without_improvement st = es_counter (es_after c n)
        /\ ls_train_losses st = train_losses r
        /\ ls_val_losses st = val_losses r)
  /\ 1 <= n <= 25
  /\ (forall k, k < n -> es_counter (es_after c k) < 5)
  /\ (n < 25 -> es_counter (es_after c n) = 5)
  /\ (es_counter (es_after c n) = 5 ->
      stdout w' = stdout w ++ ["Early stopping at epoch " +:+ pretty n])
  /\ train_losses r = map (recorded_train model_type s) (seq 1 n)
  /\ val_losses r = map (recorded_val model_type s) (seq 1 n).
Proof.
  intros Hp Hrun c n.
  destruct (run_lengths _ _ _ _ _ _ _ _ _ _ Hp Hrun) as [Ht Hv].
  destruct (run_summary _ _ _ _ _ _ _ _ _ _ Hp Hrun) as (Hr & Hw & Hdt & Hdv).
  pose proof (epochs_run_bounds c) as Hb.
  assert (Hn : n = epochs_run c) by (subst n; exact Hv).
  split; [reflexivity|]. split.
  { exists (state_at model_type s n). split.
    - change {| ls_model := su_model s; ls_optimizer := su_optimizer s;
                ls_best_val_loss := PyFloat.inf;
                ls_epochs_without_improvement := 0;
                ls_train_losses := []; ls_val_losses := [] |}
        with (state_at model_type s 0).
      unfold range.
      rewrite (epoch_loop_from model_type s Hdt Hdv 25 0 w)
        by (cbn [es_after es_init es_counter]; lia).
      rewrite Hw. unfold n. rewrite Hv. reflexivity.
    - rewrite Hr. cbn [result_after_epochs train_losses val_losses].
      unfold n in *. rewrite Hv. repeat split; reflexivity. }
  split; [lia|]. split.
  { intros k Hk. apply es_counter_running. lia. }
  split.
  { intros Hlt. apply es_reached_iff. rewrite Hn.
    unfold epochs_run in *. apply epochs_from_early. lia. }
  split.
  { intros H5. apply es_reached_iff in H5. rewrite Hn in *.
    apply (run_stopped_iff _ _ _ _ _ _ _ _ _ _ Hp Hrun). exact H5. }
  unfold n in *. rewrite Hv, Hr. split; reflexivity.
Qed.

(** C10: when the cumulative validation loss of every epoch that runs is
    finite, and already when the one of the first epoch is, which always
    runs, the first epoch improves on +infinity: it becomes the best loss
    and the counter is 0 after it, and at most [k - 1] after epoch [k].  The
    counter cannot reach 5 before epoch 6, and the histories of a completed
    run have at least 6 and at most 25 entries. *)
Theorem finite_losses_at_least_six_epochs
    (w w1 w' : world) (s : setup) (r : run_result) :
  prepare config model_type dataset image_dim pcam_data_path w = (w1, Ok s) ->
  train_and_evaluate config model_type dataset image_dim pcam_data_path w
  = (w', Ok r) ->
  PyFloat.is_finite (run_cum_val model_type s 1) = true ->
  es_counter (es_after (run_cum_val model_type s) 1) = 0
  /\ es_best (es_after (run_cum_val model_type s) 1) = run_cum_val model_type s 1
  /\ (forall k, 1 <= k ->
        es_counter (es_after (run_cum_val model_type s) k) <= k - 1)
  /\ 6 <= length (val_losses r) <= 25
  /\ 6 <= length (train_losses r) <= 25.
Proof.
  intros Hp Hrun Hfin.
  destruct (run_lengths _ _ _ _ _ _ _ _ _ _ Hp Hrun) as [Ht Hv].
  set (c := run_cum_val model_type s) in *.
  pose proof (epochs_run_bounds c) as Hb.
  assert (Himp : PyFloat.ltb (c 1) (es_best (es_after c 0)) = true).
  { cbn [es_after es_init es_best]. apply ltb_inf_finite. exact Hfin. }
  assert (H1 : es_counter (es_after c 1) = 0).
  { rewrite es_after_improves; [reflexivity | exact Himp]. }
  assert (Hle : forall k, 1 <= k -> es_counter (es_after c k) <= k - 1).
  { intros k Hk. pose proof (es_counter_add c 1 (k - 1)) as Ha.
    replace (1 + (k - 1)) with k in Ha by lia. lia. }
  assert (H6 : 6 <= epochs_run c).
  { apply epochs_run_ge; [lia|]. intros k Hk. apply es_reached_false.
    specialize (Hle k ltac:(lia)). lia. }
  split; [exact H1|]. split.
  { rewrite es_after_improves; [reflexivity | exact Himp]. }
  split; [exact Hle|].
  rewrite Ht, Hv. lia.
Qed.

(** C6: in a completed run, the value recorded for an epoch in the train-loss
    history is the sum of the losses of its training batches divided by the
    number of training batches, and the value recorded in the
    validation-loss history is the sum of the losses of its validation
    batches divided by the number of validation batches: the binary64
    quotient of the binary64 sum, accumulated from 0.0 in the order of the
    batches, by the number of batches, which is not 0.  The comparison of the
    early-stopping rule is made on the undivided sums of the validation
    losses: they give the number of epochs and the best loss the loop ends
    with. *)
Theorem recorded_losses_are_means (w w1 w' : world) (s : setup) (r : run_result) :
  prepare config model_type dataset image_dim pcam_data_path w = (w1, Ok s) ->
  train_and_evaluate config model_type dataset image_dim pcam_data_path w
  = (w', Ok r) ->
  let train_batches k :=
    epoch_train_batch_losses model_type (su_train_loader s)
      (su_model s) (su_optimizer s) k in
  let val_batches k :=
    epoch_val_batch_losses model_type (su_train_loader s) (su_val_loader s)
      (su_model s) (su_optimizer s) k in
  let total (losses : list float) : float :=
    fold_left (SFadd 53 1024) losses (S754_zero false) in
  let count (batches : nat) : float :=
    binary_normalize 53 1024 (Z.of_nat batches) 0 false in
  (forall k, 1 <= k <= length (val_losses r) ->
     train_losses r !! (k - 1)
     = Some (SFdiv 53 1024 (total (train_batches k))
               (count (length (su_train_loader s))))
     /\ length (train_batches k) = length (su_train_loader s)
     /\ val_losses r !! (k - 1)
        = Some (SFdiv 53 1024 (total (val_batches k))
                  (count (length (su_val_loader s))))
     /\ length (val_batches k) = length (su_val_loader s))
  /\ 0 < length (su_train_loader s)
  /\ 0 < length (su_val_loader s)
  /\ length (val_losses r) = epochs_run (fun k => total (val_batches k))
  /\ exists st,
       epoch_loop model_type (su_train_loader s) (su_val_loader s) (range 25)
         {| ls_model := su_model s; ls_optimizer := su_optimizer s;
            ls_best_val_loss := PyFloat.inf;
            ls_epochs_without_improvement := 0;
            ls_train_losses := []; ls_val_losses := [] |} w
       = (w', Ok st)
       /\ ls_best_val_loss st
          = es_best (es_after (fun k => total (val_batches k))
                       (length (val_losses r))).
Proof.
  intros Hp Hrun train_batches val_batches total count.
  destruct (run_lengths _ _ _ _ _ _ _ _ _ _ Hp Hrun) as [Ht Hv].
  destruct (run_summary _ _ _ _ _ _ _ _ _ _ Hp Hrun) as (Hr & _ & Hdt & Hdv).
  split.
  { intros k Hk. rewrite Hv in Hk.
    rewrite Hr. cbn [result_after_epochs train_losses val_losses].
    rewrite !list_lookup_fmap.
    rewrite !lookup_seq_lt by lia.
    replace (1 + (k - 1)) with k by lia.
    repeat split.
    - subst train_batches. unfold epoch_train_batch_losses.
      apply length_train_batch_losses.
    - subst val_batches. unfold epoch_val_batch_losses, val_batch_losses.
      rewrite length_map. reflexivity. }
  split.
  { destruct (su_train_loader s); [discriminate Hdt | cbn [length]; lia]. }
  split.
  { destruct (su_val_loader s); [discriminate Hdv | cbn [length]; lia]. }
  split; [exact Hv|].
  exists (state_at model_type s (epochs_run (run_cum_val model_type s))).
  split; [exact (run_loop_state _ _ _ _ _ _ _ _ _ _ Hp Hrun)|].
  rewrite Hv. reflexivity.
Qed.

(** C9: the predictions of the test phase, and with them the returned
    accuracy, F1, precision and recall, come from the parameters the model
    has after the last epoch that ran; the parameters of the epoch with the
    best validation loss are not put back. *)
Theorem test_uses_last_epoch_parameters
    (w w1 w' : world) (s : setup) (r : run_result) :
  prepare config model_type dataset image_dim pcam_data_path w = (w1, Ok s) ->
  train_and_evaluate config model_type dataset image_dim pcam_data_path w
  = (w', Ok r) ->
  let last_model :=
    fst (params_after model_type (su_train_loader s)
           (su_model s) (su_optimizer s) (length (train_losses r))) in
  let all_labels := test_labels (su_test_loader s) in
  let all_preds := test_preds model_type (su_test_loader s) last_model in
  accuracy r = accuracy_score all_labels all_preds
  /\ f1 r = f1_score all_labels all_preds "weighted"
  /\ precision r = precision_score all_labels all_preds "weighted"
  /\ recall r = recall_score all_labels all_preds "weighted".
Proof.
  intros Hp Hrun.
  destruct (run_lengths _ _ _ _ _ _ _ _ _ _ Hp Hrun) as [Ht Hv].
  destruct (run_summary _ _ _ _ _ _ _ _ _ _ Hp Hrun) as (Hr & _).
  cbv zeta. rewrite Ht, Hr. repeat split; reflexivity.
Qed.

End Claims.

Section ClaimsOnAborts.
Context `{C : Collaborators}.
Variables (config : dict pyval) (model_type dataset : string).
Variables (image_dim : Z) (pcam_data_path : option string).

(** C2, amended: early stopping triggers exactly when five consecutive
    epochs among the 25 fail to strictly improve the best cumulative
    validation loss seen so far, and it triggers at the first epoch that ends
    such a run of five.  For cumulative validation losses that start with
    10, 9, 9, 9, 9, 9, 5 training does not stop at epoch 6: epoch 2 improves
    on epoch 1, the counter is 4 after epoch 6 and epoch 7 resets it, so that
    at least 12 epochs run. *)
Theorem early_stop_iff_five_failures
    (w w1 w' : world) (s : setup) (r : run_result) :
  prepare config model_type dataset image_dim pcam_data_path w = (w1, Ok s) ->
  train_and_evaluate config model_type dataset image_dim pcam_data_path w
  = (w', Ok r) ->
  let c := run_cum_val model_type s in
  let n := length (val_losses r) in
  let stopped :=
    stdout w' = stdout w ++ ["Early stopping at epoch " +:+ pretty n] in
  (stopped <-> exists e, e <= 25 /\ consecutive_failures c 5 e)
  /\ (stopped ->
      consecutive_failures c 5 n
      /\ forall e, e < n -> ~ consecutive_failures c 5 e)
  /\ (~ stopped -> n = 25 /\ w' = w)
  /\ (map c (seq 1 7) = map PyFloat.of_Z [10; 9; 9; 9; 9; 9; 5]%Z ->
      es_counter (es_after c 6) = 4
      /\ es_counter (es_after c 7) = 0
      /\ 12 <= n).
Proof.
  intros Hp Hrun c n stopped.
  destruct (run_lengths _ _ _ _ _ _ _ _ _ _ Hp Hrun) as [_ Hv].
  pose proof (run_stopped_iff _ _ _ _ _ _ _ _ _ _ Hp Hrun) as Hs.
  pose proof (run_stdout _ _ _ _ _ _ _ _ _ _ Hp Hrun) as Ho.
  pose proof (epochs_run_bounds c) as Hb.
  fold c in Hv, Hs, Ho. unfold early_stop_message in Hs, Ho.
  rewrite <- Hv in Hs, Ho. fold n in Hs, Ho. fold stopped in Hs, Ho.
  split; [|split; [|split]].
  - rewrite Hs. unfold n. rewrite Hv. apply early_stop_iff.
  - intros Hst. apply Hs in Hst. apply es_reached_iff in Hst. split.
    + apply es_counter_ge_iff. lia.
    + intros e He Hf. apply es_counter_ge_iff in Hf.
      unfold n in He. rewrite Hv in He.
      pose proof (es_counter_running c e He). lia.
  - intros Hns. destruct Ho as [[_ Hst]|[Hr Hw]]; [contradiction|].
    split; [|exact Hw].
    destruct (Nat.lt_ge_cases n 25) as [Hlt|Hge]; [|unfold n in *; lia].
    unfold n in Hlt, Hr. rewrite Hv in Hlt, Hr. unfold epochs_run in Hlt, Hr.
    rewrite epochs_from_early in Hr by lia. discriminate.
  - intros Hseq. cbn [map seq] in Hseq.
    injection Hseq as E1 E2 E3 E4 E5 E6 E7.
    assert (H2 : es_counter (es_after c 2) = 0).
    { cbn [es_after]. rewrite E1, E2. reflexivity. }
    assert (H6 : es_counter (es_after c 6) = 4).
    { cbn [es_after]. rewrite E1, E2, E3, E4, E5, E6. reflexivity. }
    assert (H7 : es_counter (es_after c 7) = 0).
    { cbn [es_after]. rewrite E1, E2, E3, E4, E5, E6, E7. reflexivity. }
    split; [exact H6|]. split; [exact H7|].
    unfold n. rewrite Hv. apply epochs_run_ge; [lia|].
    intros k Hk. apply es_reached_false.
    destruct (Nat.le_gt_cases k 2) as [Hk2|Hk2].
    { pose proof (es_counter_le c k). lia. }
    destruct (Nat.le_gt_cases k 6) as [Hk6|Hk6].
    { pose proof (es_counter_add c 2 (k - 2)) as Ha.
      replace (2 + (k - 2)) with k in Ha by lia. lia. }
    pose proof (es_counter_add c 7 (k - 7)) as Ha.
    replace (7 + (k - 7)) with k in Ha by lia. lia.
Qed.

(** C3, amended: when both loads return a column order and the two differ,
    or both return a row order and the two differ, the run aborts with an
    assertion error before the model is built; a comparison in which either
    side is [None] is skipped, and the preparation goes on. *)
Theorem shuffle_mismatch_aborts (w : world) (batch_size : pyval)
    (train_loader val_loader test_loader : list batch)
    (rows1 columns1 rows columns : option (list nat)) :
  dict_get config "batch_size" = Some batch_size ->
  load_training_data dataset batch_size PyFloat.lit_0_2 pcam_data_path
  = (train_loader, val_loader, rows1, columns1) ->
  load_testing_data dataset batch_size pcam_data_path rows1 columns1
  = (test_loader, rows, columns) ->
  ((exists a b, columns1 = Some a /\ columns = Some b /\ a <> b)
   \/ (exists a b, rows1 = Some a /\ rows = Some b /\ a <> b) ->
   exists msg,
     check_shuffle_orders rows1 columns1 rows columns w
     = (w, Raise (AssertionError msg))
     /\ prepare config model_type dataset image_dim pcam_data_path w
        = (w, Raise (AssertionError msg))
     /\ train_and_evaluate config model_type dataset image_dim
          pcam_data_path w
        = (w, Raise (AssertionError msg)))
  /\ ((columns1 = None \/ columns = None \/ columns1 = columns) ->
      (rows1 = None \/ rows = None \/ rows1 = rows) ->
      check_shuffle_orders rows1 columns1 rows columns w = (w, Ok tt)).
Proof.
  intros Hbs Htrain Htest. split.
  - intros Hdiff.
    assert (Hc : exists msg,
               check_shuffle_orders rows1 columns1 rows columns w
               = (w, Raise (AssertionError msg))).
    { unfold check_shuffle_orders, bind, py_assert, array_equal, ret, raise.
      destruct columns1 as [a|], columns as [b|], rows1 as [a'|], rows as [b'|];
        repeat case_bool_decide; subst; eauto;
        destruct Hdiff as [(x & y & ? & ? & ?)|(x & y & ? & ? & ?)];
        congruence. }
    destruct Hc as [msg Hc]. exists msg. split; [exact Hc|].
    assert (Hprep : prepare config model_type dataset image_dim
                      pcam_data_path w = (w, Raise (AssertionError msg))).
    { unfold prepare, bind, getitem. rewrite Hbs. unfold ret at 1.
      rewrite Htrain. unfold ret at 1. rewrite Htest, Hc. reflexivity. }
    split; [exact Hprep|].
    apply (prepare_raises_evaluate _ _ _ _ _ w w). exact Hprep.
  - intros Hcols Hrows.
    unfold check_shuffle_orders, bind, py_assert, array_equal, ret, raise.
    destruct columns1 as [a|], columns as [b|], rows1 as [a'|], rows as [b'|];
      repeat case_bool_decide; subst; try reflexivity;
      (destruct Hcols as [?|[?|?]]; destruct Hrows as [?|[?|?]]; congruence).
Qed.

(** C5: for a [model_type] outside MLP, MLP_3CH, CNN and CNN_3CH the
    selection of the architecture raises, so that the preparation raises and
    [train_and_evaluate] raises the same error, without entering the epoch
    loop, printing anything or returning loss histories or metrics. *)
Theorem invalid_model_type_aborts (w : world) :
  ~ In model_type ["MLP"; "MLP_3CH"; "CNN"; "CNN_3CH"] ->
  build_model config model_type image_dim w
  = (w, Raise (ValueError "Invalid model type!"))
  /\ exists e,
       prepare config model_type dataset image_dim pcam_data_path w
       = (w, Raise e)
       /\ train_and_evaluate config model_type dataset image_dim
            pcam_data_path w
          = (w, Raise e).
Proof.
  intros Hnot.
  assert (Hb : forall w0, build_model config model_type image_dim w0
                          = (w0, Raise (ValueError "Invalid model type!"))).
  { intros w0. unfold build_model.
    repeat match goal with
           | |- context [String.eqb model_type ?x] =>
               destruct (String.eqb_spec model_type x) as [->|_];
               [exfalso; apply Hnot; simpl; tauto|]
           end.
    reflexivity. }
  split; [apply Hb|].
  assert (Hprep : exists e,
             prepare config model_type dataset image_dim pcam_data_path w
             = (w, Raise e)).
  { unfold prepare, bind, getitem.
    destruct (dict_get config "batch_size") as [bs|]; [|eexists; reflexivity].
    unfold ret at 1.
    destruct (load_training_data _ _ _ _) as [[[tr va] r1] c1].
    unfold ret at 1.
    destruct (load_testing_data _ _ _ _ _) as [[te r] c].
    destruct (pure_check_shuffle_orders r1 c1 r c) as [[[]|e] Hc]; rewrite Hc.
    - rewrite Hb. eexists; reflexivity.
    - eexists; reflexivity. }
  destruct Hprep as [e He]. exists e. split; [exact He|].
  apply (prepare_raises_evaluate _ _ _ _ _ w w). exact He.
Qed.

End ClaimsOnAborts.

(** ** Paths and keys *)

Lemma string_app_assoc (a b c : string) : (a +:+ b) +:+ c = a +:+ (b +:+ c).
Proof.
  induction a as [|ch a IH]; [reflexivity|].
  change (String ch ((a +:+ b) +:+ c) = String ch (a +:+ b +:+ c)).
  rewrite IH. reflexivity.
Qed.

Lemma os_path_join_prefix (a : string) :
  exists p, forall b, os_path_join a b = p +:+ b.
Proof.
  unfold os_path_join. destruct (last (list_ascii_of_string a)) as [ch|].
  - destruct (Ascii.eqb ch "/"%char).
    + exists a. reflexivity.
    + exists (a +:+ "/"). intros b. rewrite string_app_assoc. reflexivity.
  - exists "". reflexivity.
Qed.

Lemma paths_distinct (script_dir_parent : string -> string)
    (model_type dataset output_path : string) :
  results_csv_path_of script_dir_parent model_type dataset output_path
  <> losses_json_path_of script_dir_parent model_type dataset output_path.
Proof.
  unfold results_csv_path_of, losses_json_path_of.
  destruct (os_path_join_prefix (script_dir_parent output_path)) as [p Hp].
  rewrite !Hp. intros H. apply String.app_inj in H. discriminate.
Qed.

Lemma loss_key_inj (i j : nat) : loss_key i = loss_key j -> i = j.
Proof.
  unfold loss_key. intros H. apply String.app_inj in H.
  apply pretty_nat_inj in H. exact H.
Qed.

(** ** The result file *)

Lemma to_csv_one (record : dict pyval) (header : bool) :
  to_csv [record] header
  = (if header then [CsvHeader (columns [record])] else [])
    ++ [CsvRow (map (dict_get record) (columns [record]))].
Proof. reflexivity. Qed.

Lemma header_rows_app (f g : file) :
  header_rows (f ++ g) = header_rows f + header_rows g.
Proof. unfold header_rows. rewrite List.filter_app, length_app. reflexivity. Qed.

Lemma data_rows_app (f g : file) :
  data_rows (f ++ g) = data_rows f + data_rows g.
Proof. unfold data_rows. rewrite List.filter_app, length_app. reflexivity. Qed.

Lemma csv_after_cons (old : file) (record : dict pyval)
    (rest : list (dict pyval)) :
  csv_after old (record :: rest)
  = csv_after
      (old ++ to_csv [record] (match old with [] => true | _ => false end))
      rest.
Proof. reflexivity. Qed.

Lemma csv_after_nonempty (old : file) (records : list (dict pyval)) :
  old <> [] ->
  header_rows (csv_after old records) = header_rows old
  /\ data_rows (csv_after old records) = data_rows old + length records
  /\ head (csv_after old records) = head old.
Proof.
  revert old. induction records as [|record rest IH]; intros old Hold.
  - cbn. auto with arith.
  - rewrite csv_after_cons.
    destruct old as [|c old']; [contradiction|].
    destruct (IH ((c :: old') ++ to_csv [record] false)) as (Hh & Hd & Hf);
      [discriminate|].
    rewrite Hh, Hd, Hf, header_rows_app, data_rows_app.
    cbn [length]. split; [|split; [|reflexivity]].
    + change (header_rows (to_csv [record] false)) with 0. lia.
    + change (data_rows (to_csv [record] false)) with 1. lia.
Qed.

Lemma length_csv_after (old : file) (records : list (dict pyval)) :
  length (csv_after old records)
  = length old + length records
    + match old, records with [], _ :: _ => 1 | _, _ => 0 end.
Proof.
  revert old. induction records as [|record rest IH]; intros old.
  - cbn. destruct old; lia.
  - rewrite csv_after_cons, IH, length_app.
    destruct old as [|c old']; cbn [length to_csv app map]; destruct rest; lia.
Qed.

(** From the empty file: the header once, first, and a row per record. *)
Lemma csv_after_empty (record : dict pyval) (rest : list (dict pyval)) :
  header_rows (csv_after [] (record :: rest)) = 1
  /\ data_rows (csv_after [] (record :: rest)) = S (length rest)
  /\ head (csv_after [] (record :: rest))
     = Some (CsvHeader (columns [record])).
Proof.
  rewrite csv_after_cons. cbn [app].
  destruct (csv_after_nonempty (to_csv [record] true) rest) as (Hh & Hd & Hf);
    [discriminate|].
  rewrite Hh, Hd, Hf. cbn. auto.
Qed.

Lemma to_csv_rows (records : list (dict pyval)) :
  header_rows (to_csv records true) = 1
  /\ data_rows (to_csv records true) = length records
  /\ head (to_csv records true) = Some (CsvHeader (columns records)).
Proof.
  unfold to_csv, header_rows, data_rows. cbn [app List.filter is_header is_row].
  generalize (columns records). intros cols. cbn [length head].
  split; [|split; [|reflexivity]].
  - f_equal. induction records as [|r rs IH]; [reflexivity|]. cbn. exact IH.
  - induction records as [|r rs IH]; [reflexivity|]. cbn. rewrite IH. reflexivity.
Qed.

Lemma csv_after_rows (old : file) (records : list (dict pyval)) :
  old <> [] ->
  csv_after old records
  = old ++ map (fun r => CsvRow (map (dict_get r) (columns [r]))) records.
Proof.
  revert old. induction records as [|record rest IH]; intros old Hold.
  - cbn. rewrite app_nil_r. reflexivity.
  - rewrite csv_after_cons. destruct old as [|c old']; [contradiction|].
    rewrite IH by discriminate. rewrite to_csv_one. cbn [app map].
    rewrite <- app_assoc. reflexivity.
Qed.

(** ** The records and the loss histories *)

Section RecordFacts.
Context `{C : Collaborators}.

Lemma result_record_model_index (idx : nat) (config : dict pyval)
    (r : run_result) :
  dict_get config "model_index" = None ->
  dict_get (result_record idx config r) "model_index"
  = Some (PyInt (Z.of_nat idx)).
Proof.
  intros H. unfold result_record.
  rewrite !dict_get_set_ne by discriminate.
  rewrite dict_get_update_absent by (apply dict_get_None; exact H).
  reflexivity.
Qed.

Lemma length_records_from (idx : nat) (configurations : list (dict pyval))
    (rs : list run_result) :
  length rs = length configurations ->
  length (records_from idx configurations rs) = length configurations.
Proof.
  revert idx rs. induction configurations as [|config rest IH];
    intros idx [|r rs] H; try discriminate; [reflexivity|].
  cbn. rewrite IH by (cbn in H; lia). reflexivity.
Qed.

Lemma lookup_records_from (idx i : nat) (configurations : list (dict pyval))
    (rs : list run_result) (config : dict pyval) (r : run_result) :
  configurations !! i = Some config -> rs !! i = Some r ->
  records_from idx configurations rs !! i
  = Some (result_record (idx + i) config r).
Proof.
  revert idx i rs. induction configurations as [|c rest IH];
    intros idx i [|r0 rs] Hc Hr; try discriminate.
  destruct i as [|i]; cbn in *.
  - inversion Hc. inversion Hr. subst. rewrite Nat.add_0_r. reflexivity.
  - replace (idx + S i) with (S idx + i) by lia. apply IH; assumption.
Qed.

Lemma records_from_snoc (idx : nat) (results : list (dict pyval))
    (config : dict pyval) (rest : list (dict pyval)) (r : run_result)
    (rs : list run_result) :
  (results ++ [result_record idx config r]) ++ records_from (S idx) rest rs
  = results ++ records_from idx (config :: rest) (r :: rs).
Proof. rewrite <- app_assoc. reflexivity. Qed.

Lemma dict_keys_losses_from (all_losses : dict loss_entry) (idx : nat)
    (rs : list run_result) :
  dict_keys all_losses = map loss_key (seq 0 idx) ->
  dict_keys (losses_from all_losses idx rs)
  = map loss_key (seq 0 (idx + length rs)).
Proof.
  revert all_losses idx. induction rs as [|r rs IH]; intros d idx Hd.
  - cbn. rewrite Nat.add_0_r. exact Hd.
  - cbn [losses_from length]. rewrite IH.
    + f_equal. f_equal. lia.
    + rewrite dict_keys_set_fresh.
      * rewrite Hd, seq_S, map_app. reflexivity.
      * apply dict_get_None. rewrite Hd. intros Hin.
        apply in_map_iff in Hin as (j & Hj & Hin).
        apply loss_key_inj in Hj. subst j. apply in_seq in Hin. lia.
Qed.

Lemma dict_get_losses_from_old (all_losses : dict loss_entry) (idx j : nat)
    (rs : list run_result) :
  j < idx ->
  dict_get (losses_from all_losses idx rs) (loss_key j)
  = dict_get all_losses (loss_key j).
Proof.
  revert all_losses idx. induction rs as [|r rs IH]; intros d idx Hj;
    [reflexivity|].
  cbn [losses_from]. rewrite IH by lia.
  apply dict_get_set_ne. intros H. apply loss_key_inj in H. lia.
Qed.

Lemma dict_get_losses_from (all_losses : dict loss_entry) (idx i : nat)
    (rs : list run_result) (r : run_result) :
  rs !! i = Some r ->
  dict_get (losses_from all_losses idx rs) (loss_key (idx + i))
  = Some (entry_of r).
Proof.
  revert all_losses idx i. induction rs as [|r0 rs IH]; intros d idx i Hr;
    [discriminate|].
  destruct i as [|i]; cbn in Hr.
  - inversion Hr. subst r0. cbn [losses_from]. rewrite Nat.add_0_r.
    rewrite dict_get_losses_from_old by lia. apply dict_get_set_eq.
  - cbn [losses_from]. replace (idx + S i) with (S idx + i) by lia.
    apply IH. exact Hr.
Qed.

End RecordFacts.

(** ** The loop over the configurations *)

Section MainFacts.
Context `{C : Collaborators}.
Variables model_type dataset : string.
Variable pcam_data_path : option string.
Variable image_dim : Z.
Variables results_csv_path losses_json_path : string.
Variable n_configurations : nat.
Hypothesis Hpaths : results_csv_path <> losses_json_path.

Let step := main_step model_type dataset pcam_data_path image_dim
              results_csv_path losses_json_path n_configurations.
Let loop := main_loop model_type dataset pcam_data_path image_dim
              results_csv_path losses_json_path n_configurations.

(** A completed iteration ran the configuration, appended its record to the
    result file and rewrote the loss-history file. *)
Lemma main_step_inv (idx : nat) (config : dict pyval)
    (results : list (dict pyval)) (all_losses : dict loss_entry)
    (w w' : world) acc' :
  step idx config (results, all_losses) w = (w', Ok acc') ->
  exists r w1 w2,
    train_and_evaluate config model_type dataset image_dim pcam_data_path w1
    = (w2, Ok r)
    /\ acc' = (results ++ [result_record idx config r],
               dict_set all_losses (loss_key idx) (entry_of r))
    /\ fs w'
       = <[losses_json_path :=
             [JsonLosses (dict_set all_losses (loss_key idx) (entry_of r))]]>
           (<[results_csv_path :=
                csv_after (default [] (fs w !! results_csv_path))
                  [result_record idx config r]]> (fs w)).
Proof.
  subst step. unfold main_step, bind. cbn [print].
  set (w1 := {| stdout := _; fs := fs w |}).
  pose proof (train_and_evaluate_fs config model_type dataset image_dim
                pcam_data_path w1) as Hfs.
  destruct (train_and_evaluate config model_type dataset image_dim
              pcam_data_path w1) as [w2 [r|e]] eqn:Et; [|discriminate].
  rewrite last_snoc. unfold ret, open_append, open_write.
  intros H. inversion H. subst w' acc'. clear H.
  exists r, w1, w2. split; [exact Et|]. split; [reflexivity|].
  cbn [fs fst] in *. rewrite Hfs. reflexivity.
Qed.

(** An iteration that raises leaves the files as they were. *)
Lemma main_step_raise (idx : nat) (config : dict pyval) acc
    (w w' : world) (e : exn) :
  step idx config acc w = (w', Raise e) -> fs w' = fs w.
Proof.
  subst step. destruct acc as [results all_losses].
  unfold main_step, bind. cbn [print].
  set (w1 := {| stdout := _; fs := fs w |}).
  pose proof (train_and_evaluate_fs config model_type dataset image_dim
                pcam_data_path w1) as Hfs.
  destruct (train_and_evaluate config model_type dataset image_dim
              pcam_data_path w1) as [w2 [r|e']] eqn:Et.
  - rewrite last_snoc. unfold ret, open_append, open_write. discriminate.
  - intros H. inversion H. subst. exact Hfs.
Qed.

Lemma main_loop_inv (configurations : list (dict pyval)) :
  forall (idx : nat) (results : list (dict pyval))
         (all_losses : dict loss_entry) (w w' : world) acc',
    loop idx configurations (results, all_losses) w = (w', Ok acc') ->
    exists rs,
      length rs = length configurations
      /\ (forall i config r,
            configurations !! i = Some config -> rs !! i = Some r ->
            exists w1 w2,
              train_and_evaluate config model_type dataset image_dim
                pcam_data_path w1 = (w2, Ok r))
      /\ acc' = (results ++ records_from idx configurations rs,
                 losses_from all_losses idx rs)
      /\ fs w' !! results_csv_path
         = match configurations with
           | [] => fs w !! results_csv_path
           | _ => Some (csv_after (default [] (fs w !! results_csv_path))
                          (records_from idx configurations rs))
           end
      /\ fs w' !! losses_json_path
         = match configurations with
           | [] => fs w !! losses_json_path
           | _ => Some [JsonLosses (losses_from all_losses idx rs)]
           end.
Proof.
  subst loop.
  induction configurations as [|config rest IH];
    intros idx results all_losses w w' acc' H.
  - cbn in H. inversion H. subst. exists []. cbn.
    rewrite app_nil_r. repeat split; try reflexivity.
    intros i config r Hc. discriminate.
  - cbn [main_loop] in H. unfold bind in H.
    destruct (main_step _ _ _ _ _ _ _ idx config (results, all_losses) w)
      as [w1 [acc1|e]] eqn:Es; [|discriminate].
    apply main_step_inv in Es as (r & wa & wb & Hr & -> & Hfs).
    apply IH in H as (rs & Hlen & Hruns & -> & Hcsv & Hjson).
    exists (r :: rs). split; [cbn; lia|]. split.
    { intros [|i] config' r' Hc Hr'; cbn in Hc, Hr'.
      - inversion Hc. inversion Hr'. subst. eauto.
      - eapply Hruns; eassumption. }
    split; [rewrite records_from_snoc; reflexivity|].
    assert (Hc1 : fs w1 !! results_csv_path
                  = Some (csv_after (default [] (fs w !! results_csv_path))
                            [result_record idx config r])).
    { rewrite Hfs, lookup_insert_ne by congruence. apply lookup_insert_eq. }
    assert (Hj1 : fs w1 !! losses_json_path
                  = Some [JsonLosses
                            (dict_set all_losses (loss_key idx) (entry_of r))]).
    { rewrite Hfs. apply lookup_insert_eq. }
    split.
    + destruct rest as [|config2 rest'].
      * destruct rs; [|discriminate]. rewrite Hcsv. exact Hc1.
      * rewrite Hcsv, Hc1. reflexivity.
    + destruct rest as [|config2 rest'].
      * destruct rs; [|discriminate]. rewrite Hjson. exact Hj1.
      * rewrite Hjson. reflexivity.
Qed.

(** The loop over a list is the loop over a prefix, then over the rest. *)
Lemma main_loop_app (l1 l2 : list (dict pyval)) :
  forall (idx : nat) acc (w : world),
    loop idx (l1 ++ l2) acc w
    = bind (loop idx l1 acc) (fun acc' => loop (idx + length l1) l2 acc') w.
Proof.
  subst loop. induction l1 as [|config l1 IH]; intros idx acc w.
  - cbn. rewrite Nat.add_0_r. reflexivity.
  - cbn [app main_loop length]. rewrite bind_assoc. apply bind_ext.
    intros acc1 w1. rewrite IH.
    replace (idx + S (length l1)) with (S idx + length l1) by lia.
    reflexivity.
Qed.

End MainFacts.

(** ** The columns of a record and the lines written one by one *)

Section KeysFacts.
Context {V : Type}.
Implicit Types (d e : dict V) (k : string) (v : V).

Lemma existsb_eqb_In (k : string) (l : list string) :
  existsb (String.eqb k) l = true <-> In k l.
Proof.
  rewrite existsb_exists. split.
  - intros (x & Hin & E). apply String.eqb_eq in E. subst x. exact Hin.
  - intros Hin. exists k. split; [exact Hin | apply String.eqb_refl].
Qed.

(** The keys after [d[k] = v] depend on the keys of [d] only. *)
Lemma dict_keys_set_add d k v :
  dict_keys (dict_set d k v) = add_column (dict_keys d) k.
Proof.
  rewrite dict_keys_set. unfold add_column.
  destruct (dict_get d k) eqn:E.
  - assert (H : existsb (String.eqb k) (dict_keys d) = true).
    { apply existsb_eqb_In.
      destruct (in_dec string_dec k (dict_keys d)) as [Hin|Hout]; [exact Hin|].
      apply dict_get_None in Hout. congruence. }
    rewrite H. reflexivity.
  - assert (H : existsb (String.eqb k) (dict_keys d) = false).
    { apply not_true_is_false. intros H. apply existsb_eqb_In in H.
      apply dict_get_None in E. contradiction. }
    rewrite H. reflexivity.
Qed.

Lemma dict_keys_update_add d e :
  dict_keys (dict_update d e) = fold_left add_column (dict_keys e) (dict_keys d).
Proof.
  unfold dict_update. revert d.
  induction e as [|[k v] e IH]; intros d; [reflexivity|].
  change (dict_keys (fold_left (fun acc kv => dict_set acc (fst kv) (snd kv)) e
                       (dict_set d k v))
          = fold_left add_column (dict_keys e) (add_column (dict_keys d) k)).
  rewrite IH, dict_keys_set_add. reflexivity.
Qed.

(** The values of a dictionary without repeated keys, key by key. *)
Lemma dict_get_own_keys d :
  NoDup (dict_keys d) ->
  map (dict_get d) (dict_keys d) = map (fun kv => Some (snd kv)) d.
Proof.
  induction d as [|[k v] d IH]; intros Hnd; [reflexivity|].
  cbn [dict_keys map fst snd] in *. apply NoDup_cons in Hnd as [Hout Hnd].
  cbn [dict_get]. rewrite String.eqb_refl. f_equal.
  rewrite <- IH by exact Hnd. apply map_ext_in. intros k' Hin.
  destruct (String.eqb_spec k' k) as [->|Hne]; [|reflexivity].
  exfalso. apply Hout. apply list_elem_of_In. exact Hin.
Qed.

End KeysFacts.

Lemma fold_add_column_fresh (ks acc : list string) :
  NoDup (acc ++ ks) -> fold_left add_column ks acc = acc ++ ks.
Proof.
  revert acc. induction ks as [|k ks IH]; intros acc Hnd.
  - rewrite app_nil_r. reflexivity.
  - cbn [fold_left]. unfold add_column at 2.
    assert (Hout : existsb (String.eqb k) acc = false).
    { apply not_true_is_false. intros H. apply existsb_eqb_In in H.
      apply NoDup_app in Hnd as (_ & Hd & _).
      apply (Hd k); [apply list_elem_of_In; exact H|].
      apply list_elem_of_In. left. reflexivity. }
    rewrite Hout. rewrite IH.
    + rewrite <- app_assoc. reflexivity.
    + rewrite <- app_assoc. exact Hnd.
Qed.

(** The columns of a frame of one record are the keys of the record. *)
Lemma columns_one (record : dict pyval) :
  NoDup (dict_keys record) -> columns [record] = dict_keys record.
Proof.
  intros Hnd. unfold columns. cbn [map concat]. rewrite app_nil_r.
  change (fold_left add_column (dict_keys record) [] = dict_keys record).
  rewrite fold_add_column_fresh; [reflexivity | exact Hnd].
Qed.

Lemma to_csv_own_row (record : dict pyval) (header : bool) :
  NoDup (dict_keys record) ->
  to_csv [record] header
  = (if header then [CsvHeader (dict_keys record)] else [])
    ++ [CsvRow (map (fun kv => Some (snd kv)) record)].
Proof.
  intros Hnd. rewrite to_csv_one, columns_one by exact Hnd.
  rewrite dict_get_own_keys by exact Hnd. reflexivity.
Qed.

(** From the empty file, for records without repeated keys: the keys of the
    first record as the header, and for each record the line of its own
    values in the order of its own keys. *)
Lemma csv_after_own_rows (record : dict pyval) (rest : list (dict pyval)) :
  Forall (fun r : dict pyval => NoDup (dict_keys r)) (record :: rest) ->
  csv_after [] (record :: rest)
  = CsvHeader (dict_keys record)
    :: map (fun r : dict pyval => CsvRow (map (fun kv => Some (snd kv)) r))
         (record :: rest).
Proof.
  intros Hnd. apply Forall_cons in Hnd as [Hr Hrest].
  rewrite csv_after_cons. cbn [app].
  rewrite csv_after_rows by (rewrite to_csv_own_row by exact Hr; discriminate).
  rewrite to_csv_own_row by exact Hr. cbn [app map]. do 2 f_equal.
  induction rest as [|r rest IH]; [reflexivity|].
  apply Forall_cons in Hrest as [Hr' Hrest]. cbn [map].
  rewrite IH by exact Hrest. rewrite columns_one, dict_get_own_keys by exact Hr'.
  reflexivity.
Qed.

(** The line of its own values is the line of a record under its own keys. *)
Lemma row_of_own_keys (record : dict pyval) :
  NoDup (dict_keys record) ->
  row_of (dict_keys record) record = CsvRow (map (fun kv => Some (snd kv)) record).
Proof. intros Hnd. unfold row_of. rewrite dict_get_own_keys by exact Hnd. reflexivity. Qed.

Lemma valid_data_rows_aligned (cols : list string) (records : list (dict pyval)) :
  valid_data_rows (CsvHeader cols :: map (row_of cols) records) = length records.
Proof.
  cbn [valid_data_rows]. induction records as [|r rs IH]; [reflexivity|].
  cbn [map List.filter row_of fits]. rewrite length_map, Nat.eqb_refl.
  cbn [length]. rewrite IH. reflexivity.
Qed.

Section RecordKeys.
Context `{C : Collaborators}.

(** The keys of a record depend on the keys of its configuration only. *)
Lemma dict_keys_result_record (idx : nat) (config : dict pyval) (r : run_result) :
  dict_keys (result_record idx config r)
  = fold_left add_column (dict_keys config ++ derived_fields) ["model_index"].
Proof.
  unfold result_record. rewrite !dict_keys_set_add, dict_keys_update_add.
  rewrite fold_left_app. reflexivity.
Qed.

Lemma result_record_NoDup (idx : nat) (config : dict pyval) (r : run_result) :
  NoDup (dict_keys (result_record idx config r)).
Proof.
  unfold result_record. repeat apply dict_set_NoDup. apply dict_update_NoDup.
  cbn. apply NoDup_singleton.
Qed.

(** The derived fields of a record hold the values of the run. *)
Lemma result_record_metrics (idx : nat) (config : dict pyval) (r : run_result) :
  dict_get (result_record idx config r) "num_params" = Some (PyInt (num_params r))
  /\ dict_get (result_record idx config r) "accuracy" = Some (PyFloat (accuracy r))
  /\ dict_get (result_record idx config r) "f1" = Some (PyFloat (f1 r))
  /\ dict_get (result_record idx config r) "precision"
     = Some (PyFloat (precision r))
  /\ dict_get (result_record idx config r) "recall" = Some (PyFloat (recall r)).
Proof.
  unfold result_record. repeat split.
  - rewrite !dict_get_set_ne by discriminate. apply dict_get_set_eq.
  - rewrite !dict_get_set_ne by discriminate. apply dict_get_set_eq.
  - rewrite !dict_get_set_ne by discriminate. apply dict_get_set_eq.
  - rewrite !dict_get_set_ne by discriminate. apply dict_get_set_eq.
  - apply dict_get_set_eq.
Qed.

(** The entries of the configuration are in the record, the derived fields
    apart. *)
Lemma result_record_config (idx : nat) (config : dict pyval) (r : run_result)
    (key : string) (v : pyval) :
  NoDup (dict_keys config) ->
  dict_get config key = Some v -> ~ In key derived_fields ->
  dict_get (result_record idx config r) key = Some v.
Proof.
  intros Hnd Hget Hder. unfold result_record.
  unfold derived_fields in Hder. cbn [In] in Hder.
  rewrite !dict_get_set_ne by (intros E; apply Hder; subst key; auto 10).
  rewrite dict_get_update by exact Hnd. rewrite Hget. reflexivity.
Qed.

Lemma records_from_NoDup (idx : nat) (configurations : list (dict pyval))
    (rs : list run_result) :
  Forall (fun record : dict pyval => NoDup (dict_keys record))
    (records_from idx configurations rs).
Proof.
  revert idx rs. induction configurations as [|config rest IH];
    intros idx [|r rs]; cbn [records_from]; try constructor.
  - apply result_record_NoDup.
  - apply IH.
Qed.

Lemma records_from_In (idx : nat) (configurations : list (dict pyval))
    (rs : list run_result) (record : dict pyval) :
  In record (records_from idx configurations rs) ->
  exists i config r,
    configurations !! i = Some config /\ rs !! i = Some r
    /\ record = result_record (idx + i) config r.
Proof.
  revert idx rs. induction configurations as [|config rest IH];
    intros idx [|r rs] Hin; cbn [records_from] in Hin; try contradiction.
  destruct Hin as [<- | Hin].
  - exists 0, config, r. rewrite Nat.add_0_r. auto.
  - apply IH in Hin as (i & config' & r' & Hc & Hr & ->).
    exists (S i), config', r'. replace (idx + S i) with (S idx + i) by lia. auto.
Qed.

End RecordKeys.

(** * The claims about [main_train] *)

Section ClaimsOnMainTrain.
Context `{C : Collaborators}.
Variable script_dir_parent : string -> string.
Variables model_type dataset config_path output_path : string.
Variable pcam_data_path : option string.
Variable image_dim : Z.

Let csv : string :=
  results_csv_path_of script_dir_parent model_type dataset output_path.
Let json : string :=
  losses_json_path_of script_dir_parent model_type dataset output_path.

(** C7, amended: for a configuration list of length N, a completed run of
    [main_train] leaves a result file with one header line and exactly N data
    rows, and a loss-history file with exactly the N keys model_0, ...,
    model_(N-1), wherever early stopping ended each run.  The losses of the
    configuration at position [idx] are under the key model_idx, and its
    record is the one built for [idx]; that record carries model_index = idx
    when the configuration has no entry named model_index of its own. *)
Theorem main_train_outputs (configurations : list (dict pyval))
    (w w' : world) :
  fs w !! config_file_path_of script_dir_parent model_type dataset config_path
  = Some [JsonConfigs configurations] ->
  main_train script_dir_parent model_type dataset config_path output_path
    pcam_data_path image_dim w = (w', Ok tt) ->
  exists (results : list (dict pyval)) (all_losses : dict loss_entry),
    fs w' !! csv = Some (to_csv results true)
    /\ header_rows (to_csv results true) = 1
    /\ data_rows (to_csv results true) = length configurations
    /\ length (to_csv results true) = S (length configurations)
    /\ fs w' !! json = Some [JsonLosses all_losses]
    /\ dict_keys all_losses = map loss_key (seq 0 (length configurations))
    /\ NoDup (dict_keys all_losses)
    /\ forall idx config,
         configurations !! idx = Some config ->
         exists r w1 w2,
           train_and_evaluate config model_type dataset image_dim
             pcam_data_path w1 = (w2, Ok r)
           /\ results !! idx = Some (result_record idx config r)
           /\ dict_get all_losses ("model_" +:+ pretty idx)
              = Some {| entry_train_losses := train_losses r;
                        entry_val_losses := val_losses r |}
           /\ (dict_get config "model_index" = None ->
               dict_get (result_record idx config r) "model_index"
               = Some (PyInt (Z.of_nat idx))).
Proof.
  intros Hconf Hrun.
  unfold main_train, bind, load_configurations in Hrun. cbv zeta in Hrun.
  unfold config_file_path_of in Hconf. rewrite Hconf in Hrun.
  destruct (main_loop _ _ _ _ _ _ _ 0 configurations ([], []) w)
    as [w1 [acc|e]] eqn:Eloop; [|discriminate].
  apply main_loop_inv in Eloop as (rs & Hlen & Hruns & -> & _);
    [|apply paths_distinct].
  unfold open_write, print in Hrun. cbn in Hrun. inversion Hrun as [Hw'].
  clear Hrun Hw'.
  exists (records_from 0 configurations rs), (losses_from [] 0 rs).
  pose proof (to_csv_rows (records_from 0 configurations rs)) as (Hh & Hd & _).
  rewrite length_records_from in Hd by exact Hlen.
  split.
  { cbn [fs]. rewrite lookup_insert_ne by (apply not_eq_sym, paths_distinct).
    apply lookup_insert_eq. }
  split; [exact Hh|]. split; [exact Hd|]. split.
  { unfold to_csv. cbn [app length]. rewrite length_map, length_records_from
      by exact Hlen. reflexivity. }
  split.
  { cbn [fs]. apply lookup_insert_eq. }
  assert (Hkeys : dict_keys (losses_from [] 0 rs)
                  = map loss_key (seq 0 (length configurations))).
  { rewrite dict_keys_losses_from by reflexivity. rewrite Hlen. reflexivity. }
  split; [exact Hkeys|]. split.
  { rewrite Hkeys. apply NoDup_fmap_2; [|apply NoDup_seq].
    intros i j. apply loss_key_inj. }
  intros idx config Hc.
  assert (Hr : exists r, rs !! idx = Some r).
  { apply lookup_lt_is_Some. rewrite Hlen. apply lookup_lt_Some in Hc. exact Hc. }
  destruct Hr as [r Hr].
  destruct (Hruns idx config r Hc Hr) as (wa & wb & Hrun).
  exists r, wa, wb. split; [exact Hrun|]. split.
  { apply (lookup_records_from 0 idx); assumption. }
  split.
  { apply (dict_get_losses_from [] 0 idx rs r Hr). }
  apply result_record_model_index.
Qed.

(** C8, amended: when the result file is empty or absent at the start, then
    after configuration [k] has completed and before the next one starts the
    result file holds the header, written once and first, and exactly [k+1]
    data rows, one per completed configuration in their order.  The header
    lists the keys of the first record, and each row lists the values of its
    own record in the order of its own keys: the five derived fields with
    the values its run returned, and the entries of its configuration.  When
    the configurations have the same keys in the same order, the keys of
    every record are the columns of the header, so that each row holds under
    every column the value of its record for it and all [k+1] rows are
    valid.  The loss-history file holds exactly the [k+1] entries model_0,
    ..., model_k, each with the histories its run returned.  The files stay
    so if the process ends there, and the rest of the loop starts from
    them. *)
Theorem incremental_persistence (configurations : list (dict pyval)) (k : nat)
    (w wk : world) (acc : list (dict pyval) * dict loss_entry) :
  fs w !! csv = None \/ fs w !! csv = Some [] ->
  k < length configurations ->
  main_loop model_type dataset pcam_data_path image_dim csv json
    (length configurations) 0 (take (S k) configurations) ([], []) w
  = (wk, Ok acc) ->
  (exists (f : file) (all_losses : dict loss_entry)
          (records : list (dict pyval)) (cols : list string),
     fs wk !! csv = Some f
     /\ header_rows f = 1
     /\ head f = Some (CsvHeader cols)
     /\ data_rows f = S k
     /\ length f = S (S k)
     /\ fs wk !! json = Some [JsonLosses all_losses]
     /\ dict_keys all_losses = map loss_key (seq 0 (S k))
     /\ length all_losses = S k
     /\ acc = (records, all_losses)
     /\ length records = S k
     /\ head (map dict_keys records) = Some cols
     /\ f = CsvHeader cols
            :: map (fun record : dict pyval =>
                      CsvRow (map (fun kv => Some (snd kv)) record))
                 records
     /\ (forall i config,
           i <= k -> configurations !! i = Some config ->
           exists (r : run_result) (w1 w2 : world) (record : dict pyval),
             train_and_evaluate config model_type dataset image_dim
               pcam_data_path w1 = (w2, Ok r)
             /\ records !! i = Some record
             /\ NoDup (dict_keys record)
             /\ dict_get record "num_params" = Some (PyInt (num_params r))
             /\ dict_get record "accuracy" = Some (PyFloat (accuracy r))
             /\ dict_get record "f1" = Some (PyFloat (f1 r))
             /\ dict_get record "precision" = Some (PyFloat (precision r))
             /\ dict_get record "recall" = Some (PyFloat (recall r))
             /\ (NoDup (dict_keys config) ->
                 forall key v,
                   dict_get config key = Some v -> ~ In key derived_fields ->
                   dict_get record key = Some v)
             /\ dict_get all_losses ("model_" +:+ pretty i)
                = Some {| entry_train_losses := train_losses r;
                          entry_val_losses := val_losses r |})
     /\ ((forall i config,
            i <= k -> configurations !! i = Some config ->
            dict_keys config = dict_keys (default [] (head configurations))) ->
         (forall record, In record records -> dict_keys record = cols)
         /\ f = CsvHeader cols :: map (row_of cols) records
         /\ valid_data_rows f = S k))
  /\ main_loop model_type dataset pcam_data_path image_dim csv json
       (length configurations) 0 configurations ([], []) w
     = main_loop model_type dataset pcam_data_path image_dim csv json
         (length configurations) (S k) (drop (S k) configurations) acc wk.
Proof.
  intros Hempty Hk Hloop. split.
  - apply main_loop_inv in Hloop as (rs & Hlen & Hruns & -> & Hcsv & Hjson);
      [|apply paths_distinct].
    rewrite length_take in Hlen.
    replace (S k `min` length configurations) with (S k) in Hlen by lia.
    assert (Hold : default [] (fs w !! csv) = []).
    { destruct Hempty as [-> | ->]; reflexivity. }
    destruct configurations as [|config0 rest]; [cbn in Hk; lia|].
    cbn [take] in Hcsv, Hjson, Hruns. rewrite Hold in Hcsv.
    destruct rs as [|r0 rs']; [discriminate|].
    set (records := records_from 0 (config0 :: take k rest) (r0 :: rs')) in *.
    assert (Hrecs : length records = S k).
    { subst records. rewrite length_records_from;
        cbn [length] in *; rewrite length_take; lia. }
    assert (Hnd : Forall (fun record : dict pyval => NoDup (dict_keys record))
                    records) by apply records_from_NoDup.
    assert (Hkeys : dict_keys (losses_from [] 0 (r0 :: rs'))
                    = map loss_key (seq 0 (S k))).
    { rewrite dict_keys_losses_from by reflexivity. rewrite Hlen. reflexivity. }
    assert (Hfile : csv_after [] records
                    = CsvHeader (dict_keys (result_record 0 config0 r0))
                      :: map (fun record : dict pyval =>
                                CsvRow (map (fun kv => Some (snd kv)) record))
                           records).
    { subst records. cbn [records_from] in *.
      apply csv_after_own_rows. exact Hnd. }
    destruct (csv_after_empty (result_record 0 config0 r0)
                (records_from 1 (take k rest) rs')) as (Hh & Hd & _).
    pose proof (length_csv_after [] records) as Hl.
    assert (Hrest : length (records_from 1 (take k rest) rs') = k).
    { subst records. cbn [records_from length] in Hrecs. lia. }
    exists (csv_after [] records), (losses_from [] 0 (r0 :: rs')), records,
      (dict_keys (result_record 0 config0 r0)).
    split; [exact Hcsv|]. split; [exact Hh|].
    split; [rewrite Hfile; reflexivity|].
    split; [subst records; cbn [records_from]; rewrite Hd, Hrest; reflexivity|].
    split.
    { rewrite Hl, Hrecs. subst records. cbn [records_from length]. lia. }
    split; [exact Hjson|]. split; [exact Hkeys|]. split.
    { apply (f_equal (@length string)) in Hkeys.
      unfold dict_keys in Hkeys. rewrite !length_map, length_seq in Hkeys.
      exact Hkeys. }
    split; [reflexivity|]. split; [exact Hrecs|].
    split; [reflexivity|]. split; [exact Hfile|]. split.
    + intros i config Hi Hc.
      assert (Hc' : (config0 :: take k rest) !! i = Some config).
      { change (config0 :: take k rest) with (take (S k) (config0 :: rest)).
        rewrite lookup_take_lt by lia. exact Hc. }
      assert (Hr : exists r, (r0 :: rs') !! i = Some r).
      { apply lookup_lt_is_Some. rewrite Hlen. lia. }
      destruct Hr as [r Hr].
      destruct (Hruns i config r Hc' Hr) as (w1 & w2 & Hrun).
      destruct (result_record_metrics i config r) as (Hn & Ha & Hf & Hp & Hre).
      exists r, w1, w2, (result_record i config r).
      split; [exact Hrun|]. split.
      { apply (lookup_records_from 0 i); assumption. }
      split; [apply result_record_NoDup|].
      split; [exact Hn|]. split; [exact Ha|]. split; [exact Hf|].
      split; [exact Hp|]. split; [exact Hre|]. split.
      { intros Hcnd key v Hget Hder. apply result_record_config; assumption. }
      apply (dict_get_losses_from [] 0 i (r0 :: rs') r Hr).
    + intros Hsame.
      assert (Hall : forall record, In record records ->
                dict_keys record = dict_keys (result_record 0 config0 r0)).
      { intros record Hin. subst records.
        apply records_from_In in Hin as (i & config & r & Hc & Hr & ->).
        rewrite !dict_keys_result_record. f_equal. f_equal.
        apply lookup_lt_Some in Hr as Hi. rewrite Hlen in Hi.
        change (config0 :: take k rest) with (take (S k) (config0 :: rest)) in Hc.
        rewrite lookup_take_lt in Hc by lia.
        apply (Hsame i config); [lia | exact Hc]. }
      split; [exact Hall|].
      assert (Hrows : csv_after [] records
                      = CsvHeader (dict_keys (result_record 0 config0 r0))
                        :: map (row_of (dict_keys (result_record 0 config0 r0)))
                             records).
      { rewrite Hfile. f_equal. apply map_ext_in. intros record Hin.
        rewrite <- (Hall record Hin). symmetry. apply row_of_own_keys.
        rewrite List.Forall_forall in Hnd. apply Hnd. exact Hin. }
      split; [exact Hrows|].
      rewrite Hrows, valid_data_rows_aligned. exact Hrecs.
  - rewrite <- (take_drop (S k) configurations) at 2.
    rewrite main_loop_app. unfold bind. rewrite Hloop.
    rewrite length_take. replace (S k `min` length configurations) with (S k)
      by lia.
    reflexivity.
Qed.

End ClaimsOnMainTrain.

(** * The statements on concrete runs *)

Module Runs.

Import Toy.

Lemma rising_prepare :
  @prepare (with_val_losses rising) mlp_config "MLP" "MNIST" 28 None empty_world
  = (empty_world, Ok (setup_for rising)).
Proof. vm_compute. reflexivity. Defined.

Lemma rising_run :
  @train_and_evaluate (with_val_losses rising) mlp_config "MLP" "MNIST" 28 None
    empty_world
  = (rising_world, Ok rising_result).
Proof. vm_compute. reflexivity. Defined.

Lemma loss_histories_length_witness :
  @train_and_evaluate (with_val_losses rising) mlp_config "MLP" "MNIST" 28 None
    empty_world
  = (rising_world, Ok rising_result)
  /\ length (train_losses rising_result) = length (val_losses rising_result)
  /\ length (val_losses rising_result) <= 25.
Proof.
  split; [exact rising_run|].
  destruct (@loss_histories_length (with_val_losses rising) mlp_config "MLP"
              "MNIST" 28%Z None empty_world rising_world rising_result
              rising_run) as (H1 & H2 & _).
  split; [exact H1 | exact H2].
Defined.

Lemma early_stopping_algorithm_witness :
  @prepare (with_val_losses rising) mlp_config "MLP" "MNIST" 28 None empty_world
  = (empty_world, Ok (setup_for rising))
  /\ @train_and_evaluate (with_val_losses rising) mlp_config "MLP" "MNIST" 28
       None empty_world
     = (rising_world, Ok rising_result)
  /\ 1 <= length (val_losses rising_result) <= 25.
Proof.
  split; [exact rising_prepare|]. split; [exact rising_run|].
  destruct (@early_stopping_algorithm (with_val_losses rising) mlp_config "MLP"
              "MNIST" 28%Z None empty_world empty_world rising_world
              (setup_for rising) rising_result rising_prepare rising_run)
    as (_ & _ & H & _).
  exact H.
Defined.

Lemma finite_then_inf_prepare :
  @prepare finite_then_inf mlp_config "MLP" "MNIST" 28 None empty_world
  = (empty_world, Ok finite_then_inf_setup).
Proof. vm_compute. reflexivity. Defined.

Lemma finite_then_inf_run :
  @train_and_evaluate finite_then_inf mlp_config "MLP" "MNIST" 28 None
    empty_world
  = (rising_world, Ok finite_then_inf_result).
Proof. vm_compute. reflexivity. Defined.

(** The losses of the six epochs that run are finite, the seventh would not
    be, and the histories have six entries. *)
Lemma finite_losses_witness :
  @prepare finite_then_inf mlp_config "MLP" "MNIST" 28 None empty_world
  = (empty_world, Ok finite_then_inf_setup)
  /\ @train_and_evaluate finite_then_inf mlp_config "MLP" "MNIST" 28 None
       empty_world
     = (rising_world, Ok finite_then_inf_result)
  /\ PyFloat.is_finite
       (@run_cum_val finite_then_inf "MLP" finite_then_inf_setup 1) = true
  /\ map (@run_cum_val finite_then_inf "MLP" finite_then_inf_setup) (seq 1 7)
     = map PyFloat.of_Z [1; 2; 3; 4; 5; 6]%Z ++ [PyFloat.inf]
  /\ length (val_losses finite_then_inf_result) = 6
  /\ 6 <= length (val_losses finite_then_inf_result) <= 25.
Proof.
  assert (Hfin : PyFloat.is_finite
                   (@run_cum_val finite_then_inf "MLP" finite_then_inf_setup 1)
                 = true) by (vm_compute; reflexivity).
  split; [exact finite_then_inf_prepare|]. split; [exact finite_then_inf_run|].
  split; [exact Hfin|]. split; [vm_compute; reflexivity|].
  split; [vm_compute; reflexivity|].
  destruct (@finite_losses_at_least_six_epochs finite_then_inf mlp_config
              "MLP" "MNIST" 28%Z None empty_world empty_world rising_world
              finite_then_inf_setup finite_then_inf_result
              finite_then_inf_prepare finite_then_inf_run Hfin)
    as (_ & _ & _ & H & _).
  exact H.
Defined.

Lemma several_batches_prepare :
  @prepare several_batches mlp_config "MLP" "MNIST" 28 None empty_world
  = (empty_world, Ok several_batches_setup).
Proof. vm_compute. reflexivity. Defined.

Lemma several_batches_run :
  @train_and_evaluate several_batches mlp_config "MLP" "MNIST" 28 None
    empty_world
  = (rising_world, Ok several_batches_result).
Proof. vm_compute. reflexivity. Defined.

(** Two training batches with the losses 1 and 2: the history holds their
    mean 1.5, not their sum 3.  Three validation batches with the losses 1, 2
    and 4: the history holds 7/3, rounded to binary64, while the best loss
    of the rule is the sum 7. *)
Lemma recorded_losses_witness :
  @prepare several_batches mlp_config "MLP" "MNIST" 28 None empty_world
  = (empty_world, Ok several_batches_setup)
  /\ @train_and_evaluate several_batches mlp_config "MLP" "MNIST" 28 None
       empty_world
     = (rising_world, Ok several_batches_result)
  /\ train_losses several_batches_result !! 0
     = Some (SFdiv 53 1024
               (fold_left (SFadd 53 1024) [PyFloat.of_Z 1; PyFloat.of_Z 2]
                  (S754_zero false))
               (binary_normalize 53 1024 2 0 false))
  /\ SFdiv 53 1024
       (fold_left (SFadd 53 1024) [PyFloat.of_Z 1; PyFloat.of_Z 2]
          (S754_zero false))
       (binary_normalize 53 1024 2 0 false)
     = S754_finite false 6755399441055744 (-52)
  /\ fold_left (SFadd 53 1024) [PyFloat.of_Z 1; PyFloat.of_Z 2]
       (S754_zero false)
     = S754_finite false 6755399441055744 (-51)
  /\ val_losses several_batches_result !! 0
     = Some (SFdiv 53 1024
               (fold_left (SFadd 53 1024)
                  [PyFloat.of_Z 1; PyFloat.of_Z 2; PyFloat.of_Z 4]
                  (S754_zero false))
               (binary_normalize 53 1024 3 0 false))
  /\ SFdiv 53 1024
       (fold_left (SFadd 53 1024)
          [PyFloat.of_Z 1; PyFloat.of_Z 2; PyFloat.of_Z 4] (S754_zero false))
       (binary_normalize 53 1024 3 0 false)
     = S754_finite false 5254199565265579 (-51)
  /\ es_best
       (es_after
          (fun k =>
             fold_left (SFadd 53 1024)
               (@epoch_val_batch_losses several_batches "MLP"
                  (@su_train_loader several_batches several_batches_setup)
                  (@su_val_loader several_batches several_batches_setup)
                  (@su_model several_batches several_batches_setup)
                  (@su_optimizer several_batches several_batches_setup) k)
               (S754_zero false))
          (length (val_losses several_batches_result)))
     = S754_finite false 7881299347898368 (-50).
Proof.
  split; [exact several_batches_prepare|].
  split; [exact several_batches_run|].
  destruct (@recorded_losses_are_means several_batches mlp_config
              "MLP" "MNIST" 28%Z None empty_world empty_world rising_world
              several_batches_setup several_batches_result
              several_batches_prepare several_batches_run)
    as (H & _).
  destruct (H 1) as (Ht & _ & Hv & _); [vm_compute; lia|].
  split; [exact Ht|]. split; [vm_compute; reflexivity|].
  split; [vm_compute; reflexivity|]. split; [exact Hv|].
  split; vm_compute; reflexivity.
Defined.

(** The test phase sees the six steps of the last epoch, not the single step
    of the best one: the label of the test batch is 6. *)
Lemma test_uses_last_epoch_witness :
  @prepare (with_val_losses rising) mlp_config "MLP" "MNIST" 28 None empty_world
  = (empty_world, Ok (setup_for rising))
  /\ @train_and_evaluate (with_val_losses rising) mlp_config "MLP" "MNIST" 28
       None empty_world
     = (rising_world, Ok rising_result)
  /\ accuracy rising_result = Toy.one
  /\ @test_preds (with_val_losses rising) "MLP" [scripted [0%Z] 6] 1 = [1]
  /\ @test_preds (with_val_losses rising) "MLP" [scripted [0%Z] 6] 6 = [6].
Proof.
  split; [exact rising_prepare|]. split; [exact rising_run|].
  destruct (@test_uses_last_epoch_parameters (with_val_losses rising)
              mlp_config "MLP" "MNIST" 28%Z None empty_world empty_world
              rising_world (setup_for rising) rising_result rising_prepare
              rising_run) as (H & _).
  split; [rewrite H; vm_compute; reflexivity|].
  split; reflexivity.
Defined.

Lemma early_stop_iff_witness :
  @prepare (with_val_losses rising) mlp_config "MLP" "MNIST" 28 None empty_world
  = (empty_world, Ok (setup_for rising))
  /\ @train_and_evaluate (with_val_losses rising) mlp_config "MLP" "MNIST" 28
       None empty_world
     = (rising_world, Ok rising_result)
  /\ consecutive_failures
       (@run_cum_val (with_val_losses rising) "MLP" (setup_for rising)) 5
       (length (val_losses rising_result)).
Proof.
  split; [exact rising_prepare|]. split; [exact rising_run|].
  destruct (@early_stop_iff_five_failures (with_val_losses rising) mlp_config
              "MLP" "MNIST" 28%Z None empty_world empty_world rising_world
              (setup_for rising) rising_result rising_prepare rising_run)
    as (_ & H & _).
  apply H. vm_compute. reflexivity.
Defined.

Lemma synthetic_sequence_does_not_stop_at_epoch_6 :
  map (@run_cum_val (with_val_losses synthetic) "MLP" (setup_for synthetic))
      (seq 1 7)
  = map PyFloat.of_Z synthetic
  /\ @prepare (with_val_losses synthetic) mlp_config "MLP" "MNIST" 28 None
       empty_world
     = (empty_world, Ok (setup_for synthetic))
  /\ exists r,
       @train_and_evaluate (with_val_losses synthetic) mlp_config "MLP" "MNIST"
         28 None empty_world
       = ({| stdout := ["Early stopping at epoch 12"]; fs := ∅ |}, Ok r)
       /\ length (val_losses r) = 12
       /\ length (val_losses r) <> 6
       /\ es_counter
            (es_after (@run_cum_val (with_val_losses synthetic) "MLP"
                         (setup_for synthetic)) 6) = 4.
Proof.
  split; [vm_compute; reflexivity|]. split; [vm_compute; reflexivity|].
  exists (@result_after_epochs (with_val_losses synthetic) "MLP"
            (setup_for synthetic) 12).
  split; [vm_compute; reflexivity|]. split; [vm_compute; reflexivity|].
  split; [vm_compute; discriminate|]. vm_compute. reflexivity.
Qed.

Lemma shuffle_mismatch_witness :
  dict_get mlp_config "batch_size" = Some (PyInt 64)
  /\ @load_training_data mismatching "MNISTshuffled" (PyInt 64)
       PyFloat.lit_0_2 None
     = ([scripted [1%Z] 0], [scripted rising 0], Some [1; 0], Some [0; 1])
  /\ @load_testing_data mismatching "MNISTshuffled" (PyInt 64) None
       (Some [1; 0]) (Some [0; 1])
     = ([scripted [0%Z] 6], Some [1; 0], Some [1; 0])
  /\ exists msg,
       @train_and_evaluate mismatching mlp_config "MLP" "MNISTshuffled" 28 None
         empty_world
       = (empty_world, Raise (AssertionError msg)).
Proof.
  split; [reflexivity|]. split; [reflexivity|]. split; [reflexivity|].
  destruct (@shuffle_mismatch_aborts mismatching mlp_config "MLP"
              "MNISTshuffled" 28%Z None empty_world (PyInt 64)
              [scripted [1%Z] 0] [scripted rising 0] [scripted [0%Z] 6]
              (Some [1; 0]) (Some [0; 1]) (Some [1; 0]) (Some [1; 0])
              eq_refl eq_refl eq_refl) as [H _].
  destruct H as (msg & _ & _ & Hrun).
  - left. exists [0; 1], [1; 0]. split; [reflexivity|]. split; [reflexivity|].
    discriminate.
  - exists msg. exact Hrun.
Defined.

Lemma shuffle_orders_differ_and_run_completes :
  @load_training_data one_sided "MNISTshuffled" (PyInt 64) PyFloat.lit_0_2 None
  = ([scripted [1%Z] 0], [scripted rising 0], Some [1; 0], Some [0; 1])
  /\ @load_testing_data one_sided "MNISTshuffled" (PyInt 64) None
       (Some [1; 0]) (Some [0; 1])
     = ([scripted [0%Z] 6], None, None)
  /\ (Some [1; 0], Some [0; 1]) <> (@None (list nat), @None (list nat))
  /\ exists r,
       @train_and_evaluate one_sided mlp_config "MLP" "MNISTshuffled" 28 None
         empty_world
       = (rising_world, Ok r)
       /\ length (val_losses r) = 6.
Proof.
  split; [reflexivity|]. split; [reflexivity|]. split; [discriminate|].
  exists (@result_after_epochs one_sided "MLP"
            (@Build_setup one_sided [scripted [1%Z] 0] [scripted rising 0]
               [scripted [0%Z] 6] 0 tt) 6).
  split; vm_compute; reflexivity.
Qed.

Lemma invalid_model_type_witness :
  ~ In "RNN" ["MLP"; "MLP_3CH"; "CNN"; "CNN_3CH"]
  /\ exists e,
       @train_and_evaluate (with_val_losses rising) mlp_config "RNN" "MNIST" 28
         None empty_world
       = (empty_world, Raise e).
Proof.
  assert (Hnot : ~ In "RNN" ["MLP"; "MLP_3CH"; "CNN"; "CNN_3CH"]).
  { simpl. intros [H|[H|[H|[H|[]]]]]; discriminate. }
  split; [exact Hnot|].
  destruct (@invalid_model_type_aborts (with_val_losses rising) mlp_config
              "RNN" "MNIST" 28%Z None empty_world Hnot) as (_ & e & _ & Hrun).
  exists e. exact Hrun.
Defined.

Lemma main_train_outputs_witness :
  fs (world_with two_configs)
  !! config_file_path_of script_dir_parent "MLP" "MNIST" "configs"
  = Some [JsonConfigs two_configs]
  /\ two_configs_run = (fst two_configs_run, Ok tt)
  /\ exists results,
       fs (fst two_configs_run)
       !! results_csv_path_of script_dir_parent "MLP" "MNIST" "out"
       = Some (to_csv results true)
       /\ data_rows (to_csv results true) = 2.
Proof.
  assert (Hconf : fs (world_with two_configs)
                  !! config_file_path_of script_dir_parent "MLP" "MNIST"
                       "configs"
                  = Some [JsonConfigs two_configs])
    by (vm_compute; reflexivity).
  assert (Hrun : two_configs_run = (fst two_configs_run, Ok tt))
    by (vm_compute; reflexivity).
  split; [exact Hconf|]. split; [exact Hrun|].
  destruct (@main_train_outputs (with_val_losses rising) script_dir_parent
              "MLP" "MNIST" "configs" "out" None 28%Z two_configs
              (world_with two_configs) (fst two_configs_run) Hconf Hrun)
    as (results & all_losses & Hcsv & _ & Hrows & _).
  exists results. split; [exact Hcsv | exact Hrows].
Defined.

Lemma model_index_overridden_by_configuration :
  snd indexed_run = Ok tt
  /\ dict_get (result_record 0 indexed_config rising_result) "model_index"
     = Some (PyInt 7)
  /\ match fs (fst indexed_run) !! "/repo/out/results_MLP_MNIST.csv" with
     | Some [CsvHeader cols; CsvRow cells] =>
         cols !! 0 = Some "model_index"
         /\ cells !! 0 = Some (Some (PyInt 7))
         /\ cells !! 0 <> Some (Some (PyInt 0))
     | _ => False
     end.
Proof.
  split; [vm_compute; reflexivity|]. split; [vm_compute; reflexivity|].
  vm_compute. split; [reflexivity|]. split; [reflexivity|]. discriminate.
Qed.

Lemma incremental_persistence_witness :
  (fs (world_with three_configs)
   !! results_csv_path_of script_dir_parent "MLP" "MNIST" "out" = None
   \/ fs (world_with three_configs)
      !! results_csv_path_of script_dir_parent "MLP" "MNIST" "out" = Some [])
  /\ 1 < length three_configs
  /\ after_second = (fst after_second, Ok after_second_acc)
  /\ exists f,
       fs (fst after_second)
       !! results_csv_path_of script_dir_parent "MLP" "MNIST" "out" = Some f
       /\ header_rows f = 1
       /\ data_rows f = 2
       /\ valid_data_rows f = 2.
Proof.
  assert (Hempty :
            fs (world_with three_configs)
            !! results_csv_path_of script_dir_parent "MLP" "MNIST" "out" = None
            \/ fs (world_with three_configs)
               !! results_csv_path_of script_dir_parent "MLP" "MNIST" "out"
               = Some [])
    by (left; vm_compute; reflexivity).
  assert (Hk : 1 < length three_configs) by (simpl; lia).
  assert (Hloop : after_second = (fst after_second, Ok after_second_acc))
    by (vm_compute; reflexivity).
  split; [exact Hempty|]. split; [exact Hk|]. split; [exact Hloop|].
  destruct (@incremental_persistence (with_val_losses rising) script_dir_parent
              "MLP" "MNIST" "out" None 28%Z three_configs 1
              (world_with three_configs) (fst after_second) after_second_acc
              Hempty Hk Hloop)
    as [(f & d & records & cols & Hf & Hh & _ & Hd & H) _].
  destruct H as (_ & _ & _ & _ & _ & _ & _ & _ & _ & Hsame).
  exists f. split; [exact Hf|]. split; [exact Hh|]. split; [exact Hd|].
  apply Hsame. intros i config Hi Hc.
  destruct i as [|[|i]]; [| |lia]; inversion Hc; reflexivity.
Defined.

(** After the second of two configurations of which the second has a key
    more, the result file has one valid data row, not two: the second row
    has twelve cells under a header of eleven columns, and under the column
    batch_size it holds the weight decay. *)
Lemma differing_keys_leave_an_invalid_row :
  fs (world_with mixed_configs)
  !! results_csv_path_of script_dir_parent "MLP" "MNIST" "out" = None
  /\ match mixed_loop with
     | (wk, Ok _) =>
         match
           fs wk !! results_csv_path_of script_dir_parent "MLP" "MNIST" "out"
         with
         | Some ([CsvHeader cols; CsvRow cells0; CsvRow cells1] as f) =>
             length cols = 11 /\ length cells0 = 11 /\ length cells1 = 12
             /\ cols !! 1 = Some "batch_size"
             /\ cells0 !! 1 = Some (Some (PyInt 64))
             /\ cells1 !! 1 = Some (Some (PyFloat PyFloat.lit_0_2))
             /\ valid_data_rows f = 1
             /\ valid_data_rows f <> 2
         | _ => False
         end
     | (_, Raise _) => False
     end.
Proof.
  split; [vm_compute; reflexivity|].
  vm_compute. repeat (split; [reflexivity|]). discriminate.
Qed.

End Runs.

(** * Further properties of the code *)

Lemma digits2_pos_size (p : positive) : digits2_pos p = Pos.size p.
Proof. induction p as [p IH|p IH|]; simpl; rewrite ?IH; reflexivity. Qed.

Lemma digits2_pos_iter_xO (p k : positive) :
  digits2_pos (Pos.iter xO p k) = (digits2_pos p + k)%positive.
Proof.
  induction k as [|k IH] using Pos.peano_ind.
  - simpl. lia.
  - rewrite Pos.iter_succ. simpl. rewrite IH. lia.
Qed.

Lemma digits2_pos_bound (p : positive) :
  (Z.pos p < 2 ^ 53)%Z -> (Z.pos (digits2_pos p) <= 53)%Z.
Proof.
  intros H. rewrite digits2_pos_size.
  destruct (Z.le_gt_cases (Z.pos (Pos.size p)) 53) as [Hle|Hgt]; [exact Hle|].
  exfalso. pose proof (Pos.size_le p) as Hs.
  assert (H54 : (2 ^ 54 <= Z.pos (2 ^ Pos.size p))%Z).
  { rewrite Pos2Z.inj_pow. apply Z.pow_le_mono_r; lia. }
  assert (Z.pos (2 ^ Pos.size p) <= Z.pos p~0)%Z by (apply Pos2Z.pos_le_pos; exact Hs).
  change (2 ^ 54)%Z with (2 * 2 ^ 53)%Z in H54. lia.
Qed.

Lemma of_Z_small (p : positive) :
  (Z.pos p < 2 ^ 53)%Z ->
  exists m e, PyFloat.of_Z (Z.pos p) = S754_finite false m e.
Proof.
  intros H. pose proof (digits2_pos_bound p H) as Hd.
  unfold PyFloat.of_Z, binary_normalize, binary_round.
  set (d := digits2_pos p) in *.
  assert (Hfexp : fexp PyFloat.prec PyFloat.emax (Z.pos d + 0) = (Z.pos d - 53)%Z).
  { unfold fexp, emin, PyFloat.prec, PyFloat.emax. lia. }
  rewrite Hfexp.
  assert (Haux : forall mz ez,
            digits2_pos mz = 53%positive -> (-52 <= ez <= 0)%Z ->
            binary_round_aux PyFloat.prec PyFloat.emax false (Z.pos mz) ez loc_Exact
            = S754_finite false mz ez).
  { intros mz ez Hmz Hez. unfold binary_round_aux, shr_fexp.
    cbn [Zdigits2 shr_record_of_loc]. rewrite Hmz.
    assert (Hf : fexp PyFloat.prec PyFloat.emax (53 + ez) = ez).
    { unfold fexp, emin, PyFloat.prec, PyFloat.emax. lia. }
    rewrite Hf, Z.sub_diag. cbn [shr shr_m loc_of_shr_record round_nearest_even
      Zdigits2 shr_record_of_loc]. rewrite Hmz, Hf, Z.sub_diag. cbn [shr shr_m].
    unfold PyFloat.prec, PyFloat.emax.
    destruct (Z.leb_spec ez (1024 - 53)); [reflexivity|lia]. }
  unfold shl_align.
  destruct (Z.pos d - 53 - 0)%Z as [|q|q] eqn:Eq.
  - exists p, 0%Z. apply Haux; [|lia]. fold d. lia.
  - lia.
  - exists (Pos.iter xO p q), (Z.pos d - 53)%Z. apply Haux; [|lia].
    rewrite digits2_pos_iter_xO. fold d. lia.
Qed.

Lemma divisor_ok_small (n : nat) :
  0 < n -> (Z.of_nat n < 2 ^ 53)%Z -> divisor_ok n = true.
Proof.
  intros Hn Hlt. unfold divisor_ok.
  destruct (Z.of_nat n) as [|p|p] eqn:E; try lia.
  destruct (of_Z_small p Hlt) as (m & e & ->). reflexivity.
Qed.

Lemma divisor_ok_zero : divisor_ok 0 = false.
Proof. reflexivity. Qed.

Lemma py_truediv_zero (x : float) :
  py_truediv x (Z.of_nat 0) = Raise (ZeroDivisionError "float division by zero").
Proof. reflexivity. Qed.

Lemma emit_nil (w : world) : emit [] w = w.
Proof. destruct w. unfold emit. cbn. rewrite app_nil_r. reflexivity. Qed.

(** ** The outcome of a run, whatever the world *)

Section Outcome.
Context `{C : Collaborators}.
Variables (config : dict pyval) (model_type dataset : string).
Variables (image_dim : Z) (pcam_data_path : option string).

Lemma epoch_loop_raises_uniform (s : setup) (k : nat) (rest : list nat)
    (st : loop_state) :
  divisor_ok (length (su_train_loader s)) = false
  \/ divisor_ok (length (su_val_loader s)) = false ->
  exists e, forall w,
    epoch_loop model_type (su_train_loader s) (su_val_loader s)
      (k :: rest) st w = (w, Raise e).
Proof.
  intros H. cbn [epoch_loop].
  destruct (fold_left _ (su_train_loader s) _) as [[m o] l].
  destruct (divisor_ok (length (su_train_loader s))) eqn:Ht.
  - destruct H as [H|H]; [discriminate|].
    destruct (py_truediv_raise
                (fold_left (val_batch model_type m) (su_val_loader s)
                   PyFloat.zero) _ H) as [e He].
    exists e. intros w. unfold bind, lift. cbv beta iota zeta.
    rewrite py_truediv_ok by assumption. rewrite He. reflexivity.
  - destruct (py_truediv_raise l _ Ht) as [e He].
    exists e. intros w. unfold bind, lift. cbv beta iota zeta.
    rewrite He. reflexivity.
Qed.

(** A run prints [out] and returns [res], the same in every world: [out] is
    empty or the early-stopping line, and empty when the run raises. *)
Lemma train_and_evaluate_uniform :
  exists (out : list string) (res : result run_result),
    (forall w,
       train_and_evaluate config model_type dataset image_dim pcam_data_path w
       = (emit out w, res))
    /\ (out = []
        \/ exists n r, 5 <= n <= 25 /\ res = Ok r
                       /\ out = ["Early stopping at epoch " +:+ pretty n]).
Proof.
  destruct (pure_prepare config model_type dataset image_dim pcam_data_path)
    as [[s|e] Hp].
  - destruct (divisor_ok (length (su_train_loader s))) eqn:Ht;
      [destruct (divisor_ok (length (su_val_loader s))) eqn:Hv|].
    + set (c := run_cum_val model_type s).
      destruct (es_reached (es_after c (epochs_run c))) eqn:Hr.
      * exists [early_stop_message (epochs_run c)],
          (Ok (result_after_epochs model_type s (epochs_run c))).
        split.
        -- intros w.
           rewrite (train_and_evaluate_completes _ _ _ _ _ w w s (Hp w) Ht Hv).
           unfold world_after_epochs. fold c. rewrite Hr. reflexivity.
        -- right. exists (epochs_run c), (result_after_epochs model_type s
                                           (epochs_run c)).
           pose proof (epochs_run_bounds c) as Hb.
           split; [|split; reflexivity].
           apply es_reached_iff in Hr. pose proof (es_counter_le c (epochs_run c)).
           lia.
      * exists [], (Ok (result_after_epochs model_type s (epochs_run c))).
        split; [|left; reflexivity].
        intros w.
        rewrite (train_and_evaluate_completes _ _ _ _ _ w w s (Hp w) Ht Hv).
        unfold world_after_epochs. fold c. rewrite Hr, emit_nil. reflexivity.
    + destruct (epoch_loop_raises_uniform s 0 (seq 1 24)
                  {| ls_model := su_model s; ls_optimizer := su_optimizer s;
                     ls_best_val_loss := PyFloat.inf;
                     ls_epochs_without_improvement := 0;
                     ls_train_losses := []; ls_val_losses := [] |}
                  (or_intror Hv)) as [e He].
      exists [], (Raise e). split; [|left; reflexivity].
      intros w. unfold train_and_evaluate, bind. rewrite Hp.
      unfold train_and_test, range, bind.
      change (seq 0 25) with (0 :: seq 1 24). rewrite He, emit_nil. reflexivity.
    + destruct (epoch_loop_raises_uniform s 0 (seq 1 24)
                  {| ls_model := su_model s; ls_optimizer := su_optimizer s;
                     ls_best_val_loss := PyFloat.inf;
                     ls_epochs_without_improvement := 0;
                     ls_train_losses := []; ls_val_losses := [] |}
                  (or_introl Ht)) as [e He].
      exists [], (Raise e). split; [|left; reflexivity].
      intros w. unfold train_and_evaluate, bind. rewrite Hp.
      unfold train_and_test, range, bind.
      change (seq 0 25) with (0 :: seq 1 24). rewrite He, emit_nil. reflexivity.
  - exists [], (Raise e). split; [|left; reflexivity].
    intros w. rewrite (prepare_raises_evaluate _ _ _ _ _ w w e (Hp w)).
    rewrite emit_nil. reflexivity.
Qed.

End Outcome.

(** ** More on the rule: the best epoch *)

Section RuleBest.
Variable c : nat -> float.

Lemma epochs_run_le (k : nat) :
  0 < k -> es_reached (es_after c k) = true -> epochs_run c <= k.
Proof.
  intros Hk Hr.
  destruct (Nat.le_gt_cases (epochs_run c) k) as [Hle|Hgt]; [exact Hle|].
  rewrite (epochs_from_before c 25 0 k) in Hr; [discriminate|].
  fold (epochs_run c). lia.
Qed.

Lemma epochs_run_at_least_5 : 5 <= epochs_run c.
Proof.
  apply epochs_run_ge; [lia|]. intros k Hk. apply es_reached_false.
  pose proof (es_counter_le c k). lia.
Qed.

(** While every loss is NaN or +infinity, nothing improves on +infinity. *)
Lemma es_after_unimproved (k : nat) :
  (forall j, 1 <= j <= k -> c j = S754_nan \/ c j = PyFloat.inf) ->
  es_after c k = {| es_best := PyFloat.inf; es_counter := k |}.
Proof.
  induction k as [|k IH]; intros H; [reflexivity|].
  cbn [es_after]. rewrite IH by (intros j Hj; apply H; lia).
  unfold es_step. cbn [es_best es_counter].
  destruct (H (S k) ltac:(lia)) as [-> | ->]; reflexivity.
Qed.

(** While every loss is below the one before, every epoch is the best. *)
Lemma es_after_decreasing (k : nat) :
  PyFloat.ltb (c 1) PyFloat.inf = true ->
  (forall j, 1 <= j < k -> PyFloat.ltb (c (S j)) (c j) = true) ->
  1 <= k ->
  es_after c k = {| es_best := c k; es_counter := 0 |}.
Proof.
  intros H1. induction k as [|k IH]; intros H Hk; [lia|].
  destruct k as [|k].
  - apply es_after_improves. exact H1.
  - apply es_after_improves. rewrite IH by (try lia; intros j Hj; apply H; lia).
    cbn [es_best]. apply H. lia.
Qed.

(** The best loss is the one of the epoch before the current failures. *)
Lemma es_best_at_base (k : nat) :
  es_best (es_after c k)
  = es_best (es_after c (k - es_counter (es_after c k)))
  /\ es_counter (es_after c (k - es_counter (es_after c k))) = 0.
Proof.
  induction k as [|k [IHb IHc]]; [split; reflexivity|].
  destruct (PyFloat.ltb (c (S k)) (es_best (es_after c k))) eqn:E.
  - assert (Hc : es_counter (es_after c (S k)) = 0)
      by (rewrite es_after_improves by exact E; reflexivity).
    rewrite Hc, Nat.sub_0_r. split; [reflexivity | exact Hc].
  - assert (Hc : es_counter (es_after c (S k)) = S (es_counter (es_after c k)))
      by (rewrite es_after_fails by exact E; reflexivity).
    assert (Hb : es_best (es_after c (S k)) = es_best (es_after c k))
      by (rewrite es_after_fails by exact E; reflexivity).
    rewrite Hc.
    replace (S k - S (es_counter (es_after c k)))
      with (k - es_counter (es_after c k)) by lia.
    rewrite Hb. split; assumption.
Qed.

Lemma es_counter_zero_improved (k : nat) :
  es_counter (es_after c (S k)) = 0 ->
  PyFloat.ltb (c (S k)) (es_best (es_after c k)) = true
  /\ es_best (es_after c (S k)) = c (S k).
Proof.
  intros H0.
  destruct (PyFloat.ltb (c (S k)) (es_best (es_after c k))) eqn:E.
  - split; [reflexivity|]. rewrite es_after_improves by exact E. reflexivity.
  - rewrite es_after_fails in H0 by exact E. discriminate.
Qed.

End RuleBest.

(** * Further properties of [train_and_evaluate] *)

Section MoreOnRuns.
Context `{C : Collaborators}.
Variables (config : dict pyval) (model_type dataset : string).
Variables (image_dim : Z) (pcam_data_path : option string).

(** The epoch loop prints at its end only: when it raises, nothing was
    printed. *)
Lemma epoch_loop_raise_world (train_loader val_loader : list batch)
    (epochs : list nat) :
  forall (st : loop_state) (w w1 : world) (e : exn),
    epoch_loop model_type train_loader val_loader epochs st w = (w1, Raise e) ->
    w1 = w.
Proof.
  induction epochs as [|epoch epochs' IH]; intros st w w1 e H;
    [discriminate|].
  cbn [epoch_loop] in H.
  destruct (fold_left _ train_loader _) as [[m o] l].
  unfold bind, lift in H. cbv beta iota zeta in H.
  destruct (py_truediv l _) as [tl|e1]; [|inversion H; reflexivity].
  destruct (py_truediv _ _) as [vl|e2]; [|inversion H; reflexivity].
  destruct (PyFloat.ltb _ _); [apply IH in H; exact H|].
  destruct (patience <=? _)%nat; [|apply IH in H; exact H].
  unfold print, ret in H. discriminate.
Qed.

Lemma epoch_loop_zero_division (s : setup) (k : nat) (rest : list nat)
    (st : loop_state) (w : world) :
  su_train_loader s = []
  \/ (divisor_ok (length (su_train_loader s)) = true /\ su_val_loader s = []) ->
  epoch_loop model_type (su_train_loader s) (su_val_loader s) (k :: rest) st w
  = (w, Raise (ZeroDivisionError "float division by zero")).
Proof.
  intros H. cbn [epoch_loop].
  destruct (fold_left _ (su_train_loader s) _) as [[m o] l].
  unfold bind, lift. cbv beta iota zeta.
  destruct H as [Ht | [Ht Hv]].
  - rewrite Ht. cbn [length]. rewrite py_truediv_zero. reflexivity.
  - rewrite py_truediv_ok by assumption.
    rewrite Hv. cbn [length]. rewrite py_truediv_zero. reflexivity.
Qed.

(** X1: the errors of the preparation, in the order in which the script
    meets them.  Without a batch_size the run raises KeyError for it before
    anything is loaded.  Otherwise, for what the two loads return, a failed
    comparison of the shuffle orders raises its AssertionError, whatever the
    model type and the other keys are; then an unknown model type raises
    ValueError, whatever the other keys are; then the first key that is
    missing among the three the architecture reads raises KeyError for that
    key, before the network is built.  Nothing is printed in any of these
    cases. *)
Theorem prepare_outcome (w : world) :
  match dict_get config "batch_size" with
  | None =>
      train_and_evaluate config model_type dataset image_dim pcam_data_path w
      = (w, Raise (KeyError "batch_size"))
  | Some batch_size =>
      let '(train_loader, val_loader, rows1, columns1) :=
        load_training_data dataset batch_size PyFloat.lit_0_2 pcam_data_path in
      let '(test_loader, rows, columns) :=
        load_testing_data dataset batch_size pcam_data_path rows1 columns1 in
      match check_shuffle_orders rows1 columns1 rows columns w with
      | (_, Raise e) =>
          train_and_evaluate config model_type dataset image_dim
            pcam_data_path w = (w, Raise e)
      | (_, Ok _) =>
          match required_keys model_type with
          | None =>
              train_and_evaluate config model_type dataset image_dim
                pcam_data_path w
              = (w, Raise (ValueError "Invalid model type!"))
          | Some keys =>
              forall k,
                first_missing config keys = Some k ->
                train_and_evaluate config model_type dataset image_dim
                  pcam_data_path w = (w, Raise (KeyError k))
          end
      end
  end.
Proof.
  destruct (dict_get config "batch_size") as [bs|] eqn:Hbs.
  2:{ apply (prepare_raises_evaluate _ _ _ _ _ w w).
      unfold prepare, bind, getitem. rewrite Hbs. reflexivity. }
  destruct (load_training_data dataset bs PyFloat.lit_0_2 pcam_data_path)
    as [[[tr va] r1] c1] eqn:Htr.
  destruct (load_testing_data dataset bs pcam_data_path r1 c1)
    as [[te r] c] eqn:Hte.
  destruct (pure_check_shuffle_orders r1 c1 r c) as [rc Hc]. rewrite Hc.
  assert (Hprep : prepare config model_type dataset image_dim pcam_data_path w
                  = match rc with
                    | Ok _ =>
                        bind (build_model config model_type image_dim)
                          (fun model =>
                             learning_rate <- getitem config "learning_rate" ;;
                             ret {| su_train_loader := tr; su_val_loader := va;
                                    su_test_loader := te; su_model := model;
                                    su_optimizer := Adam model learning_rate |})
                          w
                    | Raise e => (w, Raise e)
                    end).
  { unfold prepare, bind at 1 2 3, getitem at 1 2. rewrite Hbs. unfold ret at 1 2.
    rewrite Htr, Hte, Hc. destruct rc; reflexivity. }
  destruct rc as [[]|e].
  2:{ apply (prepare_raises_evaluate _ _ _ _ _ w w). exact Hprep. }
  unfold required_keys, build_model in *.
  destruct (String.eqb model_type "MLP");
    [|destruct (String.eqb model_type "MLP_3CH");
      [|destruct (String.eqb model_type "CNN");
        [|destruct (String.eqb model_type "CNN_3CH")]]];
    try (apply (prepare_raises_evaluate _ _ _ _ _ w w); exact Hprep);
    intros k Hk; unfold first_missing in Hk; cbn [find] in Hk;
    unfold bind, getitem in Hprep;
    repeat match type of Hk with
           | context [dict_get config ?key] =>
               destruct (dict_get config key) eqn:?
           end;
    try discriminate Hk; inversion Hk; subst k;
    apply (prepare_raises_evaluate _ _ _ _ _ w w); exact Hprep.
Qed.

(** X2: a run whose training loader is empty, or whose validation loader is
    empty while the training loader is not, raises ZeroDivisionError in its
    first epoch; nothing is printed and nothing is returned. *)
Theorem empty_loader_raises (w w1 : world) (s : setup) :
  prepare config model_type dataset image_dim pcam_data_path w = (w1, Ok s) ->
  su_train_loader s = []
  \/ (0 < length (su_train_loader s)
      /\ (Z.of_nat (length (su_train_loader s)) < 2 ^ 53)%Z
      /\ su_val_loader s = []) ->
  train_and_evaluate config model_type dataset image_dim pcam_data_path w
  = (w, Raise (ZeroDivisionError "float division by zero")).
Proof.
  intros Hp H. apply prepare_world in Hp as Hw. subst w1.
  unfold train_and_evaluate, bind at 1. rewrite Hp.
  unfold train_and_test, range. change (seq 0 25) with (0 :: seq 1 24).
  unfold bind at 1. rewrite epoch_loop_zero_division; [reflexivity|].
  destruct H as [Ht | (Hpos & Hlt & Hv)]; [left; exact Ht|].
  right. split; [apply divisor_ok_small; assumption | exact Hv].
Qed.

(** X4: every completed run recorded at least 5 epochs, whatever the losses
    were: the counter starts at 0 and grows by at most one per epoch. *)
Theorem at_least_five_epochs (w w' : world) (r : run_result) :
  train_and_evaluate config model_type dataset image_dim pcam_data_path w
  = (w', Ok r) ->
  5 <= length (val_losses r) /\ 5 <= length (train_losses r).
Proof.
  intros Hrun.
  destruct (train_and_evaluate_inv _ _ _ _ _ _ _ _ Hrun) as (s & Hp & _).
  destruct (run_lengths _ _ _ _ _ _ _ _ _ _ Hp Hrun) as [Ht Hv].
  rewrite Ht, Hv.
  pose proof (epochs_run_at_least_5 (run_cum_val model_type s)). lia.
Qed.

(** X5: when the cumulative validation loss of each of the first five epochs
    is NaN or +infinity, none of them is strictly below the initial
    +infinity: the run stops at epoch 5 and records exactly five epochs. *)
Theorem unimproved_start_stops_at_epoch_5
    (w w1 w' : world) (s : setup) (r : run_result) :
  prepare config model_type dataset image_dim pcam_data_path w = (w1, Ok s) ->
  train_and_evaluate config model_type dataset image_dim pcam_data_path w
  = (w', Ok r) ->
  (forall k, 1 <= k <= 5 ->
     run_cum_val model_type s k = S754_nan
     \/ run_cum_val model_type s k = PyFloat.inf) ->
  length (val_losses r) = 5
  /\ length (train_losses r) = 5
  /\ stdout w' = stdout w ++ ["Early stopping at epoch 5"].
Proof.
  intros Hp Hrun Hbad.
  destruct (run_lengths _ _ _ _ _ _ _ _ _ _ Hp Hrun) as [Ht Hv].
  set (c := run_cum_val model_type s) in *.
  assert (H5 : es_reached (es_after c 5) = true).
  { rewrite (es_after_unimproved c 5 Hbad). reflexivity. }
  assert (Hn : epochs_run c = 5).
  { pose proof (epochs_run_at_least_5 c).
    pose proof (epochs_run_le c 5 ltac:(lia) H5). lia. }
  rewrite Ht, Hv, Hn. split; [reflexivity|]. split; [reflexivity|].
  pose proof (run_stopped_iff _ _ _ _ _ _ _ _ _ _ Hp Hrun) as Hs.
  fold c in Hs. rewrite Hn in Hs. apply Hs. exact H5.
Qed.

(** X6: when the cumulative validation loss of every epoch is strictly below
    the one of the epoch before (and the first one below +infinity), early
    stopping never triggers: all 25 epochs run and nothing is printed. *)
Theorem decreasing_losses_run_all_epochs
    (w w1 w' : world) (s : setup) (r : run_result) :
  prepare config model_type dataset image_dim pcam_data_path w = (w1, Ok s) ->
  train_and_evaluate config model_type dataset image_dim pcam_data_path w
  = (w', Ok r) ->
  PyFloat.ltb (run_cum_val model_type s 1) PyFloat.inf = true ->
  (forall k, 1 <= k < 25 ->
     PyFloat.ltb (run_cum_val model_type s (S k)) (run_cum_val model_type s k)
     = true) ->
  length (val_losses r) = 25 /\ length (train_losses r) = 25 /\ w' = w.
Proof.
  intros Hp Hrun H1 Hdec.
  destruct (run_lengths _ _ _ _ _ _ _ _ _ _ Hp Hrun) as [Ht Hv].
  set (c := run_cum_val model_type s) in *.
  assert (Hnr : forall k, 0 < k <= 25 -> es_reached (es_after c k) = false).
  { intros k Hk. rewrite (es_after_decreasing c k H1); [reflexivity| |lia].
    intros j Hj. apply Hdec. lia. }
  pose proof (epochs_run_bounds c) as Hb.
  assert (Hn : epochs_run c = 25).
  { pose proof (epochs_run_ge c 25 ltac:(lia)) as Hge.
    specialize (Hge ltac:(intros k Hk; apply Hnr; lia)). lia. }
  rewrite Ht, Hv, Hn. split; [reflexivity|]. split; [reflexivity|].
  destruct (run_stdout _ _ _ _ _ _ _ _ _ _ Hp Hrun) as [[Hr _]|[_ Hw]];
    [|exact Hw].
  fold c in Hr. rewrite Hn, Hnr in Hr by lia. discriminate.
Qed.

(** X7: a run writes no file, and what it prints is nothing or the one
    early-stopping line of an epoch between 5 and 25, whether it then
    returns or not.  The line is the last act of the epoch loop: the
    preparation prints nothing, and an epoch loop that raises has printed
    nothing. *)
Theorem run_only_prints (w : world) :
  fs (fst (train_and_evaluate config model_type dataset image_dim
             pcam_data_path w)) = fs w
  /\ (stdout (fst (train_and_evaluate config model_type dataset image_dim
                     pcam_data_path w)) = stdout w
      \/ exists n,
           5 <= n <= 25
           /\ stdout (fst (train_and_evaluate config model_type dataset
                             image_dim pcam_data_path w))
              = stdout w ++ ["Early stopping at epoch " +:+ pretty n])
  /\ fst (prepare config model_type dataset image_dim pcam_data_path w) = w
  /\ (forall (train_loader val_loader : list batch) (epochs : list nat)
             (st : loop_state) (w1 : world) (e : exn),
        epoch_loop model_type train_loader val_loader epochs st w
        = (w1, Raise e) ->
        w1 = w).
Proof.
  destruct (train_and_evaluate_uniform config model_type dataset image_dim
              pcam_data_path) as (out & res & Hrun & Hout).
  rewrite !Hrun. cbn [fst snd emit fs stdout]. split; [reflexivity|]. split.
  { destruct Hout as [-> | (n & r & Hn & _ & ->)].
    - left. apply app_nil_r.
    - right. exists n. split; [exact Hn | reflexivity]. }
  split.
  { destruct (prepare config model_type dataset image_dim pcam_data_path w)
      as [w1 res1] eqn:Hp. apply prepare_world in Hp. exact Hp. }
  intros train_loader val_loader epochs st w1 e. apply epoch_loop_raise_world.
Qed.

(** X8: when early stopping ends a run after more than 5 epochs, the best
    cumulative validation loss is the one of the fifth epoch before the last:
    that epoch strictly improved on everything before it, and the five epochs
    after it are the ones that failed. *)
Theorem early_stop_five_after_best
    (w w1 w' : world) (s : setup) (r : run_result) :
  prepare config model_type dataset image_dim pcam_data_path w = (w1, Ok s) ->
  train_and_evaluate config model_type dataset image_dim pcam_data_path w
  = (w', Ok r) ->
  stdout w'
  = stdout w ++ ["Early stopping at epoch " +:+ pretty (length (val_losses r))] ->
  5 < length (val_losses r) ->
  let c := run_cum_val model_type s in
  let best := length (val_losses r) - 5 in
  PyFloat.ltb (c best) (es_best (es_after c (best - 1))) = true
  /\ es_best (es_after c (length (val_losses r))) = c best
  /\ forall j, best < j <= length (val_losses r) -> fails_to_improve c j.
Proof.
  intros Hp Hrun Hst Hn5 c best.
  destruct (run_lengths _ _ _ _ _ _ _ _ _ _ Hp Hrun) as [_ Hv].
  pose proof (run_stopped_iff _ _ _ _ _ _ _ _ _ _ Hp Hrun) as Hs.
  fold c in Hv, Hs. unfold early_stop_message in Hs.
  subst best. rewrite Hv in *.
  apply Hs in Hst. apply es_reached_iff in Hst.
  destruct (es_best_at_base c (epochs_run c)) as [Hb Hc0].
  rewrite Hst in Hb, Hc0.
  destruct (epochs_run c - 5) as [|b] eqn:Eb; [lia|].
  destruct (es_counter_zero_improved c b Hc0) as [Himp Hbest].
  cbn [Nat.sub]. rewrite Nat.sub_0_r.
  split; [exact Himp|]. split; [rewrite Hb; exact Hbest|].
  intros j Hj.
  assert (Hf : consecutive_failures c 5 (epochs_run c))
    by (apply es_counter_ge_iff; lia).
  destruct Hf as [_ Hf]. apply Hf. lia.
Qed.

End MoreOnRuns.

(** ** More on paths *)

Lemma list_ascii_of_string_app (a b : string) :
  list_ascii_of_string (a +:+ b)
  = list_ascii_of_string a ++ list_ascii_of_string b.
Proof.
  induction a as [|ch a IH]; [reflexivity|].
  change (ch :: list_ascii_of_string (a +:+ b)
          = ch :: (list_ascii_of_string a ++ list_ascii_of_string b)).
  rewrite IH. reflexivity.
Qed.

Lemma config_path_not_results (script_dir_parent : string -> string)
    (model_type dataset config_path output_path : string) :
  config_file_path_of script_dir_parent model_type dataset config_path
  <> results_csv_path_of script_dir_parent model_type dataset output_path.
Proof.
  unfold config_file_path_of, results_csv_path_of.
  destruct (os_path_join_prefix (script_dir_parent config_path)) as [p1 H1].
  destruct (os_path_join_prefix (script_dir_parent output_path)) as [p2 H2].
  rewrite H1, H2. intros H.
  apply (f_equal list_ascii_of_string) in H.
  rewrite !list_ascii_of_string_app in H.
  change (list_ascii_of_string ".json")
    with (list_ascii_of_string ".jso" ++ ["n"%char]) in H.
  change (list_ascii_of_string ".csv")
    with (list_ascii_of_string ".cs" ++ ["v"%char]) in H.
  rewrite !app_assoc in H. apply app_inj_tail in H as [_ H]. discriminate.
Qed.

Lemma config_path_not_losses (script_dir_parent : string -> string)
    (model_type dataset config_path output_path : string) :
  config_file_path_of script_dir_parent model_type dataset config_path
  <> losses_json_path_of script_dir_parent model_type dataset output_path.
Proof.
  unfold config_file_path_of, losses_json_path_of.
  destruct (os_path_join_prefix (script_dir_parent config_path)) as [p1 H1].
  destruct (os_path_join_prefix (script_dir_parent output_path)) as [p2 H2].
  rewrite H1, H2. intros H.
  apply (f_equal list_ascii_of_string) in H.
  rewrite !list_ascii_of_string_app in H.
  rewrite (app_assoc (list_ascii_of_string p1)) in H.
  rewrite (app_assoc (list_ascii_of_string p2)) in H.
  apply app_inv_tail in H.
  change (list_ascii_of_string "best_configs_")
    with (list_ascii_of_string "best_confi" ++ ["g"%char] ++ ["s"%char]
          ++ ["_"%char]) in H.
  change (list_ascii_of_string "losses_")
    with (list_ascii_of_string "loss" ++ ["e"%char] ++ ["s"%char]
          ++ ["_"%char]) in H.
  rewrite !app_assoc in H.
  apply app_inj_tail in H as [H _]. apply app_inj_tail in H as [H _].
  apply app_inj_tail in H as [_ H]. discriminate.
Qed.

(** ** More on the loop over the configurations *)

Section MainMore.
Context `{C : Collaborators}.
Variables model_type dataset : string.
Variable pcam_data_path : option string.
Variable image_dim : Z.
Variables results_csv_path losses_json_path : string.
Variable n_configurations : nat.
Hypothesis Hpaths : results_csv_path <> losses_json_path.

Let step := main_step model_type dataset pcam_data_path image_dim
              results_csv_path losses_json_path n_configurations.
Let loop := main_loop model_type dataset pcam_data_path image_dim
              results_csv_path losses_json_path n_configurations.

(** One iteration in every world: it raises what the run raises, with the
    files untouched, or writes the record and the losses of the run. *)
Lemma main_step_uniform (idx : nat) (config : dict pyval) :
  exists (out : list string) (res : result run_result),
    (forall w,
       train_and_evaluate config model_type dataset image_dim pcam_data_path w
       = (emit out w, res))
    /\ forall results all_losses w,
         step idx config (results, all_losses) w
         = match res with
           | Ok r =>
               ({| stdout :=
                     (stdout w
                      ++ ["Training model " +:+ pretty (idx + 1) +:+ "/"
                          +:+ pretty n_configurations]) ++ out;
                   fs :=
                     <[losses_json_path :=
                         [JsonLosses
                            (dict_set all_losses (loss_key idx) (entry_of r))]]>
                       (<[results_csv_path :=
                            csv_after (default [] (fs w !! results_csv_path))
                              [result_record idx config r]]> (fs w)) |},
                Ok (results ++ [result_record idx config r],
                    dict_set all_losses (loss_key idx) (entry_of r)))
           | Raise e =>
               ({| stdout :=
                     (stdout w
                      ++ ["Training model " +:+ pretty (idx + 1) +:+ "/"
                          +:+ pretty n_configurations]) ++ out;
                   fs := fs w |}, Raise e)
           end.
Proof.
  destruct (train_and_evaluate_uniform config model_type dataset image_dim
              pcam_data_path) as (out & res & Hrun & _).
  exists out, res. split; [exact Hrun|].
  intros results all_losses w. subst step.
  unfold main_step, bind. cbn [print]. rewrite Hrun.
  destruct res as [r|e]; [|reflexivity].
  rewrite last_snoc. reflexivity.
Qed.

(** The loop writes the result file and the loss-history file only. *)
Lemma main_loop_frame (configurations : list (dict pyval)) :
  forall idx acc w p,
    p <> results_csv_path -> p <> losses_json_path ->
    fs (fst (loop idx configurations acc w)) !! p = fs w !! p.
Proof.
  subst loop. induction configurations as [|config rest IH];
    intros idx [results all_losses] w p Hc Hj; [reflexivity|].
  cbn [main_loop]. unfold bind.
  destruct (main_step_uniform idx config) as (out & res & _ & Hstep).
  subst step. rewrite Hstep. destruct res as [r|e]; [|reflexivity].
  rewrite IH by assumption. cbn [fs].
  rewrite !lookup_insert_ne by congruence. reflexivity.
Qed.

End MainMore.

(** * Further properties of [main_train] *)

Section MoreOnMainTrain.
Context `{C : Collaborators}.
Variable script_dir_parent : string -> string.
Variables model_type dataset config_path output_path : string.
Variable pcam_data_path : option string.
Variable image_dim : Z.

Let cfg : string :=
  config_file_path_of script_dir_parent model_type dataset config_path.
Let csv : string :=
  results_csv_path_of script_dir_parent model_type dataset output_path.
Let json : string :=
  losses_json_path_of script_dir_parent model_type dataset output_path.

(** X9: when the run of configuration [k] raises after the [k]
    configurations before it have completed, [main_train] raises the same
    exception there: no later configuration runs, nothing more is printed,
    and the final rewrite of the two files does not happen.  The files are
    as the completed configurations left them: untouched for [k = 0], and
    otherwise the result file holds the lines appended for their [k]
    records, and the loss-history file their [k] entries. *)
Theorem failed_configuration_keeps_earlier_results
    (configurations : list (dict pyval)) (k : nat) (config : dict pyval)
    (w wk w' : world) (acc : list (dict pyval) * dict loss_entry) (e : exn) :
  fs w !! cfg = Some [JsonConfigs configurations] ->
  configurations !! k = Some config ->
  main_loop model_type dataset pcam_data_path image_dim csv json
    (length configurations) 0 (take k configurations) ([], []) w
  = (wk, Ok acc) ->
  train_and_evaluate config model_type dataset image_dim pcam_data_path
    {| stdout := stdout wk
                 ++ ["Training model " +:+ pretty (k + 1) +:+ "/"
                     +:+ pretty (length configurations)];
       fs := fs wk |}
  = (w', Raise e) ->
  main_train script_dir_parent model_type dataset config_path output_path
    pcam_data_path image_dim w = (w', Raise e)
  /\ fs w' = fs wk
  /\ length (fst acc) = k
  /\ dict_keys (snd acc) = map loss_key (seq 0 k)
  /\ match k with
     | 0 => fs w' = fs w
     | S _ =>
         fs w' !! csv
         = Some (csv_after (default [] (fs w !! csv)) (fst acc))
         /\ fs w' !! json = Some [JsonLosses (snd acc)]
     end.
Proof.
  intros Hconf Hk Hloop Hrun.
  apply lookup_lt_Some in Hk as Hlt.
  pose proof (train_and_evaluate_fs config model_type dataset image_dim
                pcam_data_path
                {| stdout := stdout wk
                             ++ ["Training model " +:+ pretty (k + 1) +:+ "/"
                                 +:+ pretty (length configurations)];
                   fs := fs wk |}) as Hfs.
  rewrite Hrun in Hfs. cbn [fst fs] in Hfs.
  assert (Hmain : main_train script_dir_parent model_type dataset config_path
                    output_path pcam_data_path image_dim w = (w', Raise e)).
  { unfold main_train, bind at 1, load_configurations. cbv zeta.
    subst cfg. unfold config_file_path_of in Hconf. rewrite Hconf.
    unfold bind at 1.
    unfold csv, json, results_csv_path_of, losses_json_path_of in Hloop.
    rewrite <- (take_drop k configurations) at 2.
    rewrite main_loop_app. unfold bind at 1. rewrite Hloop.
    rewrite (drop_S _ _ _ Hk). cbn [main_loop]. unfold bind at 1.
    destruct acc as [results all_losses].
    unfold main_step, bind at 1. cbn [print].
    rewrite length_take, Nat.add_0_l.
    replace (k `min` length configurations) with k by lia.
    unfold bind at 1. rewrite Hrun. reflexivity. }
  split; [exact Hmain|]. split; [exact Hfs|].
  assert (Hw : match k with 0 => fs w' = fs w | S _ => True end).
  { destruct k; [|exact I]. cbn in Hloop. inversion Hloop. subst wk.
    exact Hfs. }
  apply main_loop_inv in Hloop as (rs & Hlen & _ & -> & Hcsv & Hjson);
    [|apply paths_distinct].
  rewrite length_take in Hlen.
  replace (k `min` length configurations) with k in Hlen by lia.
  cbn [fst snd app]. split.
  { rewrite length_records_from; rewrite length_take; lia. }
  split.
  { rewrite dict_keys_losses_from by reflexivity. rewrite Hlen. reflexivity. }
  destruct k as [|k].
  - exact Hw.
  - destruct configurations as [|config0 rest]; [cbn in Hlt; lia|].
    cbn [take] in Hcsv, Hjson. rewrite Hfs. split; assumption.
Qed.

(** X10: when the result file already holds something at the start, no
    header is written during the loop: after the loop the file is its old
    content followed by one data row per configuration, until the final
    rewrite of [main_train] replaces all of it.  The loss-history file, in
    contrast, holds the entries of this run only, whatever it held before. *)
Theorem rows_appended_to_existing_results
    (configurations : list (dict pyval)) (old : file)
    (w w' : world) (acc : list (dict pyval) * dict loss_entry) :
  fs w !! csv = Some old ->
  old <> [] ->
  configurations <> [] ->
  main_loop model_type dataset pcam_data_path image_dim csv json
    (length configurations) 0 configurations ([], []) w = (w', Ok acc) ->
  (exists rows,
     fs w' !! csv = Some (old ++ rows)
     /\ length rows = length configurations
     /\ header_rows rows = 0
     /\ data_rows rows = length configurations
     /\ header_rows (old ++ rows) = header_rows old)
  /\ exists all_losses,
       fs w' !! json = Some [JsonLosses all_losses]
       /\ dict_keys all_losses = map loss_key (seq 0 (length configurations)).
Proof.
  intros Hold Hne Hcs Hloop.
  apply main_loop_inv in Hloop as (rs & Hlen & _ & -> & Hcsv & Hjson);
    [|apply paths_distinct].
  split.
  2:{ destruct configurations as [|config0 rest]; [contradiction|].
      eexists. split; [exact Hjson|].
      rewrite dict_keys_losses_from by reflexivity. rewrite Hlen. reflexivity. }
  destruct configurations as [|config0 rest]; [contradiction|].
  rewrite Hold in Hcsv. cbn [default from_option id] in Hcsv.
  rewrite csv_after_rows in Hcsv by exact Hne.
  eexists. split; [exact Hcsv|].
  rewrite length_map, length_records_from by exact Hlen.
  assert (Hrows : forall l : list (dict pyval),
            header_rows (map (fun r => CsvRow (map (dict_get r) (columns [r]))) l)
            = 0
            /\ data_rows (map (fun r => CsvRow (map (dict_get r) (columns [r]))) l)
               = length l).
  { induction l as [|r l [IH1 IH2]]; [split; reflexivity|].
    unfold header_rows, data_rows in *.
    cbn [map List.filter is_header is_row length].
    split; [exact IH1 | f_equal; exact IH2]. }
  destruct (Hrows (records_from 0 (config0 :: rest) rs)) as [H0 H1].
  rewrite header_rows_app, H0, H1, length_records_from by exact Hlen.
  repeat split; lia.
Qed.

End MoreOnMainTrain.

(** X12: the fields of a record.  For a configuration without repeated keys
    the five derived fields hold what the run returned, even when the
    configuration has entries with these names; every other entry of the
    configuration is in the record unchanged; model_index is the index unless
    the configuration has such an entry; and the keys of the record are not
    repeated and start with model_index. *)
Theorem result_record_fields (idx : nat) (config : dict pyval) (r : run_result) :
  NoDup (dict_keys config) ->
  let record := result_record idx config r in
  dict_get record "num_params" = Some (PyInt (num_params r))
  /\ dict_get record "accuracy" = Some (PyFloat (accuracy r))
  /\ dict_get record "f1" = Some (PyFloat (f1 r))
  /\ dict_get record "precision" = Some (PyFloat (precision r))
  /\ dict_get record "recall" = Some (PyFloat (recall r))
  /\ dict_get record "model_index"
     = match dict_get config "model_index" with
       | Some v => Some v
       | None => Some (PyInt (Z.of_nat idx))
       end
  /\ (forall k, k <> "model_index" -> ~ In k derived_fields ->
                dict_get record k = dict_get config k)
  /\ NoDup (dict_keys record)
  /\ head (dict_keys record) = Some "model_index".
Proof.
  intros Hnd record. subst record. unfold result_record.
  repeat split.
  - rewrite !dict_get_set_ne by discriminate. apply dict_get_set_eq.
  - rewrite !dict_get_set_ne by discriminate. apply dict_get_set_eq.
  - rewrite !dict_get_set_ne by discriminate. apply dict_get_set_eq.
  - rewrite !dict_get_set_ne by discriminate. apply dict_get_set_eq.
  - apply dict_get_set_eq.
  - rewrite !dict_get_set_ne by discriminate.
    rewrite dict_get_update by exact Hnd. reflexivity.
  - intros k Hk Hder. unfold derived_fields in Hder. cbn [In] in Hder.
    rewrite !dict_get_set_ne by (intros E; apply Hder; subst k; auto 10).
    rewrite dict_get_update by exact Hnd.
    destruct (dict_get config k); [reflexivity|].
    cbn [dict_get]. destruct (String.eqb_spec k "model_index"); [contradiction|].
    reflexivity.
  - repeat apply dict_set_NoDup. apply dict_update_NoDup.
    cbn. apply NoDup_singleton.
  - repeat apply dict_set_head. apply dict_update_head. reflexivity.
Qed.

(** ** What [main_train] prints and what it leaves alone *)

Section MainOutput.
Context `{C : Collaborators}.
Variables model_type dataset : string.
Variable pcam_data_path : option string.
Variable image_dim : Z.
Variables results_csv_path losses_json_path : string.
Variable n_configurations : nat.

Lemma main_loop_stdout (configurations : list (dict pyval)) :
  forall idx acc w w' acc',
    main_loop model_type dataset pcam_data_path image_dim results_csv_path
      losses_json_path n_configurations idx configurations acc w
    = (w', Ok acc') ->
    exists outs,
      length outs = length configurations
      /\ Forall run_output outs
      /\ stdout w' = stdout w ++ progress n_configurations idx outs.
Proof.
  induction configurations as [|config rest IH];
    intros idx [results all_losses] w w' acc' H.
  - cbn in H. inversion H. subst. exists []. cbn.
    rewrite app_nil_r. repeat split. constructor.
  - cbn [main_loop] in H. unfold bind in H.
    destruct (main_step_uniform model_type dataset pcam_data_path image_dim
                results_csv_path losses_json_path n_configurations idx config)
      as (out & res & Hrun & Hstep).
    rewrite Hstep in H. destruct res as [r|e]; [|discriminate].
    apply IH in H as (outs & Hlen & Hall & Hout).
    exists (out :: outs). split; [cbn; lia|]. split.
    + constructor; [|exact Hall].
      destruct (train_and_evaluate_uniform config model_type dataset image_dim
                  pcam_data_path) as (out' & res' & Hrun' & Hout').
      assert (Heq : out = out').
      { pose proof (Hrun {| stdout := []; fs := ∅ |}) as H1.
        rewrite Hrun' in H1. inversion H1. reflexivity. }
      subst out'. destruct Hout' as [-> | (n & r' & Hn & _ & ->)].
      * left. reflexivity.
      * right. exists n. split; [exact Hn | reflexivity].
    + rewrite Hout. cbn [stdout progress].
      rewrite <- !app_assoc. reflexivity.
Qed.

End MainOutput.

Section MainTrainOutput.
Context `{C : Collaborators}.
Variable script_dir_parent : string -> string.
Variables model_type dataset config_path output_path : string.
Variable pcam_data_path : option string.
Variable image_dim : Z.

Let cfg : string :=
  config_file_path_of script_dir_parent model_type dataset config_path.
Let csv : string :=
  results_csv_path_of script_dir_parent model_type dataset output_path.
Let json : string :=
  losses_json_path_of script_dir_parent model_type dataset output_path.

(** X13: whether it returns or raises, [main_train] writes no file but the
    result file and the loss-history file; in particular the file of
    configurations, whose path differs from both, is as it was. *)
Theorem main_train_writes_only_outputs (w : world) :
  (forall p, p <> csv -> p <> json ->
     fs (fst (main_train script_dir_parent model_type dataset config_path
                output_path pcam_data_path image_dim w)) !! p
     = fs w !! p)
  /\ cfg <> csv
  /\ cfg <> json
  /\ fs (fst (main_train script_dir_parent model_type dataset config_path
                output_path pcam_data_path image_dim w)) !! cfg
     = fs w !! cfg.
Proof.
  pose proof (config_path_not_results script_dir_parent model_type dataset
                config_path output_path) as Hcr.
  pose proof (config_path_not_losses script_dir_parent model_type dataset
                config_path output_path) as Hcl.
  fold cfg csv in Hcr. fold cfg json in Hcl.
  assert (Hframe : forall p, p <> csv -> p <> json ->
            fs (fst (main_train script_dir_parent model_type dataset
                       config_path output_path pcam_data_path image_dim w))
            !! p = fs w !! p).
  { intros p Hpc Hpj.
    unfold main_train, bind at 1, load_configurations. cbv zeta.
    destruct (fs w !! os_path_join _ _) as [[|[| | |cs] [|]]|];
      try reflexivity.
    unfold bind at 1.
    pose proof (main_loop_frame model_type dataset pcam_data_path image_dim
                  csv json (length cs) cs 0 ([], []) w p Hpc Hpj) as Hf.
    subst csv json. unfold results_csv_path_of, losses_json_path_of in *.
    destruct (main_loop _ _ _ _ _ _ _ 0 cs ([], []) w)
      as [wl [[results all_losses]|e]]; cbn [fst] in Hf.
    - unfold bind, open_write, print. cbn.
      rewrite !lookup_insert_ne by congruence. exact Hf.
    - exact Hf. }
  split; [exact Hframe|]. split; [exact Hcr|]. split; [exact Hcl|].
  apply Hframe; assumption.
Qed.

(** X14: what a completed [main_train] prints: for each configuration in
    order the line "Training model i/N" followed by what its run printed,
    which is nothing or one early-stopping line, and at the end the two lines
    that name the result file and the loss-history file. *)
Theorem main_train_prints (configurations : list (dict pyval)) (w w' : world) :
  fs w !! cfg = Some [JsonConfigs configurations] ->
  main_train script_dir_parent model_type dataset config_path output_path
    pcam_data_path image_dim w = (w', Ok tt) ->
  exists outs,
    length outs = length configurations
    /\ Forall run_output outs
    /\ stdout w'
       = stdout w ++ progress (length configurations) 0 outs
         ++ ["Results saved to " +:+ csv; "Losses saved to " +:+ json].
Proof.
  intros Hconf Hrun.
  unfold main_train, bind, load_configurations in Hrun. cbv zeta in Hrun.
  subst cfg. unfold config_file_path_of in Hconf. rewrite Hconf in Hrun.
  destruct (main_loop _ _ _ _ _ _ _ 0 configurations ([], []) w)
    as [wl [[results all_losses]|e]] eqn:Eloop; [|discriminate].
  apply main_loop_stdout in Eloop as (outs & Hlen & Hall & Hout).
  unfold open_write, print in Hrun. cbn in Hrun. inversion Hrun as [Hw'].
  exists outs. split; [exact Hlen|]. split; [exact Hall|].
  cbn [stdout]. rewrite Hout. rewrite <- !app_assoc. reflexivity.
Qed.

End MainTrainOutput.

(** * The further properties on concrete runs *)

Module MoreRuns.

Import Toy Cases.

Lemma prepare_outcome_witness :
  first_missing bare_config ["fc1_hidden"; "fc2_hidden"; "fc3_hidden"]
  = Some "fc1_hidden"
  /\ @train_and_evaluate (with_val_losses rising) bare_config "MLP" "MNIST" 28
       None empty_world
     = (empty_world, Raise (KeyError "fc1_hidden")).
Proof.
  assert (Hmiss : first_missing bare_config
                    ["fc1_hidden"; "fc2_hidden"; "fc3_hidden"]
                  = Some "fc1_hidden") by reflexivity.
  split; [exact Hmiss|].
  pose proof (@prepare_outcome (with_val_losses rising) bare_config "MLP"
                "MNIST" 28%Z None empty_world) as H.
  change (forall k,
            first_missing bare_config ["fc1_hidden"; "fc2_hidden"; "fc3_hidden"]
            = Some k ->
            @train_and_evaluate (with_val_losses rising) bare_config "MLP"
              "MNIST" 28 None empty_world
            = (empty_world, Raise (KeyError k))) in H.
  apply H. exact Hmiss.
Defined.

Lemma empty_loader_witness :
  @prepare no_training mlp_config "MLP" "MNIST" 28 None empty_world
  = (empty_world, Ok no_training_setup)
  /\ @su_train_loader no_training no_training_setup = []
  /\ @train_and_evaluate no_training mlp_config "MLP" "MNIST" 28 None
       empty_world
     = (empty_world, Raise (ZeroDivisionError "float division by zero")).
Proof.
  assert (Hp : @prepare no_training mlp_config "MLP" "MNIST" 28 None empty_world
               = (empty_world, Ok no_training_setup))
    by (vm_compute; reflexivity).
  split; [exact Hp|]. split; [reflexivity|].
  apply (@empty_loader_raises no_training mlp_config "MLP" "MNIST" 28%Z None
           empty_world empty_world no_training_setup Hp).
  left. reflexivity.
Defined.

Lemma at_least_five_epochs_witness :
  @train_and_evaluate (with_val_losses rising) mlp_config "MLP" "MNIST" 28 None
    empty_world
  = (rising_world, Ok rising_result)
  /\ 5 <= length (val_losses rising_result).
Proof.
  split; [exact Runs.rising_run|].
  destruct (@at_least_five_epochs (with_val_losses rising) mlp_config "MLP"
              "MNIST" 28%Z None empty_world rising_world rising_result
              Runs.rising_run) as [H _].
  exact H.
Defined.

Lemma diverged_prepare :
  @prepare diverged mlp_config "MLP" "MNIST" 28 None empty_world
  = (empty_world, Ok diverged_setup).
Proof. vm_compute. reflexivity. Defined.

Lemma diverged_run :
  @train_and_evaluate diverged mlp_config "MLP" "MNIST" 28 None empty_world
  = (diverged_world, Ok diverged_result).
Proof. vm_compute. reflexivity. Defined.

Lemma unimproved_start_witness :
  @prepare diverged mlp_config "MLP" "MNIST" 28 None empty_world
  = (empty_world, Ok diverged_setup)
  /\ @train_and_evaluate diverged mlp_config "MLP" "MNIST" 28 None empty_world
     = (diverged_world, Ok diverged_result)
  /\ (forall k, 1 <= k <= 5 ->
        @run_cum_val diverged "MLP" diverged_setup k = S754_nan
        \/ @run_cum_val diverged "MLP" diverged_setup k = PyFloat.inf)
  /\ length (val_losses diverged_result) = 5.
Proof.
  assert (Hnan : forall k, 1 <= k <= 5 ->
            @run_cum_val diverged "MLP" diverged_setup k = S754_nan
            \/ @run_cum_val diverged "MLP" diverged_setup k = PyFloat.inf).
  { intros k Hk.
    destruct k as [|[|[|[|[|[|k]]]]]]; try lia; left; vm_compute; reflexivity. }
  split; [exact diverged_prepare|]. split; [exact diverged_run|].
  split; [exact Hnan|].
  destruct (@unimproved_start_stops_at_epoch_5 diverged mlp_config "MLP"
              "MNIST" 28%Z None empty_world empty_world diverged_world
              diverged_setup diverged_result diverged_prepare diverged_run
              Hnan) as [H _].
  exact H.
Defined.

Lemma falling_prepare :
  @prepare (with_val_losses falling) mlp_config "MLP" "MNIST" 28 None
    empty_world
  = (empty_world, Ok (setup_for falling)).
Proof. vm_compute. reflexivity. Defined.

Lemma falling_run :
  @train_and_evaluate (with_val_losses falling) mlp_config "MLP" "MNIST" 28
    None empty_world
  = (empty_world, Ok falling_result).
Proof. vm_compute. reflexivity. Defined.

Lemma decreasing_losses_witness :
  @prepare (with_val_losses falling) mlp_config "MLP" "MNIST" 28 None
    empty_world
  = (empty_world, Ok (setup_for falling))
  /\ @train_and_evaluate (with_val_losses falling) mlp_config "MLP" "MNIST" 28
       None empty_world
     = (empty_world, Ok falling_result)
  /\ PyFloat.ltb (@run_cum_val (with_val_losses falling) "MLP"
                    (setup_for falling) 1) PyFloat.inf = true
  /\ (forall k, 1 <= k < 25 ->
        PyFloat.ltb
          (@run_cum_val (with_val_losses falling) "MLP" (setup_for falling)
             (S k))
          (@run_cum_val (with_val_losses falling) "MLP" (setup_for falling) k)
        = true)
  /\ length (val_losses falling_result) = 25.
Proof.
  assert (H1 : PyFloat.ltb (@run_cum_val (with_val_losses falling) "MLP"
                              (setup_for falling) 1) PyFloat.inf = true)
    by (vm_compute; reflexivity).
  assert (Hdec : forall k, 1 <= k < 25 ->
            PyFloat.ltb
              (@run_cum_val (with_val_losses falling) "MLP" (setup_for falling)
                 (S k))
              (@run_cum_val (with_val_losses falling) "MLP" (setup_for falling)
                 k)
            = true).
  { assert (Hall : forallb
              (fun k =>
                 PyFloat.ltb
                   (@run_cum_val (with_val_losses falling) "MLP"
                      (setup_for falling) (S k))
                   (@run_cum_val (with_val_losses falling) "MLP"
                      (setup_for falling) k))
              (seq 1 24) = true) by (vm_compute; reflexivity).
    intros k Hk. rewrite forallb_forall in Hall. apply Hall.
    apply in_seq. lia. }
  split; [exact falling_prepare|]. split; [exact falling_run|].
  split; [exact H1|]. split; [exact Hdec|].
  destruct (@decreasing_losses_run_all_epochs (with_val_losses falling)
              mlp_config "MLP" "MNIST" 28%Z None empty_world empty_world
              empty_world (setup_for falling) falling_result falling_prepare
              falling_run H1 Hdec) as [H _].
  exact H.
Defined.

Lemma early_stop_five_after_best_witness :
  @prepare (with_val_losses rising) mlp_config "MLP" "MNIST" 28 None empty_world
  = (empty_world, Ok (setup_for rising))
  /\ @train_and_evaluate (with_val_losses rising) mlp_config "MLP" "MNIST" 28
       None empty_world
     = (rising_world, Ok rising_result)
  /\ stdout rising_world
     = stdout empty_world
       ++ ["Early stopping at epoch "
           +:+ pretty (length (val_losses rising_result))]
  /\ 5 < length (val_losses rising_result)
  /\ es_best (es_after (@run_cum_val (with_val_losses rising) "MLP"
                          (setup_for rising))
                (length (val_losses rising_result)))
     = @run_cum_val (with_val_losses rising) "MLP" (setup_for rising)
         (length (val_losses rising_result) - 5).
Proof.
  assert (Hst : stdout rising_world
                = stdout empty_world
                  ++ ["Early stopping at epoch "
                      +:+ pretty (length (val_losses rising_result))])
    by (vm_compute; reflexivity).
  assert (H5 : 5 < length (val_losses rising_result))
    by (vm_compute; lia).
  split; [exact Runs.rising_prepare|]. split; [exact Runs.rising_run|].
  split; [exact Hst|]. split; [exact H5|].
  destruct (@early_stop_five_after_best (with_val_losses rising) mlp_config
              "MLP" "MNIST" 28%Z None empty_world empty_world rising_world
              (setup_for rising) rising_result Runs.rising_prepare
              Runs.rising_run Hst H5) as (_ & H & _).
  exact H.
Defined.

Lemma failed_configuration_witness :
  fs (world_with [mlp_config; bare_config])
  !! config_file_path_of script_dir_parent "MLP" "MNIST" "configs"
  = Some [JsonConfigs [mlp_config; bare_config]]
  /\ [mlp_config; bare_config] !! 1 = Some bare_config
  /\ failing_prefix = (fst failing_prefix, Ok failing_prefix_acc)
  /\ @train_and_evaluate (with_val_losses rising) bare_config "MLP" "MNIST" 28
       None
       {| stdout := stdout (fst failing_prefix) ++ ["Training model 2/2"];
          fs := fs (fst failing_prefix) |}
     = (fst failing_run, Raise (KeyError "fc1_hidden"))
  /\ failing_run = (fst failing_run, Raise (KeyError "fc1_hidden"))
  /\ fs (fst failing_run) = fs (fst failing_prefix)
  /\ length (fst failing_prefix_acc) = 1.
Proof.
  assert (Hconf : fs (world_with [mlp_config; bare_config])
                  !! config_file_path_of script_dir_parent "MLP" "MNIST"
                       "configs"
                  = Some [JsonConfigs [mlp_config; bare_config]])
    by (vm_compute; reflexivity).
  assert (Hk : [mlp_config; bare_config] !! 1 = Some bare_config)
    by reflexivity.
  assert (Hloop : failing_prefix = (fst failing_prefix, Ok failing_prefix_acc))
    by (vm_compute; reflexivity).
  assert (Hrun : @train_and_evaluate (with_val_losses rising) bare_config "MLP"
                   "MNIST" 28 None
                   {| stdout := stdout (fst failing_prefix)
                                ++ ["Training model 2/2"];
                      fs := fs (fst failing_prefix) |}
                 = (fst failing_run, Raise (KeyError "fc1_hidden")))
    by (vm_compute; reflexivity).
  split; [exact Hconf|]. split; [exact Hk|]. split; [exact Hloop|].
  split; [exact Hrun|].
  destruct (@failed_configuration_keeps_earlier_results
              (with_val_losses rising) script_dir_parent "MLP" "MNIST"
              "configs" "out" None 28%Z [mlp_config; bare_config] 1
              bare_config (world_with [mlp_config; bare_config])
              (fst failing_prefix) (fst failing_run) failing_prefix_acc
              (KeyError "fc1_hidden") Hconf Hk Hloop Hrun)
    as (Hmain & Hfs & Hlen & _).
  split; [exact Hmain|]. split; [exact Hfs | exact Hlen].
Defined.

Lemma rows_appended_witness :
  fs stale_world !! results_csv_path_of script_dir_parent "MLP" "MNIST" "out"
  = Some [CsvHeader ["old"]]
  /\ [CsvHeader ["old"]] <> []
  /\ two_configs <> []
  /\ stale_loop = (fst stale_loop, Ok stale_acc)
  /\ exists rows,
       fs (fst stale_loop)
       !! results_csv_path_of script_dir_parent "MLP" "MNIST" "out"
       = Some ([CsvHeader ["old"]] ++ rows)
       /\ length rows = length two_configs
       /\ header_rows rows = 0.
Proof.
  assert (Hold : fs stale_world
                 !! results_csv_path_of script_dir_parent "MLP" "MNIST" "out"
                 = Some [CsvHeader ["old"]]) by (vm_compute; reflexivity).
  assert (Hne : [CsvHeader ["old"]] <> []) by discriminate.
  assert (Hcs : two_configs <> []) by discriminate.
  assert (Hloop : stale_loop = (fst stale_loop, Ok stale_acc))
    by (vm_compute; reflexivity).
  split; [exact Hold|]. split; [exact Hne|]. split; [exact Hcs|].
  split; [exact Hloop|].
  destruct (@rows_appended_to_existing_results (with_val_losses rising)
              script_dir_parent "MLP" "MNIST" "out" None 28%Z two_configs
              [CsvHeader ["old"]] stale_world (fst stale_loop) stale_acc
              Hold Hne Hcs Hloop) as [(rows & Hf & Hl & Hh & _) _].
  exists rows. split; [exact Hf|]. split; [exact Hl | exact Hh].
Defined.

Lemma result_record_fields_witness :
  NoDup (dict_keys indexed_config)
  /\ dict_get (result_record 0 indexed_config rising_result) "accuracy"
     = Some (PyFloat (accuracy rising_result))
  /\ dict_get (result_record 0 indexed_config rising_result) "batch_size"
     = dict_get indexed_config "batch_size".
Proof.
  assert (Hnd : NoDup (dict_keys indexed_config)).
  { apply (bool_decide_unpack (NoDup (dict_keys indexed_config))).
    vm_compute. exact I. }
  split; [exact Hnd|].
  destruct (result_record_fields 0 indexed_config rising_result Hnd)
    as (_ & Ha & _ & _ & _ & _ & Hk & _).
  split; [exact Ha|]. apply Hk; [discriminate|].
  unfold derived_fields. simpl. intros [H|[H|[H|[H|[H|[]]]]]]; discriminate.
Defined.

Lemma main_train_prints_witness :
  fs (world_with two_configs)
  !! config_file_path_of script_dir_parent "MLP" "MNIST" "configs"
  = Some [JsonConfigs two_configs]
  /\ two_configs_run = (fst two_configs_run, Ok tt)
  /\ exists outs,
       length outs = length two_configs
       /\ stdout (fst two_configs_run)
          = stdout (world_with two_configs)
            ++ progress (length two_configs) 0 outs
            ++ ["Results saved to "
                +:+ results_csv_path_of script_dir_parent "MLP" "MNIST" "out";
                "Losses saved to "
                +:+ losses_json_path_of script_dir_parent "MLP" "MNIST" "out"].
Proof.
  assert (Hconf : fs (world_with two_configs)
                  !! config_file_path_of script_dir_parent "MLP" "MNIST"
                       "configs"
                  = Some [JsonConfigs two_configs])
    by (vm_compute; reflexivity).
  assert (Hrun : two_configs_run = (fst two_configs_run, Ok tt))
    by (vm_compute; reflexivity).
  split; [exact Hconf|]. split; [exact Hrun|].
  destruct (@main_train_prints (with_val_losses rising) script_dir_parent
              "MLP" "MNIST" "configs" "out" None 28%Z two_configs
              (world_with two_configs) (fst two_configs_run) Hconf Hrun)
    as (outs & Hlen & _ & Hout).
  exists outs. split; [exact Hlen | exact Hout].
Defined.

End MoreRuns.
